(** * SP1 / GeoJSON / CSV conversion core ([src/utils/sp1Parser.ts])

    A shallow embedding of the five conversion functions of the bridge
    ([parseSP1File], [generateSP1Content], [convertToGeoJSON],
    [convertToCSV], [parseCSVToSP1]) together with the part of the
    JavaScript runtime they call: string primitives, ordinary objects
    used as string-keyed maps, exceptions, and the [number] primitives
    [parseFloat], [isNaN], [toFixed] and number-to-string conversion.

    Strings are sequences of code units; the model covers the code units
    0..255 (Rocq's [ascii]), read as the first 256 code points.  The
    program performs no arithmetic on numbers: it only obtains them from
    [parseFloat] and hands them to [isNaN], [toFixed], string conversion
    and truthiness tests.  The embedding is therefore parametric in an
    interface [JSNumber]; an IEEE 754 binary64 instance built on the
    Standard Library's [spec_float] is given in [Binary64].

    The second part embeds the components that call the converters:
    the extension check of [FileUploadZone], the panel
    [ConversionStatus], and the handlers and state cells of
    [SP1Converter], as a machine stepped by the events of the page. *)

From Stdlib Require Import List String Ascii Bool Arith ZArith Lia.
From Stdlib Require Import DecimalString DecimalN.
From Stdlib Require Import Sorting.Sorted Sorting.Permutation.
From Stdlib Require Import Floats.SpecFloat.
Import ListNotations.

Open Scope list_scope.
Open Scope string_scope.

(** ** Exceptions *)

Inductive exn : Type :=
| JSError (msg : string)      (* [throw new Error(msg)] *)
| TypeError (msg : string).   (* a method call on [undefined] *)

Inductive result (A : Type) : Type :=
| Ok (a : A)
| Throw (e : exn).

Arguments Ok {A} a.
Arguments Throw {A} e.

Definition bind {A B : Type} (r : result A) (k : A -> result B) : result B :=
  match r with
  | Ok a => k a
  | Throw e => Throw e
  end.

Notation "x <- r ;; k" := (bind r (fun x => k))
  (at level 61, r at next level, right associativity).

(** ** String primitives *)

(** [WhiteSpace] and [LineTerminator] code points below 256: TAB, LF, VT,
    FF, CR, SPACE and NO-BREAK SPACE.  This is the set removed by
    [String.prototype.trim] and matched by the regular expression [\s]. *)
Definition is_ws (c : ascii) : bool :=
  match c with
  | "009"%char | "010"%char | "011"%char | "012"%char | "013"%char
  | " "%char | "160"%char => true
  | _ => false
  end.

Definition is_digit (c : ascii) : bool :=
  match c with
  | "0"%char | "1"%char | "2"%char | "3"%char | "4"%char
  | "5"%char | "6"%char | "7"%char | "8"%char | "9"%char => true
  | _ => false
  end.

(** ToBoolean on a string: only the empty string is falsy. *)
Definition truthy_str (s : string) : bool :=
  match s with
  | EmptyString => false
  | String _ _ => true
  end.

(** ToBoolean on a possibly [undefined] string. *)
Definition truthy_opt (o : option string) : bool :=
  match o with
  | Some s => truthy_str s
  | None => false
  end.

(** ToString on a possibly [undefined] string, as done by template
    literals and by [parseFloat] on its argument. *)
Definition str_of_opt (o : option string) : string :=
  match o with
  | Some s => s
  | None => "undefined"
  end.

Fixpoint trimStart (s : string) : string :=
  match s with
  | EmptyString => EmptyString
  | String c s' => if is_ws c then trimStart s' else s
  end.

Fixpoint trimEnd (s : string) : string :=
  match s with
  | EmptyString => EmptyString
  | String c s' =>
      match trimEnd s' with
      | EmptyString => if is_ws c then EmptyString else String c EmptyString
      | r => String c r
      end
  end.

(** [s.trim()] *)
Definition trim (s : string) : string := trimEnd (trimStart s).

(** [s.split(sep)] for a one-character separator. *)
Fixpoint split_char (sep : ascii) (s : string) : list string :=
  match s with
  | EmptyString => [EmptyString]
  | String c s' =>
      if Ascii.eqb c sep then EmptyString :: split_char sep s'
      else match split_char sep s' with
           | h :: t => String c h :: t
           | [] => [String c EmptyString]
           end
  end.

(** [s.split(/\s+/)]: the head of the result is the piece being read;
    [gap] tells that the preceding character was white space. *)
Fixpoint split_ws_from (gap : bool) (s : string) : list string :=
  match s with
  | EmptyString => [EmptyString]
  | String c s' =>
      if is_ws c then
        if gap then split_ws_from true s'
        else EmptyString :: split_ws_from true s'
      else match split_ws_from false s' with
           | h :: t => String c h :: t
           | [] => [String c EmptyString]
           end
  end.

Definition split_ws (s : string) : list string := split_ws_from false s.

(** [s.startsWith(c)] and [s.includes(c)] for a one-character argument. *)
Definition startsWith (c : ascii) (s : string) : bool :=
  match s with
  | EmptyString => false
  | String d _ => Ascii.eqb d c
  end.

Fixpoint includes (c : ascii) (s : string) : bool :=
  match s with
  | EmptyString => false
  | String d s' => Ascii.eqb d c || includes c s'
  end.

(** [s.substring(1)] *)
Definition substring1 (s : string) : string :=
  match s with
  | EmptyString => EmptyString
  | String _ s' => s'
  end.

Definition in_range (lo hi : nat) (c : ascii) : bool :=
  ((lo <=? nat_of_ascii c) && (nat_of_ascii c <=? hi))%nat.

(** Lower-casing of one code unit below 256: A..Z and the capital letters
    U+00C0..U+00DE (U+00D7 excepted) move up by 32. *)
Definition lower_char (c : ascii) : ascii :=
  if in_range 65 90 c
     || (in_range 192 222 c && negb (nat_of_ascii c =? 215)%nat)
  then ascii_of_nat (nat_of_ascii c + 32) else c.

(** [s.toLowerCase()] *)
Fixpoint toLowerCase (s : string) : string :=
  match s with
  | EmptyString => EmptyString
  | String c s' => String (lower_char c) (toLowerCase s')
  end.

(** [Canonicalize] of a case-insensitive regular expression without the
    [u] flag: a character is replaced by its upper-case form unless that
    form is longer than one code unit or maps a non-ASCII character to an
    ASCII one.  Below 256 this upper-cases a..z and U+00E0..U+00FE
    (U+00F7 excepted); the upper-case forms of U+00B5 and U+00FF lie
    above 255 and equal the form of no other character below 256, so
    those two are left in place. *)
Definition canon_char (c : ascii) : ascii :=
  if in_range 97 122 c
     || (in_range 224 254 c && negb (nat_of_ascii c =? 247)%nat)
  then ascii_of_nat (nat_of_ascii c - 32) else c.

Fixpoint canon (s : string) : string :=
  match s with
  | EmptyString => EmptyString
  | String c s' => String (canon_char c) (canon s')
  end.

(** [/^pat$/i.test(s)] for a pattern [pat] made of literal characters. *)
Definition test_ci (pat s : string) : bool := String.eqb (canon s) (canon pat).

(** [l.join(sep)] *)
Definition join (sep : string) (l : list string) : string := String.concat sep l.

(** Decimal rendering of a non-negative integer. *)
Definition string_of_N (n : N) : string := NilEmpty.string_of_uint (N.to_uint n).
Definition string_of_nat (n : nat) : string := string_of_N (N.of_nat n).

(** [content.split('\n').map(line => line.trim()).filter(Boolean)] *)
Definition trimmed_lines (content : string) : list string :=
  filter truthy_str (map trim (split_char "010"%char content)).

Definition nl : string := String "010"%char EmptyString.    (* '\n' *)
Definition tab : string := String "009"%char EmptyString.   (* '\t' *)

(** [arr.findIndex(f)]: the position of the first element satisfying [f],
    or [-1]. *)
Fixpoint findIndex {A : Type} (f : A -> bool) (l : list A) : Z :=
  match l with
  | [] => (-1)%Z
  | a :: l' =>
      if f a then 0%Z
      else let r := findIndex f l' in
           if (r =? -1)%Z then (-1)%Z else (r + 1)%Z
  end.

(** [arr[i]]: [undefined] outside the array. *)
Definition at_index {A : Type} (l : list A) (i : Z) : option A :=
  if (i <? 0)%Z then None else nth_error l (Z.to_nat i).

(** ** Ordinary objects used as maps

    An object with string keys is the list of its own properties in
    creation order, keys pairwise distinct.  Enumeration ([Object.keys],
    [Object.values], spread) lists array-index keys first, in increasing
    numeric order, then the other keys in creation order.  Lookup reads
    own properties; the members inherited from [Object.prototype] are not
    part of the model. *)
Definition jsobj (V : Type) : Type := list (string * V).

Fixpoint obj_get {V : Type} (o : jsobj V) (k : string) : option V :=
  match o with
  | [] => None
  | (k', v) :: o' => if String.eqb k' k then Some v else obj_get o' k
  end.

(** Definition of an own data property: an existing key keeps its place. *)
Fixpoint obj_define {V : Type} (k : string) (v : V) (o : jsobj V) : jsobj V :=
  match o with
  | [] => [(k, v)]
  | (k', v') :: o' =>
      if String.eqb k' k then (k, v) :: o' else (k', v') :: obj_define k v o'
  end.

(** [o[k] = v] for a string [v] on an object created by [{}]: the key
    [__proto__] reaches the inherited setter, which ignores a value that
    is not an object, so no property is created. *)
Definition obj_assign (k v : string) (o : jsobj string) : jsobj string :=
  if String.eqb k "__proto__" then o else obj_define k v o.

Fixpoint digits_value (s : string) (acc : N) : N :=
  match s with
  | EmptyString => acc
  | String c s' => digits_value s' (10 * acc + (N_of_ascii c - 48))%N
  end.

Fixpoint all_digits (s : string) : bool :=
  match s with
  | EmptyString => true
  | String c s' => is_digit c && all_digits s'
  end.

(** The array index a key denotes, if it is the canonical decimal form
    of an integer in [0, 2^32 - 2]. *)
Definition array_index (k : string) : option N :=
  match k with
  | EmptyString => None
  | String c rest =>
      if all_digits k
         && (negb (Ascii.eqb c "0"%char) || negb (truthy_str rest))
         && (String.length k <=? 10)%nat
         && (digits_value k 0 <? 4294967295)%N
      then Some (digits_value k 0) else None
  end.

Fixpoint insert_indexed {V : Type} (e : N * (string * V))
         (l : list (N * (string * V))) : list (N * (string * V)) :=
  match l with
  | [] => [e]
  | e' :: l' =>
      if (fst e <=? fst e')%N then e :: l else e' :: insert_indexed e l'
  end.

Definition indexed_entries {V : Type} (o : jsobj V) : list (N * (string * V)) :=
  fold_right
    (fun kv acc => match array_index (fst kv) with
                   | Some i => insert_indexed (i, kv) acc
                   | None => acc
                   end) [] o.

Definition named_entries {V : Type} (o : jsobj V) : jsobj V :=
  filter (fun kv => match array_index (fst kv) with
                    | Some _ => false
                    | None => true
                    end) o.

Definition own_entries {V : Type} (o : jsobj V) : jsobj V :=
  (map snd (indexed_entries o) ++ named_entries o)%list.

(** [Object.keys(o)] and [Object.values(o)] *)
Definition obj_keys {V : Type} (o : jsobj V) : list string := map fst (own_entries o).
Definition obj_values {V : Type} (o : jsobj V) : list V := map snd (own_entries o).

(** ** Sets of strings ([new Set<string>()]) in insertion order *)
Definition set_add (k : string) (s : list string) : list string :=
  if existsb (String.eqb k) s then s else (s ++ [k])%list.

(** [arr.sort()] on strings: ascending by code units. *)
Fixpoint insert_sorted (k : string) (l : list string) : list string :=
  match l with
  | [] => [k]
  | k' :: l' => if String.leb k k' then k :: l else k' :: insert_sorted k l'
  end.

Definition sort_strings (l : list string) : list string :=
  fold_right insert_sorted [] l.

(** ** The number primitives used by the program *)
Class JSNumber (number : Type) : Type := {
  parseFloat : string -> number;          (* global [parseFloat] *)
  isNaN : number -> bool;                 (* global [isNaN] on a number *)
  truthy_num : number -> bool;            (* ToBoolean on a number *)
  num_to_string : number -> string;       (* ToString on a number *)
  toFixed : number -> nat -> string;      (* [Number.prototype.toFixed] *)
  num_zero : number                       (* the literal [0] *)
}.

(** ** Data model and the five conversion functions *)

Section Converter.
Context {number : Type} {JSN : JSNumber number}.

(** [interface SP1Point], its fields under the prefix [pt_]; [None]
    stands for [undefined].  The type
    declares [id: string], but [parseCSVToSP1] stores [values[idIndex]],
    which is [undefined] on a short row. *)
Record SP1Point : Type := {
  pt_id : option string;
  pt_x : number;
  pt_y : number;
  pt_elevation : option number;
  pt_attributes : option (jsobj string)
}.

(** [interface SP1Header], its fields under the prefix [hdr_]. *)
Record SP1Header : Type := {
  hdr_version : option string;
  hdr_survey : option string;
  hdr_datum : option string;
  hdr_projection : option string;
  hdr_comments : option (list string)
}.

(** [interface SP1Data] *)
Record SP1Data : Type := {
  header : SP1Header;
  points : list SP1Point
}.

(** The object literal [{}] as a header. *)
Definition empty_header : SP1Header :=
  {| hdr_version := None; hdr_survey := None; hdr_datum := None;
     hdr_projection := None; hdr_comments := None |}.

(** *** parseSP1File *)

(** The variables of the loop: [header], [points] and [inHeader]. *)
Record reader_state : Type := {
  rs_header : SP1Header;
  rs_points : list SP1Point;
  rs_inHeader : bool
}.

Definition initial_state : reader_state :=
  {| rs_header := empty_header; rs_points := []; rs_inHeader := true |}.

(** [header.comments = header.comments || []; header.comments.push(c)] *)
Definition push_comment (h : SP1Header) (c : string) : SP1Header :=
  {| hdr_version := hdr_version h; hdr_survey := hdr_survey h;
     hdr_datum := hdr_datum h; hdr_projection := hdr_projection h;
     hdr_comments :=
       Some (match hdr_comments h with
             | Some cs => cs
             | None => []
             end ++ [c])%list |}.

(** The [switch (key.toLowerCase())] with its four assignments. *)
Definition set_header_field (h : SP1Header) (key : string)
           (value : option string) : SP1Header :=
  let k := toLowerCase key in
  if String.eqb k "version" then
    {| hdr_version := value; hdr_survey := hdr_survey h;
       hdr_datum := hdr_datum h; hdr_projection := hdr_projection h;
       hdr_comments := hdr_comments h |}
  else if String.eqb k "survey" then
    {| hdr_version := hdr_version h; hdr_survey := value;
       hdr_datum := hdr_datum h; hdr_projection := hdr_projection h;
       hdr_comments := hdr_comments h |}
  else if String.eqb k "datum" then
    {| hdr_version := hdr_version h; hdr_survey := hdr_survey h;
       hdr_datum := value; hdr_projection := hdr_projection h;
       hdr_comments := hdr_comments h |}
  else if String.eqb k "projection" then
    {| hdr_version := hdr_version h; hdr_survey := hdr_survey h;
       hdr_datum := hdr_datum h; hdr_projection := value;
       hdr_comments := hdr_comments h |}
  else h.

(** [for (let i = 4; i < parts.length; i++)
      point.attributes[`attr${i - 3}`] = parts[i]],
    [toks] being [parts[i..]]. *)
Fixpoint sp1_attributes (i : nat) (toks : list string)
         (attrs : jsobj string) : jsobj string :=
  match toks with
  | [] => attrs
  | t :: toks' =>
      sp1_attributes (S i) toks'
        (obj_assign ("attr" ++ string_of_nat (i - 3)) t attrs)
  end.

(** The point built from the tokens of a data line, if there are at
    least three of them. *)
Definition sp1_point (parts : list string) : option SP1Point :=
  match parts with
  | p0 :: p1 :: p2 :: rest =>
      Some {| pt_id := Some p0;
              pt_x := parseFloat p1;
              pt_y := parseFloat p2;
              pt_elevation :=
                match rest with
                | p3 :: _ =>
                    if negb (isNaN (parseFloat p3))
                    then Some (parseFloat p3) else None
                | [] => None
                end;
              pt_attributes :=
                match rest with
                | _ :: (_ :: _) as extra => Some (sp1_attributes 4 extra [])
                | _ => None
                end |}
  | _ => None
  end.

(** One iteration of [for (const line of lines)]. *)
Definition sp1_step (st : reader_state) (line : string) : result reader_state :=
  if negb (truthy_str line) || startsWith "#"%char line then
    if startsWith "#"%char line then
      Ok {| rs_header := push_comment (rs_header st) (trim (substring1 line));
            rs_points := rs_points st;
            rs_inHeader := rs_inHeader st |}
    else Ok st
  else if rs_inHeader st && includes ":"%char line then
    let parts := map trim (split_char ":"%char line) in
    let value := nth_error parts 1 in
    match nth_error parts 0 with
    | None => Throw (TypeError "Cannot read properties of undefined (reading 'toLowerCase')")
    | Some key =>
        Ok {| rs_header := set_header_field (rs_header st) key value;
              rs_points := rs_points st;
              rs_inHeader := rs_inHeader st |}
    end
  else
    let parts := split_ws line in
    Ok {| rs_header := rs_header st;
          rs_points :=
            match sp1_point parts with
            | Some point => (rs_points st ++ [point])%list
            | None => rs_points st
            end;
          rs_inHeader := false |}.

Fixpoint sp1_loop (st : reader_state) (lines : list string) : result reader_state :=
  match lines with
  | [] => Ok st
  | line :: lines' => st' <- sp1_step st line ;; sp1_loop st' lines'
  end.

Definition parseSP1File (content : string) : result SP1Data :=
  st <- sp1_loop initial_state (trimmed_lines content) ;;
  Ok {| header := rs_header st; points := rs_points st |}.

(** *** generateSP1Content *)

(** [if (data.header.f) content += `Label: ${data.header.f}\n`] *)
Definition header_line (label : string) (field : option string) : string :=
  if truthy_opt field then label ++ ": " ++ str_of_opt field ++ nl
  else EmptyString.

(** The text of one point, before the final newline. *)
Definition sp1_line (point : SP1Point) : string :=
  let line := str_of_opt (pt_id point) ++ tab ++ toFixed (pt_x point) 6
              ++ tab ++ toFixed (pt_y point) 6 in
  let line := match pt_elevation point with
              | Some e => line ++ tab ++ toFixed e 3
              | None => line
              end in
  match pt_attributes point with
  | Some attrs =>
      fold_left (fun line value => line ++ tab ++ value) (obj_values attrs) line
  | None => line
  end.

Definition generateSP1Content (data : SP1Data) : string :=
  let h := header data in
  let content := EmptyString in
  let content :=
    match hdr_comments h with
    | Some cs => content ++ join nl (map (fun comment => "# " ++ comment) cs) ++ nl
    | None => content
    end in
  let content := content ++ header_line "Version" (hdr_version h) in
  let content := content ++ header_line "Survey" (hdr_survey h) in
  let content := content ++ header_line "Datum" (hdr_datum h) in
  let content := content ++ header_line "Projection" (hdr_projection h) in
  let content := content ++ nl in
  fold_left (fun content point => content ++ sp1_line point ++ nl)
            (points data) content.

(** *** convertToGeoJSON *)

Inductive jsvalue : Type :=
| VUndefined
| VString (s : string)
| VNumber (n : number).

Record Geometry : Type := {
  geometry_type : string;
  coordinates : list number
}.

Record Feature : Type := {
  feature_type : string;
  geometry : Geometry;
  properties : jsobj jsvalue
}.

(** [{ type: 'name', properties: { name } }] *)
Record Crs : Type := {
  crs_type : string;
  crs_name : string
}.

Record FeatureCollection : Type := {
  collection_type : string;
  features : list Feature;
  crs : Crs
}.

(** [point.elevation || 0] *)
Definition elevation_or_0 (point : SP1Point) : number :=
  match pt_elevation point with
  | Some e => if truthy_num e then e else num_zero
  | None => num_zero
  end.

(** [{ id: point.id, elevation: point.elevation, ...point.attributes }] *)
Definition feature_properties (point : SP1Point) : jsobj jsvalue :=
  let base :=
    [("id", match pt_id point with Some s => VString s | None => VUndefined end);
     ("elevation", match pt_elevation point with
                   | Some e => VNumber e
                   | None => VUndefined
                   end)] in
  match pt_attributes point with
  | Some attrs =>
      fold_left (fun o kv => obj_define (fst kv) (VString (snd kv)) o)
                (own_entries attrs) base
  | None => base
  end.

Definition feature_of_point (point : SP1Point) : Feature :=
  {| feature_type := "Feature";
     geometry := {| geometry_type := "Point";
                    coordinates := [pt_x point; pt_y point; elevation_or_0 point] |};
     properties := feature_properties point |}.

Definition convertToGeoJSON (sp1Data : SP1Data) : FeatureCollection :=
  {| collection_type := "FeatureCollection";
     features := map feature_of_point (points sp1Data);
     crs := {| crs_type := "name";
               crs_name :=
                 if truthy_opt (hdr_projection (header sp1Data))
                 then str_of_opt (hdr_projection (header sp1Data))
                 else "EPSG:4326" |} |}.

(** *** convertToCSV *)

(** The [Set] filled by the first loop. *)
Definition allAttributes (pts : list SP1Point) : list string :=
  fold_left
    (fun set point =>
       match pt_attributes point with
       | Some attrs => fold_left (fun set key => set_add key set) (obj_keys attrs) set
       | None => set
       end) pts [].

Definition attributeKeys (pts : list SP1Point) : list string :=
  sort_strings (allAttributes pts).

(** [${point.elevation || ''}] *)
Definition elevation_field (point : SP1Point) : string :=
  match pt_elevation point with
  | Some e => if truthy_num e then num_to_string e else EmptyString
  | None => EmptyString
  end.

(** [${point.attributes?.[key] || ''}] *)
Definition attribute_field (point : SP1Point) (key : string) : string :=
  match pt_attributes point with
  | Some attrs =>
      match obj_get attrs key with
      | Some v => if truthy_str v then v else EmptyString
      | None => EmptyString
      end
  | None => EmptyString
  end.

Definition csv_row (keys : list string) (point : SP1Point) : string :=
  let row := str_of_opt (pt_id point) ++ "," ++ num_to_string (pt_x point)
             ++ "," ++ num_to_string (pt_y point) ++ "," ++ elevation_field point in
  fold_left (fun row key => row ++ "," ++ attribute_field point key) keys row.

(** The text up to and including the newline that ends the header row. *)
Definition csv_header_row (keys : list string) : string :=
  "ID,X,Y,Elevation" ++ join EmptyString (map (fun key => "," ++ key) keys) ++ nl.

Definition convertToCSV (sp1Data : SP1Data) : string :=
  let keys := attributeKeys (points sp1Data) in
  fold_left (fun csv point => csv ++ csv_row keys point ++ nl)
            (points sp1Data) (csv_header_row keys).

(** *** parseCSVToSP1 *)

(** The inner loop over [j], [cols] being [columns[j..]]. *)
Fixpoint csv_attributes (j : nat) (cols values : list string)
         (idIndex xIndex yIndex elevIndex : Z)
         (attributes : jsobj string) : jsobj string :=
  match cols with
  | [] => attributes
  | col :: cols' =>
      let zj := Z.of_nat j in
      let attributes' :=
        if negb (zj =? idIndex)%Z && negb (zj =? xIndex)%Z
           && negb (zj =? yIndex)%Z && negb (zj =? elevIndex)%Z
        then match nth_error values j with
             | Some v => if truthy_str v then obj_assign col v attributes
                         else attributes
             | None => attributes
             end
        else attributes in
      csv_attributes (S j) cols' values idIndex xIndex yIndex elevIndex attributes'
  end.

(** The point built from one row of at least three cells. *)
Definition csv_point (columns values : list string)
           (idIndex xIndex yIndex elevIndex : Z) : SP1Point :=
  let cell := at_index values elevIndex in
  let attributes :=
    csv_attributes 0 columns values idIndex xIndex yIndex elevIndex [] in
  {| pt_id := at_index values idIndex;
     pt_x := parseFloat (str_of_opt (at_index values xIndex));
     pt_y := parseFloat (str_of_opt (at_index values yIndex));
     pt_elevation :=
       if negb (elevIndex =? -1)%Z && truthy_opt cell
          && negb (isNaN (parseFloat (str_of_opt cell)))
       then Some (parseFloat (str_of_opt cell)) else None;
     pt_attributes :=
       if (0 <? List.length (obj_keys attributes))%nat
       then Some attributes else None |}.

(** [for (let i = 1; i < lines.length; i++)], [rows] being [lines[i..]]. *)
Fixpoint csv_rows (columns rows : list string)
         (idIndex xIndex yIndex elevIndex : Z)
         (pts : list SP1Point) : list SP1Point :=
  match rows with
  | [] => pts
  | row :: rows' =>
      let values := map trim (split_char ","%char row) in
      csv_rows columns rows' idIndex xIndex yIndex elevIndex
        (if (List.length values <? 3)%nat then pts
         else (pts ++ [csv_point columns values idIndex xIndex yIndex elevIndex])%list)
  end.

Definition EmptyInputError : exn := JSError "Empty CSV file".
Definition MissingColumnsError : exn :=
  JSError "CSV must contain ID, X, and Y columns".

Definition parseCSVToSP1 (csvContent : string) (hdr : SP1Header) : result SP1Data :=
  match trimmed_lines csvContent with
  | [] => Throw EmptyInputError
  | headerLine :: rows =>
      let columns := map trim (split_char ","%char headerLine) in
      let idIndex := findIndex (test_ci "id") columns in
      let xIndex := findIndex (test_ci "x") columns in
      let yIndex := findIndex (test_ci "y") columns in
      let elevIndex :=
        findIndex (fun col => test_ci "elevation" col || test_ci "z" col) columns in
      if (idIndex =? -1)%Z || (xIndex =? -1)%Z || (yIndex =? -1)%Z
      then Throw MissingColumnsError
      else Ok {| header := hdr;
                 points := csv_rows columns rows idIndex xIndex yIndex elevIndex [] |}
  end.

End Converter.

(** ** IEEE 754 binary64 numbers

    A [number] is a [spec_float] of precision 53 and maximal exponent
    1024.  Decimal text is read with round-to-nearest-even, [toFixed]
    rounds the exact binary value half up, and number-to-string
    conversion prints the shortest decimal that reads back as the same
    value. *)
Module Binary64.

Definition prec : Z := 53.
Definition emax : Z := 1024.

(** The number nearest to [m * 10^e], with sign [neg]. *)
Definition of_decimal (neg : bool) (m : N) (e : Z) : spec_float :=
  match m with
  | N0 => S754_zero neg
  | Npos p =>
      match e with
      | Zneg k =>
          let '(q, e', l) :=
            SFdiv_core_binary prec emax (Zpos p) 0 (Zpos (Pos.pow 10 k)) 0 in
          binary_round_aux prec emax neg q e' l
      | Z0 => binary_round prec emax neg p 0
      | Zpos k => binary_round prec emax neg (p * Pos.pow 10 k) 0
      end
  end.

(** The longest prefix of decimal digits and what follows it. *)
Fixpoint span_digits (s : string) : string * string :=
  match s with
  | EmptyString => (EmptyString, EmptyString)
  | String c s' =>
      if is_digit c
      then let '(d, r) := span_digits s' in (String c d, r)
      else (EmptyString, s)
  end.

(** The value of an [ExponentPart] at the head of [s], or 0 when [s]
    does not start with one. *)
Definition exponent_part (s : string) : Z :=
  match s with
  | String c s' =>
      if Ascii.eqb c "e"%char || Ascii.eqb c "E"%char then
        let '(neg, s'') :=
          match s' with
          | String "+"%char t => (false, t)
          | String "-"%char t => (true, t)
          | _ => (false, s')
          end in
        let '(d, _) := span_digits s'' in
        if truthy_str d
        then (if neg then - Z.of_N (digits_value d 0) else Z.of_N (digits_value d 0))%Z
        else 0%Z
      else 0%Z
  | EmptyString => 0%Z
  end.

(** The value of the longest prefix of [s] that is a
    [StrUnsignedDecimalLiteral], with sign [neg]; NaN without one. *)
Definition unsigned_literal (neg : bool) (s : string) : spec_float :=
  if String.prefix "Infinity" s then S754_infinity neg
  else
    let '(d1, r1) := span_digits s in
    let '(d2, r2) :=
      match r1 with
      | String "."%char t =>
          let '(d, r) := span_digits t in
          if truthy_str d1 || truthy_str d then (d, r) else (EmptyString, r1)
      | _ => (EmptyString, r1)
      end in
    if truthy_str d1 || truthy_str d2 then
      of_decimal neg (digits_value (d1 ++ d2) 0)
                 (exponent_part r2 - Z.of_nat (String.length d2))
    else S754_nan.

Definition parseFloat (s : string) : spec_float :=
  match trimStart s with
  | String "+"%char t => unsigned_literal false t
  | String "-"%char t => unsigned_literal true t
  | t => unsigned_literal false t
  end.

Definition isNaN (x : spec_float) : bool :=
  match x with
  | S754_nan => true
  | _ => false
  end.

(** [Number.isFinite] *)
Definition is_finite (x : spec_float) : bool :=
  match x with
  | S754_zero _ | S754_finite _ _ _ => true
  | _ => false
  end.

(** ToBoolean: false for the two zeros and NaN. *)
Definition truthy_num (x : spec_float) : bool :=
  match x with
  | S754_nan | S754_zero _ => false
  | _ => true
  end.

(** [n] zeros. *)
Fixpoint zeros (n : nat) : string :=
  match n with
  | O => EmptyString
  | S n' => String "0"%char (zeros n')
  end.

(** The first [n] characters of [s] and the rest. *)
Fixpoint split_at (n : nat) (s : string) : string * string :=
  match n, s with
  | S n', String c s' => let '(a, b) := split_at n' s' in (String c a, b)
  | _, _ => (EmptyString, s)
  end.

(** A positive finite value [m * 2^e] as a fraction. *)
Definition numerator (m : positive) (e : Z) : Z :=
  match e with
  | Zpos k => Zpos m * 2 ^ Zpos k
  | _ => Zpos m
  end.

Definition denominator (e : Z) : Z :=
  match e with
  | Zneg k => 2 ^ Zpos k
  | _ => 1
  end.

(** [num / den < 10^n] *)
Definition below_pow10 (num den n : Z) : bool :=
  if (0 <=? n)%Z then (num <? 10 ^ n * den)%Z
  else (num * 10 ^ (- n) <? den)%Z.

Fixpoint search_down (fuel : nat) (num den n : Z) : Z :=
  match fuel with
  | O => n
  | S fuel' =>
      if below_pow10 num den (n - 1)
      then search_down fuel' num den (n - 1) else n
  end.

Fixpoint search_up (fuel : nat) (num den n : Z) : Z :=
  match fuel with
  | O => n
  | S fuel' =>
      if below_pow10 num den n then n
      else search_up fuel' num den (n + 1)
  end.

(** The integer [n] with [10^(n-1) <= num / den < 10^n]. *)
Definition decimal_exponent (num den : Z) : Z :=
  let est := ((Z.log2 num - Z.log2 den) * 30103 / 100000)%Z in
  search_down 4 num den (search_up 4 num den est).

Definition same_number (x y : spec_float) : bool := SFeqb x y.

(** The digits [s] and exponent [n] of the shortest decimal
    [s * 10^(n-k)], [k] the number of digits of [s], that reads back as
    the positive finite value [m * 2^e]; [k] is tried from [k0] up. *)
Fixpoint shortest_from (fuel : nat) (k : Z) (m : positive) (e : Z)
         (num den n : Z) : N * Z :=
  match fuel with
  | O => (0%N, n)
  | S fuel' =>
      let p := (k - n)%Z in
      let a := (num * 10 ^ Z.max p 0)%Z in
      let b := (den * 10 ^ Z.max (- p) 0)%Z in
      let lo := (a / b)%Z in
      let hi := (lo + 1)%Z in
      let v := S754_finite false m e in
      let ok_lo := same_number (of_decimal false (Z.to_N lo) (- p)) v in
      let ok_hi := same_number (of_decimal false (Z.to_N hi) (- p)) v in
      let pick (s : Z) : N * Z :=
        if (s =? 10 ^ k)%Z then (Z.to_N (s / 10), (n + 1)%Z) else (Z.to_N s, n) in
      if ok_lo && ok_hi then
        match (2 * a ?= (lo + hi) * b)%Z with
        | Lt => pick lo
        | Gt => pick hi
        | Eq => if Z.even lo then pick lo else pick hi
        end
      else if ok_lo then pick lo
      else if ok_hi then pick hi
      else shortest_from fuel' (k + 1)%Z m e num den n
  end.

Definition shortest (m : positive) (e : Z) : N * Z :=
  let num := numerator m e in
  let den := denominator e in
  shortest_from 17 1 m e num den (decimal_exponent num den).

(** [Number::toString] of a positive finite value, from its shortest
    digits [ds] and decimal exponent [n]. *)
Definition format_shortest (ds : string) (n : Z) : string :=
  let k := Z.of_nat (String.length ds) in
  if ((k <=? n) && (n <=? 21))%Z then ds ++ zeros (Z.to_nat (n - k))
  else if ((0 <? n) && (n <=? 21))%Z then
    let '(a, b) := split_at (Z.to_nat n) ds in a ++ "." ++ b
  else if ((-6 <? n) && (n <=? 0))%Z then "0." ++ zeros (Z.to_nat (- n)) ++ ds
  else
    let ex := (n - 1)%Z in
    let sign := if (ex <? 0)%Z then "-" else "+" in
    let mant := match ds with
                | String c EmptyString => ds
                | String c rest => String c ("." ++ rest)
                | EmptyString => ds
                end in
    mant ++ "e" ++ sign ++ string_of_N (Z.to_N (Z.abs ex)).

(** ToString on a number (radix 10). *)
Definition num_to_string (x : spec_float) : string :=
  match x with
  | S754_nan => "NaN"
  | S754_zero _ => "0"
  | S754_infinity neg => if neg then "-Infinity" else "Infinity"
  | S754_finite neg m e =>
      let '(s, n) := shortest m e in
      (if neg then "-" else "") ++ format_shortest (string_of_N s) n
  end.

(** The integer nearest to [m * 2^e * 10^f], the larger one on a tie. *)
Definition round_half_up (m : positive) (e : Z) (f : nat) : N :=
  let a := (numerator m e * 10 ^ Z.of_nat f)%Z in
  let b := denominator e in
  Z.to_N ((2 * a + b) / (2 * b)).

(** [x.toFixed(f)] for [0 <= f <= 100]. *)
Definition toFixed (x : spec_float) (f : nat) : string :=
  match x with
  | S754_finite neg m e =>
      let sign := if neg then "-" else "" in
      if (10 ^ 21 * denominator e <=? numerator m e)%Z
      then num_to_string x
      else
        let ds := string_of_N (round_half_up m e f) in
        if (f =? 0)%nat then sign ++ ds
        else
          let k := String.length ds in
          let ds := if (k <=? f)%nat then zeros (f + 1 - k) ++ ds else ds in
          let '(a, b) := split_at (String.length ds - f) ds in
          sign ++ a ++ "." ++ b
  | S754_zero _ =>
      if (f =? 0)%nat then "0" else "0." ++ zeros f
  | _ => num_to_string x
  end.

(** The characters that occur in the text of a number. *)
Definition num_char (c : ascii) : bool :=
  is_digit c || existsb (Ascii.eqb c) (list_ascii_of_string "+-.eInfityNa").

Fixpoint num_text (s : string) : bool :=
  match s with
  | EmptyString => true
  | String c s' => num_char c && num_text s'
  end.

Definition starts_digit (s : string) : bool :=
  match s with
  | EmptyString => false
  | String c _ => is_digit c
  end.

Definition sign_text (neg : bool) : string := if neg then "-" else "".

(** The text of a number other than NaN is an optional minus sign
    followed by [Infinity] or by text that starts with a digit. *)
Definition number_shape (s : string) : Prop :=
  exists (neg : bool) (body : string),
    s = sign_text neg ++ body
    /\ (body = "Infinity" \/ starts_digit body = true).

#[export] Instance binary64 : JSNumber spec_float := {
  parseFloat := parseFloat;
  isNaN := isNaN;
  truthy_num := truthy_num;
  num_to_string := num_to_string;
  toFixed := toFixed;
  num_zero := S754_zero false
}.

End Binary64.

(** ** Vocabulary of the properties *)

Section Vocabulary.
Context {number : Type} {JSN : JSNumber number}.

(** The state after one line, and after a list of lines; [sp1_step]
    and [sp1_loop] are shown below to return exactly these. *)
Definition sp1_next (st : reader_state) (line : string) : reader_state :=
  match sp1_step st line with
  | Ok st' => st'
  | Throw _ => st
  end.

Definition sp1_run (st : reader_state) (lines : list string) : reader_state :=
  fold_left sp1_next lines st.

Definition is_comment (line : string) : bool := startsWith "#"%char line.

(** The text a comment line contributes to [header.comments]. *)
Definition comment_text (line : string) : string := trim (substring1 line).

Definition comments_list (h : SP1Header) : list string :=
  match hdr_comments h with
  | Some cs => cs
  | None => []
  end.

(** The lines that reach the data branch of the loop when it is entered
    with the mode flag [inHeader]. *)
Fixpoint data_lines (inHeader : bool) (lines : list string) : list string :=
  match lines with
  | [] => []
  | line :: lines' =>
      if negb (truthy_str line) || is_comment line then data_lines inHeader lines'
      else if inHeader && includes ":"%char line then data_lines inHeader lines'
      else line :: data_lines false lines'
  end.

(** The points contributed by a list of data lines. *)
Definition points_of_lines (lines : list string) : list SP1Point :=
  flat_map (fun line => match sp1_point (split_ws line) with
                        | Some point => [point]
                        | None => []
                        end) lines.

(** The key of the attribute taken from token [i] of a data line. *)
Definition attr_key (i : nat) : string := "attr" ++ string_of_nat (i - 3).

(** [l] with the element of index [j], if any, replaced by [v]. *)
Fixpoint replace_nth {A : Type} (j : nat) (v : A) (l : list A) : list A :=
  match l, j with
  | [], _ => []
  | _ :: l', O => v :: l'
  | a :: l', S j' => a :: replace_nth j' v l'
  end.

(** The fields of the CSV row of a point, for the attribute columns
    [keys]. *)
Definition csv_fields (keys : list string) (point : SP1Point) : list string :=
  ([str_of_opt (pt_id point); num_to_string (pt_x point);
    num_to_string (pt_y point); elevation_field point]
   ++ map (attribute_field point) keys)%list.

(** The concatenation of a list of strings. *)
Definition concat_all (l : list string) : string :=
  fold_right String.append EmptyString l.

(** Ascending order on strings, by code units. *)
Definition str_lt (a b : string) : Prop := String.ltb a b = true.

Definition str_le (a b : string) : Prop := String.leb a b = true.

(** [s] contains a white-space character. *)
Fixpoint has_ws (s : string) : bool :=
  match s with
  | EmptyString => false
  | String c s' => is_ws c || has_ws s'
  end.

(** [s] begins, respectively ends, with a character that is not white
    space. *)
Definition starts_nonws (s : string) : bool :=
  match s with
  | EmptyString => false
  | String c _ => negb (is_ws c)
  end.

Fixpoint ends_nonws (s : string) : bool :=
  match s with
  | EmptyString => false
  | String c s' =>
      match s' with
      | EmptyString => negb (is_ws c)
      | String _ _ => ends_nonws s'
      end
  end.

(** A token: a non-empty string without white space. *)
Definition is_token (s : string) : bool := truthy_str s && negb (has_ws s).

(** A point line of valid SP1 text, [id x y [elevation [attr...]]]: at
    least three tokens and, when attribute tokens follow the fourth
    token, that token parses as a number. *)
Definition valid_line (line : string) : bool :=
  match split_ws line with
  | _ :: _ :: _ :: rest =>
      match rest with
      | t3 :: _ :: _ => negb (isNaN (parseFloat t3))
      | _ => true
      end
  | _ => false
  end.

(** Valid SP1 text: every line that is neither blank, nor a comment,
    nor read as a header line is a point line. *)
Definition valid_sp1 (content : string) : bool :=
  forallb valid_line (data_lines true (trimmed_lines content)).

(** A point as it is read back from the line [generateSP1Content]
    writes for it: coordinates through their 6-decimal rendering,
    elevation through its 3-decimal rendering. *)
Definition reread_point (point : SP1Point) : SP1Point :=
  {| pt_id := pt_id point;
     pt_x := parseFloat (toFixed (pt_x point) 6);
     pt_y := parseFloat (toFixed (pt_y point) 6);
     pt_elevation :=
       option_map (fun e => parseFloat (toFixed e 3)) (pt_elevation point);
     pt_attributes := pt_attributes point |}.

(** The tab-separated fields of the line written for a point. *)
Definition line_tokens (point : SP1Point) : list string :=
  ([str_of_opt (pt_id point); toFixed (pt_x point) 6; toFixed (pt_y point) 6]
   ++ match pt_elevation point with
      | Some e => [toFixed e 3]
      | None => []
      end
   ++ match pt_attributes point with
      | Some attrs => obj_values attrs
      | None => []
      end)%list.

(** A line that adds no point while the reader is in header mode. *)
Definition header_skipped (line : string) : bool :=
  negb (truthy_str line) || is_comment line || includes ":"%char line.

(** A possibly absent string without newline. *)
Definition no_newline_opt (o : option string) : Prop :=
  match o with
  | Some v => includes "010"%char v = false
  | None => True
  end.

(** A header whose fields and comments contain no newline. *)
Definition header_one_line (h : SP1Header) : Prop :=
  no_newline_opt (hdr_version h) /\ no_newline_opt (hdr_survey h)
  /\ no_newline_opt (hdr_datum h) /\ no_newline_opt (hdr_projection h)
  /\ Forall (fun c => includes "010"%char c = false) (comments_list h).

(** The points read from a text, and the points read from the text
    written for them. *)
Definition round_trip_points (content : string)
  : result (list SP1Point * list SP1Point) :=
  data <- parseSP1File content ;;
  data' <- parseSP1File (generateSP1Content data) ;;
  Ok (points data, points data').

(** What the round trip needs of the number primitives: the text of
    [toFixed] is a token without colon, and reads back as a number
    unless it renders NaN. *)
Class JSNumberLaws : Prop := {
  toFixed_token : forall (x : number) (d : nat), is_token (toFixed x d) = true;
  toFixed_no_colon :
    forall (x : number) (d : nat), includes ":"%char (toFixed x d) = false;
  toFixed_reparse :
    forall (x : number) (d : nat),
      isNaN x = false -> isNaN (parseFloat (toFixed x d)) = false
}.

(** The text after the first occurrence of [c] in [s]. *)
Fixpoint after_first (c : ascii) (s : string) : string :=
  match s with
  | EmptyString => EmptyString
  | String d s' => if Ascii.eqb d c then s' else after_first c s'
  end.

End Vocabulary.

(** ** Sample inputs *)

(** The state in which the reader starts, over binary64 numbers. *)
Definition st0 : @reader_state spec_float := initial_state.

(** Example 1 of the specification, with a third point that carries
    attributes. *)
Definition sample_sp1 : string :=
  "# Test survey" ++ nl ++
  "Version: 1.0" ++ nl ++
  "Survey: Demo" ++ nl ++
  "Datum: WGS84" ++ nl ++
  nl ++
  "P1 100.123456 200.654321 50.25" ++ nl ++
  "P2 150.0 250.0" ++ nl ++
  "P3 1 2 3.5 sand wet" ++ nl.

(** ** The application around the converters

    [SP1Converter] keeps six state cells and reacts to files handed over
    by two [FileUploadZone]s; two [ConversionStatus] panels show the
    state.  A handler that awaits [file.text()] runs in two segments, one
    up to the [await] and one after the promise has settled; each segment
    runs to completion, so it is one step of the machine below.  Toasts
    and downloads are the effects a step emits. *)

(** *** FileUploadZone *)

(** [arr.pop()]: the last element, [undefined] on an empty array. *)
Fixpoint pop {A : Type} (l : list A) : option A :=
  match l with
  | [] => None
  | [a] => Some a
  | _ :: l' => pop l'
  end.

(** ['.' + file.name.split('.').pop()?.toLowerCase()] *)
Definition fileExtension (name : string) : string :=
  "." ++ str_of_opt (option_map toLowerCase (pop (split_char "."%char name))).

(** [toast({ title, description, variant })] *)
Record Toast : Type := {
  toast_title : string;
  toast_description : string;
  toast_variant : option string
}.

(** What [handleDrop] does with [files[0]]: nothing when there is no
    file, a toast when the extension is not accepted, and otherwise the
    call [onFileSelect(file)]. *)
Inductive drop_outcome : Type :=
| DropIgnored
| DropRejected (t : Toast)
| DropSelected (name : string).

Definition handleDrop (acceptedFormats : list string) (file : option string)
  : drop_outcome :=
  match file with
  | None => DropIgnored
  | Some name =>
      if negb (existsb (String.eqb (fileExtension name)) acceptedFormats)
      then DropRejected
             {| toast_title := "Invalid file format";
                toast_description :=
                  "Please select a file with one of these formats: "
                  ++ join ", " acceptedFormats;
                toast_variant := Some "destructive" |}
      else DropSelected name
  end.

(** *** The file name of an export *)

(** A character accepted by the class [[^/.]]. *)
Definition extension_char (c : ascii) : bool :=
  negb (Ascii.eqb c "/"%char || Ascii.eqb c "."%char).

Fixpoint extension_chars (s : string) : bool :=
  match s with
  | EmptyString => true
  | String c s' => extension_char c && extension_chars s'
  end.

(** [name.replace(/\.[^/.]+$/, ".sp1")]: the leftmost dot that is
    followed, up to the end of the name, by one or more characters other
    than [/] and [.], is replaced with what follows it by [.sp1]. *)
Fixpoint replaceExtension (name : string) : string :=
  match name with
  | EmptyString => EmptyString
  | String c rest =>
      if Ascii.eqb c "."%char && truthy_str rest && extension_chars rest
      then ".sp1"
      else String c (replaceExtension rest)
  end.

(** *** ConversionStatus *)

Inductive Status : Type := idle | processing | success | error.

(** The props of the panel; [onDownload] tells whether a handler is
    passed. *)
Record StatusProps : Type := {
  prop_status : Status;
  prop_fileName : option string;
  prop_outputFormat : option string;
  prop_onDownload : bool;
  prop_errorMessage : option string
}.

(** What the panel renders: the icon component, the message, the class
    of the card, the [File:] line and the Download button when shown. *)
Record StatusView : Type := {
  view_icon : option string;
  view_message : string;
  view_cardClassName : string;
  view_fileLine : option string;
  view_downloadButton : bool
}.

Definition getStatusIcon (status : Status) : option string :=
  match status with
  | processing => Some "Loader2"
  | success => Some "CheckCircle"
  | error => Some "AlertCircle"
  | idle => None
  end.

Definition getStatusMessage (p : StatusProps) : string :=
  match prop_status p with
  | processing => "Converting " ++ str_of_opt (prop_fileName p) ++ "..."
  | success =>
      "Successfully converted to " ++ str_of_opt (prop_outputFormat p) ++ " format"
  | error =>
      if truthy_opt (prop_errorMessage p) then str_of_opt (prop_errorMessage p)
      else "Conversion failed"
  | idle => EmptyString
  end.

Definition getCardClassName (status : Status) : string :=
  match status with
  | success => "border-success/50 bg-success/5"
  | error => "border-destructive/50 bg-destructive/5"
  | _ => "border-technical/50 bg-technical/5"
  end.

(** The component: [None] when it returns [null]. *)
Definition ConversionStatus (p : StatusProps) : option StatusView :=
  match prop_status p with
  | idle => None
  | status =>
      Some {| view_icon := getStatusIcon status;
              view_message := getStatusMessage p;
              view_cardClassName := "p-6 " ++ getCardClassName status;
              view_fileLine :=
                match status with
                | success =>
                    if truthy_opt (prop_fileName p)
                    then Some ("File: " ++ str_of_opt (prop_fileName p))
                    else None
                | _ => None
                end;
              view_downloadButton :=
                match status with
                | success => prop_onDownload p
                | _ => false
                end |}
  end.

(** *** SP1Converter *)

(** How the promise [file.text()] settles: with the content, or with a
    reason that is an [Error] carrying a message, or some other value. *)
Inductive settled : Type :=
| Resolved (content : string)
| RejectedError (message : string)
| RejectedOther.

(** [error.message] of an exception of the model. *)
Definition exn_message (e : exn) : string :=
  match e with
  | JSError msg => msg
  | TypeError msg => msg
  end.

Section Application.
Context {number : Type} {JSN : JSNumber number}.

(** The value of the state cell [convertedData]. *)
Inductive converted : Type :=
| NoData                                   (* [null] *)
| GeoJSONData (fc : @FeatureCollection number)
| TextData (s : string).

(** ToBoolean on [convertedData]. *)
Definition truthy_converted (d : converted) : bool :=
  match d with
  | NoData => false
  | GeoJSONData _ => true
  | TextData s => truthy_str s
  end.

(** The six [useState] cells. *)
Record AppState : Type := {
  importStatus : Status;
  exportStatus : Status;
  convertedData : converted;
  fileName : string;
  outputFormat : string;
  errorMessage : string
}.

Definition initial_app : AppState :=
  {| importStatus := idle; exportStatus := idle; convertedData := NoData;
     fileName := EmptyString; outputFormat := EmptyString;
     errorMessage := EmptyString |}.

(** [downloadFile(data, filename, mimeType)], as called. *)
Record Download : Type := {
  dl_data : converted;
  dl_filename : string;
  dl_mimeType : string
}.

Inductive effect : Type :=
| ShowToast (t : Toast)
| StartDownload (d : Download).

(** The outcome of a [try] block whose first statement awaits the text:
    the value of the block, or the text of [error instanceof Error ?
    error.message : 'Unknown error occurred']. *)
Definition awaited {A : Type} (text : settled) (k : string -> result A)
  : A + string :=
  match text with
  | Resolved content =>
      match k content with
      | Ok a => inl a
      | Throw e => inr (exn_message e)
      end
  | RejectedError message => inr message
  | RejectedOther => inr "Unknown error occurred"
  end.

(** [handleSP1Import] up to its [await]. *)
Definition handleSP1Import_start (st : AppState) (name : string) : AppState :=
  {| importStatus := processing; exportStatus := exportStatus st;
     convertedData := convertedData st; fileName := name;
     outputFormat := outputFormat st; errorMessage := errorMessage st |}.

(** [handleSP1Import] after its [await]. *)
Definition handleSP1Import_resume (st : AppState) (text : settled)
  : AppState * list effect :=
  match awaited text (fun content =>
                        sp1Data <- parseSP1File content ;;
                        Ok (sp1Data, convertToGeoJSON sp1Data)) with
  | inl (sp1Data, geoJsonData) =>
      ({| importStatus := success; exportStatus := exportStatus st;
          convertedData := GeoJSONData geoJsonData; fileName := fileName st;
          outputFormat := "GeoJSON"; errorMessage := errorMessage st |},
       [ShowToast
          {| toast_title := "Import successful";
             toast_description :=
               "Imported " ++ string_of_nat (List.length (points sp1Data))
               ++ " points from SP1 file";
             toast_variant := None |}])
  | inr message =>
      ({| importStatus := error; exportStatus := exportStatus st;
          convertedData := convertedData st; fileName := fileName st;
          outputFormat := outputFormat st; errorMessage := message |},
       [ShowToast
          {| toast_title := "Import failed";
             toast_description :=
               "Failed to parse SP1 file. Please check the file format.";
             toast_variant := Some "destructive" |}])
  end.

(** The header [handleCSVExport] passes to [parseCSVToSP1]. *)
Definition export_header : SP1Header :=
  {| hdr_version := Some "1.0"; hdr_survey := Some "Converted from CSV";
     hdr_datum := Some "WGS84"; hdr_projection := None; hdr_comments := None |}.

(** [handleCSVExport] up to its [await]. *)
Definition handleCSVExport_start (st : AppState) (name : string) : AppState :=
  {| importStatus := importStatus st; exportStatus := processing;
     convertedData := convertedData st; fileName := replaceExtension name;
     outputFormat := outputFormat st; errorMessage := errorMessage st |}.

(** [handleCSVExport] after its [await]. *)
Definition handleCSVExport_resume (st : AppState) (text : settled)
  : AppState * list effect :=
  match awaited text (fun content =>
                        sp1Data <- parseCSVToSP1 content export_header ;;
                        Ok (sp1Data, generateSP1Content sp1Data)) with
  | inl (sp1Data, sp1Content) =>
      ({| importStatus := importStatus st; exportStatus := success;
          convertedData := TextData sp1Content; fileName := fileName st;
          outputFormat := "SP1"; errorMessage := errorMessage st |},
       [ShowToast
          {| toast_title := "Export successful";
             toast_description :=
               "Converted " ++ string_of_nat (List.length (points sp1Data))
               ++ " points to SP1 format";
             toast_variant := None |}])
  | inr message =>
      ({| importStatus := importStatus st; exportStatus := error;
          convertedData := convertedData st; fileName := fileName st;
          outputFormat := outputFormat st; errorMessage := message |},
       [ShowToast
          {| toast_title := "Export failed";
             toast_description :=
               "Failed to convert CSV file. Please check the format.";
             toast_variant := Some "destructive" |}])
  end.

Definition handleImportDownload (st : AppState) : list effect :=
  if negb (truthy_converted (convertedData st)) then []
  else
    let extension :=
      if String.eqb (outputFormat st) "GeoJSON" then "geojson" else "csv" in
    let mimeType :=
      if String.eqb (outputFormat st) "GeoJSON" then "application/geo+json"
      else "text/csv" in
    [StartDownload {| dl_data := convertedData st;
                      dl_filename := "converted." ++ extension;
                      dl_mimeType := mimeType |}].

Definition handleExportDownload (st : AppState) : list effect :=
  if negb (truthy_converted (convertedData st)) then []
  else [StartDownload {| dl_data := convertedData st;
                         dl_filename := fileName st;
                         dl_mimeType := "text/plain" |}].

(** The two panels, with the props [SP1Converter] passes. *)
Definition import_panel (st : AppState) : option StatusView :=
  ConversionStatus
    {| prop_status := importStatus st; prop_fileName := Some (fileName st);
       prop_outputFormat := Some (outputFormat st); prop_onDownload := true;
       prop_errorMessage := Some (errorMessage st) |}.

Definition export_panel (st : AppState) : option StatusView :=
  ConversionStatus
    {| prop_status := exportStatus st; prop_fileName := Some (fileName st);
       prop_outputFormat := Some (outputFormat st); prop_onDownload := true;
       prop_errorMessage := Some (errorMessage st) |}.

(** What can happen to the component. *)
Inductive event : Type :=
| ImportSelected (name : string)     (* [handleSP1Import] starts *)
| ImportSettled (text : settled)     (* ... and goes on after its [await] *)
| ExportSelected (name : string)     (* [handleCSVExport] starts *)
| ExportSettled (text : settled)     (* ... and goes on after its [await] *)
| ImportDownloadClicked
| ExportDownloadClicked.

Definition app_step (st : AppState) (e : event) : AppState * list effect :=
  match e with
  | ImportSelected name => (handleSP1Import_start st name, [])
  | ImportSettled text => handleSP1Import_resume st text
  | ExportSelected name => (handleCSVExport_start st name, [])
  | ExportSettled text => handleCSVExport_resume st text
  | ImportDownloadClicked => (st, handleImportDownload st)
  | ExportDownloadClicked => (st, handleExportDownload st)
  end.

(** The state after a sequence of events and the effects emitted, in
    order. *)
Fixpoint app_run (st : AppState) (events : list event) : AppState * list effect :=
  match events with
  | [] => (st, [])
  | e :: events' =>
      let '(st', out) := app_step st e in
      let '(st'', out') := app_run st' events' in
      (st'', (out ++ out')%list)
  end.

End Application.

(** ** Further vocabulary *)

(** The text before the first occurrence of [c] in [s]; all of [s] when
    [c] does not occur. *)
Fixpoint before_first (c : ascii) (s : string) : string :=
  match s with
  | EmptyString => EmptyString
  | String d s' => if Ascii.eqb d c then EmptyString else String d (before_first c s')
  end.

(** The cells of a CSV line: [line.split(',').map(s => s.trim())]. *)
Definition csv_cells (line : string) : list string :=
  map trim (split_char ","%char line).

(** A header field as it comes back from the text written for it: a
    missing or empty field is not written. *)
Definition written_field (field : option string) : option string :=
  if truthy_opt field then field else None.

(** The value of an attribute of a point, [None] when the point has no
    attributes or not this one. *)
Definition attribute_of {number : Type} (point : @SP1Point number) (key : string)
  : option string :=
  match pt_attributes point with
  | Some attrs => obj_get attrs key
  | None => None
  end.

Section ApplicationVocabulary.
Context {number : Type} {JSN : JSNumber number}.

(** Text written by [generateSP1Content] for data under the header of
    an export. *)
Definition sp1_export_text (s : string) : Prop :=
  exists data : SP1Data,
    header data = export_header /\ s = generateSP1Content data.

(** The stored data and the stored format name belong together, and a
    panel reports success only when data are stored. *)
Definition consistent (st : @AppState number) : Prop :=
  match convertedData st with
  | NoData =>
      outputFormat st = EmptyString
      /\ importStatus st <> success /\ exportStatus st <> success
  | GeoJSONData _ => outputFormat st = "GeoJSON"
  | TextData s => outputFormat st = "SP1" /\ sp1_export_text s
  end.

(** What a download started by the component can be. *)
Definition expected_download (d : @Download number) : Prop :=
  match dl_data d with
  | NoData => False
  | GeoJSONData _ =>
      (dl_filename d = "converted.geojson"
       /\ dl_mimeType d = "application/geo+json")
      \/ dl_mimeType d = "text/plain"
  | TextData s =>
      sp1_export_text s
      /\ ((dl_filename d = "converted.csv" /\ dl_mimeType d = "text/csv")
          \/ dl_mimeType d = "text/plain")
  end.

Definition expected_effect (e : @effect number) : Prop :=
  match e with
  | ShowToast _ => True
  | StartDownload d => expected_download d
  end.

End ApplicationVocabulary.

(** A header field as the reader stores it: without colon or newline,
    and trimmed. *)
Definition clean_field (o : option string) : Prop :=
  match o with
  | Some v =>
      includes ":"%char v = false /\ includes "010"%char v = false /\ trim v = v
  | None => True
  end.

Definition clean_header (h : SP1Header) : Prop :=
  clean_field (hdr_version h) /\ clean_field (hdr_survey h)
  /\ clean_field (hdr_datum h) /\ clean_field (hdr_projection h).

(** The line [generateSP1Content] writes for a header field, if any. *)
Definition header_text_line (label : string) (field : option string) : list string :=
  if truthy_opt field then [label ++ ": " ++ str_of_opt field] else [].

Section WrittenPoints.
Context {number : Type} {JSN : JSNumber number}.

(** The attribute values [generateSP1Content] writes for a point. *)
Definition attribute_values (point : @SP1Point number) : list string :=
  match pt_attributes point with
  | Some attrs => obj_values attrs
  | None => []
  end.

(** A point whose line is read back as one point: the id and the
    attribute values are tokens, the id does not begin with [#], the
    elevation is not NaN, and attributes come with an elevation. *)
Definition writable_point (point : @SP1Point number) : Prop :=
  is_token (str_of_opt (pt_id point)) = true
  /\ startsWith "#"%char (str_of_opt (pt_id point)) = false
  /\ match pt_elevation point with
     | Some e => isNaN e = false
     | None => attribute_values point = []
     end
  /\ Forall (fun v => is_token v = true) (attribute_values point).

(** The point read from the line written for a writable point. *)
Definition read_back_point (point : @SP1Point number) : @SP1Point number :=
  {| pt_id := Some (str_of_opt (pt_id point));
     pt_x := parseFloat (toFixed (pt_x point) 6);
     pt_y := parseFloat (toFixed (pt_y point) 6);
     pt_elevation :=
       option_map (fun e => parseFloat (toFixed e 3)) (pt_elevation point);
     pt_attributes :=
       match attribute_values point with
       | [] => None
       | values =>
           Some (combine (map attr_key (seq 4 (List.length values))) values)
       end |}.

End WrittenPoints.


Section CsvPoints.
Context {number : Type} {JSN : JSNumber number}.





End CsvPoints.

(** ** Further sample inputs *)

(** A reader that has left header mode. *)
Definition st_data : @reader_state spec_float :=
  {| rs_header :=
       {| hdr_version := Some "1.0"; hdr_survey := None; hdr_datum := None;
          hdr_projection := Some "EPSG:4326"; hdr_comments := None |};
     rs_points := [];
     rs_inHeader := false |}.

(** A point with an attribute named [id]. *)
Definition sample_point : @SP1Point spec_float :=
  {| pt_id := Some "P1";
     pt_x := parseFloat (JSNumber := Binary64.binary64) "10";
     pt_y := parseFloat (JSNumber := Binary64.binary64) "20";
     pt_elevation := None;
     pt_attributes := Some [("id", "7"); ("zone", "N")] |}.

(** A CSV text with a row that is too short. *)
Definition sample_csv : string :=
  "ID,X,Y,Zone" ++ nl ++ "P1,10,20,North" ++ nl ++ "short" ++ nl ++ "P2,30,40".

(** Data with one point that carries attributes and one that has none. *)
Definition sample_data : @SP1Data spec_float :=
  {| header := export_header;
     points :=
       [ {| pt_id := Some "P1";
            pt_x := parseFloat (JSNumber := Binary64.binary64) "100.5";
            pt_y := parseFloat (JSNumber := Binary64.binary64) "200.25";
            pt_elevation := Some (parseFloat (JSNumber := Binary64.binary64) "50.5");
            pt_attributes := Some [("zone", "North"); ("soil", "sand")] |};
         {| pt_id := Some "P2";
            pt_x := parseFloat (JSNumber := Binary64.binary64) "150";
            pt_y := parseFloat (JSNumber := Binary64.binary64) "250";
            pt_elevation := None;
            pt_attributes := None |} ] |}.

(** The text with every line feed preceded by a carriage return. *)
Fixpoint crlf (s : string) : string :=
  match s with
  | EmptyString => EmptyString
  | String c s' =>
      if Ascii.eqb c "010"%char
      then String "013"%char (String "010"%char (crlf s'))
      else String c (crlf s')
  end.


(** * Properties *)

(** ** Strings and objects *)

Lemma split_char_cons (sep : ascii) (s : string) :
  exists h t, split_char sep s = h :: t.
Proof.
  induction s as [|c s IH]; simpl.
  - eauto.
  - destruct (Ascii.eqb c sep); [eauto|].
    destruct IH as (h & t & ->). eauto.
Qed.

Lemma string_of_N_inj (n m : N) : string_of_N n = string_of_N m -> n = m.
Proof.
  unfold string_of_N. intros E.
  apply DecimalN.Unsigned.to_uint_inj.
  assert (Some (N.to_uint n) = Some (N.to_uint m)) as H.
  { rewrite <- (NilEmpty.usu (N.to_uint n)), <- (NilEmpty.usu (N.to_uint m)).
    now rewrite E. }
  now injection H.
Qed.

Lemma attr_key_inj (i j : nat) : 3 <= i -> 3 <= j -> attr_key i = attr_key j -> i = j.
Proof.
  unfold attr_key, string_of_nat. intros Hi Hj E. simpl in E.
  injection E as E. apply string_of_N_inj in E. lia.
Qed.

Lemma attr_key_not_proto (i : nat) : String.eqb (attr_key i) "__proto__" = false.
Proof. reflexivity. Qed.

Lemma obj_define_fresh {V : Type} (k : string) (v : V) (o : jsobj V) :
  obj_get o k = None -> obj_define k v o = (o ++ [(k, v)])%list.
Proof.
  induction o as [|[k' v'] o IH]; simpl; [reflexivity|].
  destruct (String.eqb k' k); [discriminate|].
  intros H. now rewrite IH.
Qed.

Lemma obj_get_app_other {V : Type} (o : jsobj V) (k k' : string) (v : V) :
  k <> k' -> obj_get (o ++ [(k, v)])%list k' = obj_get o k'.
Proof.
  intros Hk. induction o as [|[k0 v0] o IH]; simpl.
  - destruct (String.eqb_spec k k'); [contradiction|reflexivity].
  - now rewrite IH.
Qed.

Lemma sp1_attributes_entries (toks : list string) :
  forall (i : nat) (attrs : jsobj string),
    3 <= i ->
    (forall j, i <= j -> obj_get attrs (attr_key j) = None) ->
    sp1_attributes i toks attrs
    = (attrs ++ combine (map attr_key (seq i (List.length toks))) toks)%list.
Proof.
  induction toks as [|t toks IH]; intros i attrs Hi Hfresh;
    cbn [sp1_attributes List.length seq map combine].
  - now rewrite app_nil_r.
  - fold (attr_key i). unfold obj_assign. rewrite attr_key_not_proto.
    rewrite obj_define_fresh by (apply Hfresh; lia).
    rewrite IH.
    + now rewrite <- app_assoc.
    + lia.
    + intros j Hj. rewrite obj_get_app_other.
      * apply Hfresh. lia.
      * intros E. apply attr_key_inj in E; lia.
Qed.

(** ** The SP1 reader *)

Section ReaderProperties.
Context {number : Type} {JSN : JSNumber number}.

Lemma sp1_step_next (st : reader_state) (line : string) :
  sp1_step st line = Ok (sp1_next st line).
Proof.
  unfold sp1_next, sp1_step.
  destruct (negb (truthy_str line) || startsWith "#" line).
  - destruct (startsWith "#" line); reflexivity.
  - destruct (rs_inHeader st && includes ":" line); [|reflexivity].
    destruct (split_char_cons ":" line) as (h & t & ->). reflexivity.
Qed.

Lemma sp1_loop_run (lines : list string) :
  forall st, sp1_loop st lines = Ok (sp1_run st lines).
Proof.
  induction lines as [|l lines IH]; intros st; simpl; [reflexivity|].
  rewrite sp1_step_next. simpl. apply IH.
Qed.

Lemma parseSP1File_run (content : string) :
  parseSP1File content
  = Ok {| header := rs_header (sp1_run initial_state (trimmed_lines content));
          points := rs_points (sp1_run initial_state (trimmed_lines content)) |}.
Proof. unfold parseSP1File. now rewrite sp1_loop_run. Qed.

(** The three kinds of line. *)
Lemma sp1_next_comment (st : reader_state) (line : string) :
  is_comment line = true ->
  sp1_next st line
  = {| rs_header := push_comment (rs_header st) (comment_text line);
       rs_points := rs_points st;
       rs_inHeader := rs_inHeader st |}.
Proof.
  unfold is_comment, sp1_next, sp1_step. intros H. rewrite H.
  now rewrite orb_true_r.
Qed.

Lemma sp1_next_blank (st : reader_state) (line : string) :
  truthy_str line = false -> sp1_next st line = st.
Proof.
  unfold sp1_next, sp1_step. destruct line; [reflexivity|discriminate].
Qed.

Lemma sp1_next_header (st : reader_state) (line : string) :
  truthy_str line = true -> is_comment line = false ->
  rs_inHeader st && includes ":" line = true ->
  exists key rest,
    map trim (split_char ":" line) = key :: rest /\
    sp1_next st line
    = {| rs_header := set_header_field (rs_header st) key (nth_error rest 0);
         rs_points := rs_points st;
         rs_inHeader := rs_inHeader st |}.
Proof.
  unfold is_comment, sp1_next, sp1_step. intros H1 H2 H3.
  rewrite H1, H2, H3. simpl.
  destruct (split_char_cons ":" line) as (h & t & ->). simpl.
  exists (trim h), (map trim t). split; [reflexivity|].
  destruct t; reflexivity.
Qed.

Lemma sp1_next_data (st : reader_state) (line : string) :
  truthy_str line = true -> is_comment line = false ->
  rs_inHeader st && includes ":" line = false ->
  sp1_next st line
  = {| rs_header := rs_header st;
       rs_points := (rs_points st ++ points_of_lines [line])%list;
       rs_inHeader := false |}.
Proof.
  unfold is_comment, sp1_next, sp1_step, points_of_lines.
  intros H1 H2 H3. rewrite H1, H2, H3. simpl.
  destruct (sp1_point (split_ws line)); simpl; now rewrite ?app_nil_r.
Qed.

Lemma sp1_run_cons (st : reader_state) (l : string) (lines : list string) :
  sp1_run st (l :: lines) = sp1_run (sp1_next st l) lines.
Proof. reflexivity. Qed.

Lemma points_of_lines_app (l1 l2 : list string) :
  points_of_lines (l1 ++ l2) = (points_of_lines l1 ++ points_of_lines l2)%list.
Proof. unfold points_of_lines. apply flat_map_app. Qed.

(** The points after a run are those of the data lines, in order. *)
Lemma sp1_run_points (lines : list string) :
  forall st,
    rs_points (sp1_run st lines)
    = (rs_points st ++ points_of_lines (data_lines (rs_inHeader st) lines))%list.
Proof.
  induction lines as [|l lines IH]; intros st.
  - simpl. now rewrite app_nil_r.
  - rewrite sp1_run_cons, IH. simpl.
    destruct (truthy_str l) eqn:Ht; simpl.
    + destruct (is_comment l) eqn:Hc.
      * now rewrite sp1_next_comment.
      * destruct (rs_inHeader st && includes ":" l) eqn:Hh.
        -- destruct (sp1_next_header st l Ht Hc Hh) as (k & r & _ & ->).
           reflexivity.
        -- rewrite sp1_next_data by assumption. simpl.
           now rewrite app_nil_r, <- app_assoc.
    + now rewrite sp1_next_blank.
Qed.

Lemma data_lines_drop_comments (lines : list string) :
  forall b,
    data_lines b (filter (fun l => negb (is_comment l)) lines) = data_lines b lines.
Proof.
  induction lines as [|l lines IH]; intros b; simpl; [reflexivity|].
  destruct (is_comment l) eqn:Hc; simpl.
  - rewrite orb_true_r. apply IH.
  - rewrite Hc, orb_false_r.
    destruct (negb (truthy_str l)); [apply IH|].
    destruct (b && includes ":" l); [apply IH|]. now rewrite IH.
Qed.

(** The comments after a run: those before it, then the text of every
    comment line, in order. *)
Lemma set_header_field_comments (h : SP1Header) (key : string) (value : option string) :
  hdr_comments (set_header_field h key value) = hdr_comments h.
Proof.
  unfold set_header_field.
  repeat match goal with |- context [if ?b then _ else _] => destruct b end;
    reflexivity.
Qed.

Lemma sp1_run_comments (lines : list string) :
  forall st,
    comments_list (rs_header (sp1_run st lines))
    = (comments_list (rs_header st)
       ++ map comment_text (filter is_comment lines))%list.
Proof.
  induction lines as [|l lines IH]; intros st.
  - simpl. now rewrite app_nil_r.
  - rewrite sp1_run_cons, IH. simpl.
    destruct (is_comment l) eqn:Hc.
    + rewrite sp1_next_comment by assumption. simpl.
      unfold comments_list at 1. simpl.
      now rewrite <- app_assoc.
    + destruct (truthy_str l) eqn:Ht.
      * destruct (rs_inHeader st && includes ":" l) eqn:Hh.
        -- destruct (sp1_next_header st l Ht Hc Hh) as (k & r & _ & ->).
           unfold comments_list at 1. simpl.
           now rewrite set_header_field_comments.
        -- now rewrite sp1_next_data.
      * now rewrite sp1_next_blank.
Qed.

Lemma sp1_run_mode (lines : list string) :
  forall st,
    rs_inHeader (sp1_run st lines)
    = rs_inHeader st && match data_lines (rs_inHeader st) lines with
                        | [] => true
                        | _ :: _ => false
                        end.
Proof.
  induction lines as [|l lines IH]; intros st.
  - simpl. now rewrite andb_true_r.
  - rewrite sp1_run_cons, IH. simpl.
    destruct (truthy_str l) eqn:Ht; simpl.
    + destruct (is_comment l) eqn:Hc.
      * now rewrite sp1_next_comment.
      * destruct (rs_inHeader st && includes ":" l) eqn:Hh.
        -- destruct (sp1_next_header st l Ht Hc Hh) as (k & r & _ & ->).
           reflexivity.
        -- rewrite sp1_next_data by assumption. simpl.
           now rewrite andb_false_r.
    + now rewrite sp1_next_blank.
Qed.

End ReaderProperties.


Section ReaderTheorems.
Context {number : Type} {JSN : JSNumber number}.

Lemma combine_seq_nth {A B : Type} (f : nat -> A) (d : B) (l : list B) :
  forall (a : nat) (pre : list B),
    List.length pre = a ->
    combine (map f (seq a (List.length l))) l
    = map (fun i => (f i, nth i (pre ++ l)%list d)) (seq a (List.length l)).
Proof.
  induction l as [|t l IH]; intros a pre Hpre; simpl; [reflexivity|].
  f_equal.
  - f_equal. rewrite app_nth2 by lia. subst a. now rewrite Nat.sub_diag.
  - rewrite (IH (S a) (pre ++ [t])%list).
    + apply map_ext. intros i. now rewrite <- app_assoc.
    + rewrite length_app. simpl. lia.
Qed.

(** C6. [parseSP1File] raises no exception: for every input string it
    returns an [SP1Data] value, and for the empty string that value has
    the empty header and no points. *)
Theorem parseSP1File_total :
  (forall content : string, exists data : SP1Data, parseSP1File content = Ok data)
  /\ parseSP1File "" = Ok {| header := empty_header; points := [] |}.
Proof.
  split.
  - intros content. rewrite parseSP1File_run. eauto.
  - reflexivity.
Qed.

(** C9. A line beginning with [#] met in any state of the reader, in
    header mode or after it, appends its remainder (marker stripped,
    trimmed) to [header.comments] and leaves the points and the mode
    flag as they were; over a whole file the comments are the texts of
    all [#] lines in encounter order, and the points are those the loop
    builds from the lines that remain when the [#] lines are deleted. *)
Theorem comment_lines_collected :
  (forall (st : reader_state) (line : string),
      is_comment line = true ->
      sp1_step st line
      = Ok {| rs_header :=
                {| hdr_version := hdr_version (rs_header st);
                   hdr_survey := hdr_survey (rs_header st);
                   hdr_datum := hdr_datum (rs_header st);
                   hdr_projection := hdr_projection (rs_header st);
                   hdr_comments :=
                     Some (comments_list (rs_header st) ++ [comment_text line])%list |};
              rs_points := rs_points st;
              rs_inHeader := rs_inHeader st |})
  /\ (forall content : string,
         exists (data : SP1Data) (st : reader_state),
           parseSP1File content = Ok data
           /\ comments_list (header data)
              = map comment_text (filter is_comment (trimmed_lines content))
           /\ sp1_loop initial_state
                (filter (fun l => negb (is_comment l)) (trimmed_lines content))
              = Ok st
           /\ points data = rs_points st).
Proof.
  split.
  - intros st line Hc. rewrite sp1_step_next, sp1_next_comment by assumption.
    reflexivity.
  - intros content. rewrite parseSP1File_run. eexists. eexists.
    split; [reflexivity|]. split; [|split; [apply sp1_loop_run|]]; simpl.
    + now rewrite sp1_run_comments.
    + now rewrite !sp1_run_points, data_lines_drop_comments.
Qed.

(** C5 (amended). A line that reaches the data branch is split on runs
    of white space.  With fewer than 3 tokens it adds no point.  With
    at least 3 it adds exactly one point: [id] is token 0, [x] and [y]
    are the parses of tokens 1 and 2, the 4th token becomes [elevation]
    exactly when its parse is not NaN (an infinite parse is kept), and
    the tokens of index 4 and more become the attributes, token [i]
    under the key [attr_key i], which is
    [attr] followed by the decimal form of [i - 3].  The line also ends header mode. *)
Theorem data_line_point (st : reader_state) (line : string) :
  truthy_str line = true ->
  is_comment line = false ->
  rs_inHeader st && includes ":" line = false ->
  exists pts : list SP1Point,
    sp1_step st line
    = Ok {| rs_header := rs_header st; rs_points := pts; rs_inHeader := false |}
    /\ (List.length (split_ws line) < 3 -> pts = rs_points st)
    /\ (3 <= List.length (split_ws line) ->
        let parts := split_ws line in
        pts = (rs_points st ++
               [ {| pt_id := nth_error parts 0;
                    pt_x := parseFloat (nth 1 parts "");
                    pt_y := parseFloat (nth 2 parts "");
                    pt_elevation :=
                      match nth_error parts 3 with
                      | Some t => if isNaN (parseFloat t) then None
                                  else Some (parseFloat t)
                      | None => None
                      end;
                    pt_attributes :=
                      if (4 <? List.length parts)%nat
                      then Some (map (fun i => (attr_key i, nth i parts ""))
                                     (seq 4 (List.length parts - 4)))
                      else None |} ])%list).
Proof.
  intros Ht Hc Hh. rewrite sp1_step_next, sp1_next_data by assumption.
  eexists. split; [reflexivity|]. unfold points_of_lines. simpl.
  rewrite app_nil_r.
  destruct (split_ws line) as [|p0 [|p1 [|p2 rest]]]; simpl;
    try (split; [intros _; now rewrite app_nil_r | intros; lia]).
  split; [intros; lia|]. intros _. do 3 f_equal.
  - destruct rest as [|p3 rest]; simpl; [reflexivity|].
    now destruct (isNaN (parseFloat p3)).
  - destruct rest as [|p3 [|p4 rest]]; try reflexivity.
    cbn [Nat.ltb Nat.leb List.length].
    f_equal.
    rewrite sp1_attributes_entries; [|lia|reflexivity]. simpl app.
    replace (S (S (S (S (S (List.length rest))))) - 4) with (List.length (p4 :: rest))
      by (simpl; lia).
    apply (combine_seq_nth attr_key "" (p4 :: rest) 4 [p0; p1; p2; p3]).
    reflexivity.
Qed.

(** C1 (the code at the failing input).  On the header line
    [Projection: EPSG:32633] the reader stores [EPSG], the trimmed
    text between the first and the second colon, although the trimmed
    text after the first colon is [EPSG:32633]. *)
Theorem header_value_cut_at_second_colon :
  parseSP1File "Projection: EPSG:32633"
  = Ok {| header := {| hdr_version := None; hdr_survey := None;
                       hdr_datum := None; hdr_projection := Some "EPSG";
                       hdr_comments := None |};
          points := [] |}
  /\ trim (after_first ":" "Projection: EPSG:32633") = "EPSG:32633".
Proof. split; reflexivity. Qed.

End ReaderTheorems.


(** ** The CSV reader *)

Lemma findIndex_lower {A : Type} (f : A -> bool) (l : list A) :
  (-1 <= findIndex f l)%Z.
Proof.
  induction l as [|a l IH]; simpl; [lia|].
  destruct (f a); [lia|].
  destruct (Z.eqb_spec (findIndex f l) (-1)); lia.
Qed.

Lemma findIndex_none {A : Type} (f : A -> bool) (l : list A) :
  (findIndex f l =? -1)%Z = negb (existsb f l).
Proof.
  induction l as [|a l IH]; simpl; [reflexivity|].
  destruct (f a); simpl; [reflexivity|].
  pose proof (findIndex_lower f l).
  destruct (Z.eqb_spec (findIndex f l) (-1)) as [E|E]; simpl in IH; rewrite <- IH.
  - reflexivity.
  - apply Z.eqb_neq. lia.
Qed.

Lemma canon_char_I (c : ascii) :
  canon_char c = "I"%char <-> c = "i"%char \/ c = "I"%char.
Proof.
  split.
  - destruct c as [[] [] [] [] [] [] [] []]; vm_compute; intros E;
      solve [discriminate E | now left | now right].
  - intros [->| ->]; reflexivity.
Qed.

Lemma canon_char_D (c : ascii) :
  canon_char c = "D"%char <-> c = "d"%char \/ c = "D"%char.
Proof.
  split.
  - destruct c as [[] [] [] [] [] [] [] []]; vm_compute; intros E;
      solve [discriminate E | now left | now right].
  - intros [->| ->]; reflexivity.
Qed.

Lemma canon_char_X (c : ascii) :
  canon_char c = "X"%char <-> c = "x"%char \/ c = "X"%char.
Proof.
  split.
  - destruct c as [[] [] [] [] [] [] [] []]; vm_compute; intros E;
      solve [discriminate E | now left | now right].
  - intros [->| ->]; reflexivity.
Qed.

Lemma canon_char_Y (c : ascii) :
  canon_char c = "Y"%char <-> c = "y"%char \/ c = "Y"%char.
Proof.
  split.
  - destruct c as [[] [] [] [] [] [] [] []]; vm_compute; intros E;
      solve [discriminate E | now left | now right].
  - intros [->| ->]; reflexivity.
Qed.

(** The three required column names, as the patterns accept them. *)
Lemma test_ci_id (col : string) :
  test_ci "id" col = true <-> In col ["id"; "iD"; "Id"; "ID"].
Proof.
  unfold test_ci. rewrite String.eqb_eq. split.
  - destruct col as [|c1 [|c2 [|c3 col]]]; simpl; try discriminate.
    intros E. injection E as E1 E2.
    apply canon_char_I in E1. apply canon_char_D in E2.
    destruct E1 as [->| ->], E2 as [->| ->]; auto.
  - simpl. intros [<-|[<-|[<-|[<-|[]]]]]; reflexivity.
Qed.

Lemma test_ci_x (col : string) :
  test_ci "x" col = true <-> In col ["x"; "X"].
Proof.
  unfold test_ci. rewrite String.eqb_eq. split.
  - destruct col as [|c1 [|c2 col]]; simpl; try discriminate.
    intros E. injection E as E1. apply canon_char_X in E1.
    destruct E1 as [->| ->]; auto.
  - simpl. intros [<-|[<-|[]]]; reflexivity.
Qed.

Lemma test_ci_y (col : string) :
  test_ci "y" col = true <-> In col ["y"; "Y"].
Proof.
  unfold test_ci. rewrite String.eqb_eq. split.
  - destruct col as [|c1 [|c2 col]]; simpl; try discriminate.
    intros E. injection E as E1. apply canon_char_Y in E1.
    destruct E1 as [->| ->]; auto.
  - simpl. intros [<-|[<-|[]]]; reflexivity.
Qed.

Lemma obj_define_In {V : Type} (k : string) (v : V) (o : jsobj V) (e : string * V) :
  In e (obj_define k v o) -> e = (k, v) \/ In e o.
Proof.
  induction o as [|[k' v'] o IH]; simpl.
  - intros [<-|[]]. now left.
  - destruct (String.eqb k' k); simpl.
    + intros [<-|H]; auto.
    + intros [<-|H]; auto. destruct (IH H); auto.
Qed.

Lemma nth_error_replace_other {A : Type} (j i : nat) (v : A) (l : list A) :
  i <> j -> nth_error (replace_nth j v l) i = nth_error l i.
Proof.
  revert j i. induction l as [|a l IH]; intros j i Hij; simpl.
  - now destruct j.
  - destruct j as [|j]; destruct i as [|i]; simpl; try reflexivity.
    + contradiction.
    + apply IH. lia.
Qed.

Section CsvReaderTheorems.
Context {number : Type} {JSN : JSNumber number}.

(** The outcome of [parseCSVToSP1], by cases on the input. *)
Lemma csv_reader_outcome (csvContent : string) (hdr : SP1Header) :
  match trimmed_lines csvContent with
  | [] => parseCSVToSP1 csvContent hdr = Throw EmptyInputError
  | headerLine :: _ =>
      let columns := map trim (split_char "," headerLine) in
      if existsb (test_ci "id") columns
         && existsb (test_ci "x") columns
         && existsb (test_ci "y") columns
      then exists data : SP1Data, parseCSVToSP1 csvContent hdr = Ok data
      else parseCSVToSP1 csvContent hdr = Throw MissingColumnsError
  end.
Proof.
  unfold parseCSVToSP1.
  destruct (trimmed_lines csvContent) as [|headerLine rows]; [reflexivity|].
  cbv zeta. rewrite !findIndex_none.
  destruct (existsb (test_ci "id") _), (existsb (test_ci "x") _),
    (existsb (test_ci "y") _); simpl; eauto.
Qed.

(** C4. [parseCSVToSP1] throws [EmptyInputError] exactly when the input
has no non-blank line; it throws [MissingColumnsError] exactly when
there is a first line and that line, split on commas and trimmed, lacks
a column accepted by [^id$], by [^x$] or by [^y$] (case-insensitive);
and it returns a result exactly in the remaining case. *)
Theorem csv_reader_errors (csvContent : string) (hdr : SP1Header) :
  let lines := trimmed_lines csvContent in
  let columns := map trim (split_char "," (hd "" lines)) in
  let required := existsb (test_ci "id") columns
                  && existsb (test_ci "x") columns
                  && existsb (test_ci "y") columns in
  (parseCSVToSP1 csvContent hdr = Throw EmptyInputError <-> lines = [])
  /\ (parseCSVToSP1 csvContent hdr = Throw MissingColumnsError
      <-> lines <> [] /\ required = false)
  /\ ((exists data : SP1Data, parseCSVToSP1 csvContent hdr = Ok data)
      <-> lines <> [] /\ required = true).
Proof.
  cbv zeta. pose proof (csv_reader_outcome csvContent hdr) as H.
  destruct (trimmed_lines csvContent) as [|headerLine rows].
  - rewrite H. split; [|split].
    + split; reflexivity.
    + split; [discriminate|]. intros [F _]. now contradiction F.
    + split; [intros [d Hd]; discriminate Hd|].
      intros [F _]. now contradiction F.
  - cbv zeta in H. cbn [hd].
    destruct (existsb (test_ci "id") _ && existsb (test_ci "x") _
              && existsb (test_ci "y") _).
    + destruct H as [d Hd]. rewrite Hd. split; [|split].
      * split; discriminate.
      * split; [discriminate|]. intros [_ F]. discriminate F.
      * split; [intros _; split; [discriminate|reflexivity]|].
        intros _. now exists d.
    + rewrite H. split; [|split].
      * split; discriminate.
      * split; [intros _; split; [discriminate|reflexivity]|reflexivity].
      * split; [intros [d Hd]; discriminate Hd|].
        intros [_ F]. discriminate F.
Qed.

Lemma csv_attributes_replace (cols : list string) :
  forall (j0 j : nat) (values : list string) (other : string)
         (idIndex xIndex yIndex : Z) (attrs : jsobj string),
    csv_attributes j0 cols (replace_nth j other values)
                   idIndex xIndex yIndex (Z.of_nat j) attrs
    = csv_attributes j0 cols values idIndex xIndex yIndex (Z.of_nat j) attrs.
Proof.
  induction cols as [|col cols IH]; intros; simpl; [reflexivity|].
  rewrite IH.
  destruct (Z.eqb_spec (Z.of_nat j0) (Z.of_nat j)) as [E|E].
  - now rewrite !andb_false_r.
  - rewrite nth_error_replace_other by lia. reflexivity.
Qed.

Lemma csv_attributes_source (cols : list string) :
  forall (pre : list string) (values : list string)
         (idIndex xIndex yIndex elevIndex : Z) (attrs : jsobj string),
    (forall k v, In (k, v) attrs ->
                 exists i, Z.of_nat i <> elevIndex
                           /\ nth_error (pre ++ cols)%list i = Some k
                           /\ nth_error values i = Some v) ->
    forall k v,
      In (k, v) (csv_attributes (List.length pre) cols values
                                idIndex xIndex yIndex elevIndex attrs) ->
      exists i, Z.of_nat i <> elevIndex
                /\ nth_error (pre ++ cols)%list i = Some k
                /\ nth_error values i = Some v.
Proof.
  induction cols as [|col cols IH]; intros pre values idIndex xIndex yIndex
    elevIndex attrs Hinv k v; simpl.
  - apply Hinv.
  - intros Hin.
    replace (pre ++ col :: cols)%list with ((pre ++ [col]) ++ cols)%list
      in * by now rewrite <- app_assoc.
    replace (S (List.length pre)) with (List.length (pre ++ [col])%list) in Hin
      by (rewrite length_app; simpl; lia).
    eapply IH; [|exact Hin].
    intros k' v' Hin'.
    destruct (negb (Z.of_nat (List.length pre) =? idIndex)%Z
              && negb (Z.of_nat (List.length pre) =? xIndex)%Z
              && negb (Z.of_nat (List.length pre) =? yIndex)%Z
              && negb (Z.of_nat (List.length pre) =? elevIndex)%Z) eqn:Hsel;
      [|now apply Hinv].
    destruct (nth_error values (List.length pre)) as [cell|] eqn:Hcell;
      [|now apply Hinv].
    destruct (truthy_str cell); [|now apply Hinv].
    unfold obj_assign in Hin'.
    destruct (String.eqb col "__proto__"); [now apply Hinv|].
    apply obj_define_In in Hin'. destruct Hin' as [E|Hin']; [|now apply Hinv].
    injection E as -> ->.
    exists (List.length pre). repeat split.
    + apply andb_prop in Hsel. destruct Hsel as [_ Hsel].
      apply negb_true_iff, Z.eqb_neq in Hsel. exact Hsel.
    + rewrite <- app_assoc. simpl. rewrite nth_error_app2 by lia.
      now rewrite Nat.sub_diag.
    + exact Hcell.
Qed.

(** C10. When the elevation column is column [j] and the cell of a row
    in that column is non-empty but parses as NaN, the point built from
    the row has no elevation, its attributes do not depend on that cell
    (any other content of the cell gives the same attributes), and
    every attribute entry comes from a column other than [j]. *)
Theorem unparsable_elevation_dropped
        (columns values : list string) (idIndex xIndex yIndex : Z)
        (j : nat) (cell : string) :
  nth_error values j = Some cell ->
  truthy_str cell = true ->
  isNaN (parseFloat cell) = true ->
  let point := csv_point columns values idIndex xIndex yIndex (Z.of_nat j) in
  pt_elevation point = None
  /\ (forall other : string,
         pt_attributes (csv_point columns (replace_nth j other values)
                                  idIndex xIndex yIndex (Z.of_nat j))
         = pt_attributes point)
  /\ (forall (attrs : jsobj string) (k v : string),
         pt_attributes point = Some attrs ->
         In (k, v) attrs ->
         exists i : nat,
           i <> j /\ nth_error columns i = Some k /\ nth_error values i = Some v).
Proof.
  intros Hcell Htruthy Hnan point. subst point. unfold csv_point. simpl.
  split; [|split].
  - unfold at_index.
    destruct (Z.ltb_spec (Z.of_nat j) 0); [lia|].
    rewrite Nat2Z.id, Hcell. simpl. rewrite Htruthy, Hnan.
    now rewrite andb_false_r.
  - intros other. now rewrite csv_attributes_replace.
  - intros attrs k v Hattrs Hin.
    destruct (0 <? _)%nat; [|discriminate].
    injection Hattrs as <-.
    destruct (csv_attributes_source columns [] values idIndex xIndex yIndex
                (Z.of_nat j) [] (fun _ _ F => match F with end) k v Hin)
      as (i & Hi & Hk & Hv).
    exists i. repeat split; [lia|exact Hk|exact Hv].
Qed.

End CsvReaderTheorems.


(** ** The exporters *)

Lemma append_nil_r (s : string) : s ++ "" = s.
Proof. induction s as [|c s IH]; simpl; [reflexivity|now rewrite IH]. Qed.

Lemma append_assoc (a b c : string) : (a ++ b) ++ c = a ++ (b ++ c).
Proof. induction a as [|x a IH]; simpl; [reflexivity|now rewrite IH]. Qed.

Lemma fold_left_append {A : Type} (f : A -> string) (l : list A) :
  forall init : string,
    fold_left (fun acc a => acc ++ f a) l init = init ++ concat_all (map f l).
Proof.
  induction l as [|a l IH]; intros init; simpl.
  - now rewrite append_nil_r.
  - now rewrite IH, append_assoc.
Qed.

Lemma join_cons (sep x : string) (l : list string) :
  join sep (x :: l) = x ++ concat_all (map (fun y => sep ++ y) l).
Proof.
  revert x. induction l as [|y l IH]; intros x.
  - simpl. now rewrite append_nil_r.
  - change (join sep (x :: y :: l)) with (x ++ sep ++ join sep (y :: l)).
    rewrite IH. simpl. now rewrite append_assoc.
Qed.

(** *** Sets and sorting *)

Lemma set_add_In (k x : string) (s : list string) :
  In x (set_add k s) <-> x = k \/ In x s.
Proof.
  unfold set_add. destruct (existsb (String.eqb k) s) eqn:E.
  - split; [auto|]. intros [->|H]; [|exact H].
    apply existsb_exists in E. destruct E as (y & Hy & Ey).
    apply String.eqb_eq in Ey. now subst.
  - rewrite in_app_iff. simpl. intuition.
Qed.

Lemma set_add_NoDup (k : string) (s : list string) :
  NoDup s -> NoDup (set_add k s).
Proof.
  intros Hs. unfold set_add. destruct (existsb (String.eqb k) s) eqn:E; [exact Hs|].
  apply NoDup_app; [exact Hs|repeat constructor; auto|].
  intros x Hx [Hk|[]]. subst x.
  assert (existsb (String.eqb k) s = true) as H; [|congruence].
  apply existsb_exists. exists k. split; [exact Hx|apply String.eqb_refl].
Qed.

Lemma fold_set_add_In (ks : list string) :
  forall (s : list string) (x : string),
    In x (fold_left (fun set key => set_add key set) ks s) <-> In x ks \/ In x s.
Proof.
  induction ks as [|k ks IH]; intros s x; simpl.
  - intuition.
  - rewrite IH, set_add_In. intuition.
Qed.

Lemma fold_set_add_NoDup (ks : list string) :
  forall s : list string,
    NoDup s -> NoDup (fold_left (fun set key => set_add key set) ks s).
Proof.
  induction ks as [|k ks IH]; intros s Hs; simpl; [exact Hs|].
  apply IH, set_add_NoDup, Hs.
Qed.

Lemma insert_sorted_perm (k : string) (l : list string) :
  Permutation (insert_sorted k l) (k :: l).
Proof.
  induction l as [|a l IH]; simpl; [reflexivity|].
  destruct (String.leb k a); [reflexivity|].
  rewrite IH. apply perm_swap.
Qed.

Lemma sort_strings_perm (l : list string) : Permutation (sort_strings l) l.
Proof.
  induction l as [|a l IH]; simpl; [reflexivity|].
  rewrite insert_sorted_perm. now constructor.
Qed.



Lemma insert_sorted_HdRel (a k : string) (l : list string) :
  str_le a k -> HdRel str_le a l -> HdRel str_le a (insert_sorted k l).
Proof.
  intros Hak Hal. destruct l as [|b l]; simpl.
  - now constructor.
  - destruct (String.leb k b); constructor; [exact Hak|].
    now inversion Hal.
Qed.

Lemma insert_sorted_Sorted (k : string) (l : list string) :
  Sorted str_le l -> Sorted str_le (insert_sorted k l).
Proof.
  induction l as [|a l IH]; intros Hs; simpl.
  - repeat constructor.
  - destruct (String.leb k a) eqn:E.
    + constructor; [exact Hs|]. now constructor.
    + inversion Hs as [|? ? Hl Hhd]; subst.
      constructor; [now apply IH|].
      apply insert_sorted_HdRel; [|exact Hhd].
      destruct (String.leb_total k a) as [H|H]; [congruence|exact H].
Qed.

Lemma sort_strings_Sorted (l : list string) : Sorted str_le (sort_strings l).
Proof.
  induction l as [|a l IH]; simpl; [constructor|].
  now apply insert_sorted_Sorted.
Qed.

Lemma str_le_neq_lt (a b : string) : str_le a b -> a <> b -> str_lt a b.
Proof.
  unfold str_le, str_lt, String.leb, String.ltb. intros Hle Hne.
  destruct (String.compare a b) eqn:E; try reflexivity; try discriminate.
  apply String.compare_eq_iff in E. contradiction.
Qed.

Lemma Sorted_le_NoDup_lt (l : list string) :
  Sorted str_le l -> NoDup l -> Sorted str_lt l.
Proof.
  induction l as [|a l IH]; intros Hs Hn; [constructor|].
  inversion Hs as [|? ? Hl Hhd]; subst. inversion Hn as [|? ? Ha Hn']; subst.
  constructor; [now apply IH|].
  destruct l as [|b l]; constructor.
  apply str_le_neq_lt; [now inversion Hhd|].
  intros ->. apply Ha. now left.
Qed.

(** *** Enumeration of an object *)

Lemma insert_indexed_In {V : Type} (e x : N * (string * V)) (l : list (N * (string * V))) :
  In x (insert_indexed e l) <-> x = e \/ In x l.
Proof.
  induction l as [|a l IH]; simpl.
  - intuition.
  - destruct (fst e <=? fst a)%N; simpl; [intuition|].
    rewrite IH. intuition.
Qed.

Lemma indexed_entries_In {V : Type} (o : jsobj V) (i : N) (e : string * V) :
  In (i, e) (indexed_entries o) <-> In e o /\ array_index (fst e) = Some i.
Proof.
  induction o as [|kv o IH]; simpl.
  - intuition.
  - destruct (array_index (fst kv)) as [n|] eqn:E.
    + rewrite insert_indexed_In, IH. split.
      * intros [H|[H1 H2]]; [injection H as -> ->; auto|auto].
      * intros [[->|H1] H2]; [left; congruence|auto].
    + rewrite IH. split; [intuition|].
      intros [[->|H1] H2]; [congruence|auto].
Qed.

Lemma own_entries_In {V : Type} (o : jsobj V) (e : string * V) :
  In e (own_entries o) <-> In e o.
Proof.
  unfold own_entries, named_entries.
  rewrite in_app_iff, in_map_iff, filter_In. split.
  - intros [([i e'] & <- & H)|[H _]]; [|exact H].
    now apply indexed_entries_In in H.
  - intros H. destruct (array_index (fst e)) as [i|] eqn:E.
    + left. exists (i, e). split; [reflexivity|]. now apply indexed_entries_In.
    + right. now split.
Qed.

Lemma obj_keys_In {V : Type} (o : jsobj V) (k : string) :
  In k (obj_keys o) <-> exists v, In (k, v) o.
Proof.
  unfold obj_keys. rewrite in_map_iff. split.
  - intros ([k' v] & <- & H). exists v. now apply own_entries_In.
  - intros (v & H). exists (k, v). split; [reflexivity|now apply own_entries_In].
Qed.

Section ExporterTheorems.
Context {number : Type} {JSN : JSNumber number}.

Lemma allAttributes_fold (pts : list SP1Point) :
  forall (s : list string),
    NoDup s ->
    let r := fold_left
               (fun set (point : @SP1Point number) =>
                  match pt_attributes point with
                  | Some attrs =>
                      fold_left (fun set key => set_add key set) (obj_keys attrs) set
                  | None => set
                  end) pts s in
    NoDup r
    /\ forall k, In k r <->
                 In k s \/ exists point attrs v,
                     In point pts /\ pt_attributes point = Some attrs
                     /\ In (k, v) attrs.
Proof.
  induction pts as [|p pts IH]; intros s Hs; simpl.
  - split; [exact Hs|]. intros k. split; [auto|].
    intros [H|(? & ? & ? & [] & _)]. exact H.
  - destruct (pt_attributes p) as [attrs|] eqn:Ea.
    + destruct (IH _ (fold_set_add_NoDup (obj_keys attrs) s Hs)) as [Hn Hin].
      split; [exact Hn|]. intros k. rewrite Hin, fold_set_add_In, obj_keys_In.
      split.
      * intros [[(v & Hv)|H]|(q & a & v & Hq & Ha & Hv)]; eauto 10.
      * intros [H|(q & a & v & [<-|Hq] & Ha & Hv)]; eauto 10.
        rewrite Ea in Ha. injection Ha as <-. eauto.
    + destruct (IH _ Hs) as [Hn Hin].
      split; [exact Hn|]. intros k. rewrite Hin. split.
      * intros [H|(q & a & v & Hq & Ha & Hv)]; eauto 10.
      * intros [H|(q & a & v & [<-|Hq] & Ha & Hv)]; eauto 10.
        congruence.
Qed.

Lemma csv_row_fields (keys : list string) (point : SP1Point) :
  csv_row keys point = join "," (csv_fields keys point).
Proof.
  unfold csv_row, csv_fields.
  rewrite (fold_left_append (fun key => "," ++ attribute_field point key)).
  cbn [app]. rewrite join_cons. cbn [map concat_all fold_right].
  rewrite map_map, !append_assoc. reflexivity.
Qed.

(** C8. The text produced by [convertToCSV] starts with the header row
    [ID,X,Y,Elevation] followed by [,key] for each key of a list
    [keys] that is strictly ascending (by code units), without
    repetition, and made of exactly the attribute keys that occur in
    some point; every data row then has one field per key after its
    four fixed fields. *)
Theorem csv_header_sorted_union (data : SP1Data) :
  exists keys : list string,
    Sorted str_lt keys
    /\ NoDup keys
    /\ (forall k : string,
           In k keys <->
           exists (point : SP1Point) (attrs : jsobj string) (v : string),
             In point (points data)
             /\ pt_attributes point = Some attrs /\ In (k, v) attrs)
    /\ convertToCSV data
       = "ID,X,Y,Elevation" ++ join "" (map (fun key => "," ++ key) keys) ++ nl
         ++ concat_all (map (fun point => join "," (csv_fields keys point) ++ nl)
                            (points data))
    /\ forall point : SP1Point,
         List.length (csv_fields keys point) = 4 + List.length keys.
Proof.
  exists (attributeKeys (points data)).
  destruct (allAttributes_fold (points data) [] (NoDup_nil _)) as [Hn Hin].
  fold (allAttributes (points data)) in Hn, Hin.
  assert (NoDup (attributeKeys (points data))) as Hnd.
  { unfold attributeKeys.
    eapply Permutation_NoDup; [symmetry; apply sort_strings_perm|exact Hn]. }
  split; [|split; [exact Hnd|split; [|split]]].
  - apply Sorted_le_NoDup_lt; [apply sort_strings_Sorted|exact Hnd].
  - intros k. unfold attributeKeys.
    split.
    + intros H. apply (Permutation_in _ (sort_strings_perm _)) in H.
      apply Hin in H. destruct H as [[]|H]. exact H.
    + intros H. apply (Permutation_in _ (Permutation_sym (sort_strings_perm _))).
      apply Hin. now right.
  - unfold convertToCSV.
    rewrite (fold_left_append (fun point => csv_row _ point ++ nl)).
    unfold csv_header_row. rewrite !append_assoc. do 4 f_equal.
    apply map_ext. intros p. now rewrite csv_row_fields.
  - intros p. unfold csv_fields. rewrite length_app, length_map. reflexivity.
Qed.

(** C7 (amended). [convertToGeoJSON] returns a FeatureCollection with
    one Feature per point, in the order of the points; the coordinates
    of the Feature of a point are [x, y, e], where [e] is the elevation
    when it is present and truthy (neither NaN nor a zero) and [0]
    otherwise; the crs names [header.projection] when it is present and
    not the empty string, and [EPSG:4326] otherwise. *)
Theorem geojson_features (data : SP1Data) :
  let fc := convertToGeoJSON data in
  collection_type fc = "FeatureCollection"
  /\ List.length (features fc) = List.length (points data)
  /\ map (fun f => (feature_type f, geometry_type (geometry f),
                    coordinates (geometry f))) (features fc)
     = map (fun point =>
              ("Feature", "Point",
               [pt_x point; pt_y point;
                match pt_elevation point with
                | Some e => if truthy_num e then e else num_zero
                | None => num_zero
                end])) (points data)
  /\ crs_name (crs fc)
     = match hdr_projection (header data) with
       | Some name => if truthy_str name then name else "EPSG:4326"
       | None => "EPSG:4326"
       end.
Proof.
  simpl. repeat split.
  - apply length_map.
  - rewrite map_map. reflexivity.
  - destruct (hdr_projection (header data)) as [name|]; reflexivity.
Qed.

End ExporterTheorems.


(** ** Strings: splitting, trimming and tokens *)

Lemma includes_app (c : ascii) (a b : string) :
  includes c (a ++ b) = includes c a || includes c b.
Proof.
  induction a as [|x a IH]; simpl; [reflexivity|].
  now rewrite IH, orb_assoc.
Qed.

Lemma has_ws_app (a b : string) : has_ws (a ++ b) = has_ws a || has_ws b.
Proof.
  induction a as [|x a IH]; simpl; [reflexivity|].
  now rewrite IH, orb_assoc.
Qed.

Lemma has_ws_includes (c : ascii) (s : string) :
  is_ws c = true -> has_ws s = false -> includes c s = false.
Proof.
  intros Hc. induction s as [|x s IH]; simpl; [reflexivity|].
  intros H. apply orb_false_elim in H. destruct H as [Hx Hs].
  rewrite IH by exact Hs. rewrite orb_false_r.
  apply Ascii.eqb_neq. intros ->. congruence.
Qed.

Lemma split_char_line (sep : ascii) (a rest : string) :
  includes sep a = false ->
  split_char sep (a ++ String sep rest) = a :: split_char sep rest.
Proof.
  induction a as [|x a IH]; simpl; intros H.
  - now rewrite Ascii.eqb_refl.
  - apply orb_false_elim in H. destruct H as [Hx Ha].
    rewrite Hx, IH by exact Ha. reflexivity.
Qed.

Lemma split_char_pieces (sep c : ascii) (s : string) :
  includes c s = false ->
  Forall (fun piece => includes c piece = false) (split_char sep s).
Proof.
  induction s as [|x s IH]; simpl; intros H.
  - repeat constructor.
  - apply orb_false_elim in H. destruct H as [Hx Hs]. specialize (IH Hs).
    destruct (Ascii.eqb x sep).
    + constructor; [reflexivity|exact IH].
    + destruct (split_char sep s) as [|h t]; inversion IH; subst;
        constructor; simpl; try rewrite Hx; auto.
Qed.

Lemma split_char_no_sep (sep : ascii) (s : string) :
  Forall (fun piece => includes sep piece = false) (split_char sep s).
Proof.
  induction s as [|x s IH]; simpl.
  - repeat constructor.
  - destruct (Ascii.eqb x sep) eqn:E.
    + constructor; [reflexivity|exact IH].
    + destruct (split_char sep s) as [|h t]; inversion IH; subst;
        constructor; simpl; try rewrite E; auto.
Qed.

Lemma includes_trimStart (c : ascii) (s : string) :
  includes c s = false -> includes c (trimStart s) = false.
Proof.
  induction s as [|x s IH]; simpl; [reflexivity|]. intros H.
  apply orb_false_elim in H. destruct H as [Hx Hs].
  destruct (is_ws x); [now apply IH|]. simpl. now rewrite Hx, Hs.
Qed.

Lemma includes_trimEnd (c : ascii) (s : string) :
  includes c s = false -> includes c (trimEnd s) = false.
Proof.
  induction s as [|x s IH]; simpl; [reflexivity|]. intros H.
  apply orb_false_elim in H. destruct H as [Hx Hs]. specialize (IH Hs).
  destruct (trimEnd s) as [|y r].
  - destruct (is_ws x); simpl; [reflexivity|now rewrite Hx].
  - simpl in *. now rewrite Hx, IH.
Qed.

Lemma includes_trim (c : ascii) (s : string) :
  includes c s = false -> includes c (trim s) = false.
Proof. intros H. now apply includes_trimEnd, includes_trimStart. Qed.

Lemma includes_substring1 (c : ascii) (s : string) :
  includes c s = false -> includes c (substring1 s) = false.
Proof.
  destruct s as [|x s]; simpl; [reflexivity|]. intros H.
  now apply orb_false_elim in H.
Qed.

Lemma trimmed_lines_no_newline (content : string) :
  Forall (fun line => includes "010" line = false) (trimmed_lines content).
Proof.
  unfold trimmed_lines. apply Forall_forall. intros l Hl.
  apply filter_In in Hl. destruct Hl as [Hl _].
  apply in_map_iff in Hl. destruct Hl as (p & <- & Hp).
  apply includes_trim.
  pose proof (split_char_no_sep "010" content) as H.
  rewrite Forall_forall in H. now apply H.
Qed.

Lemma trimStart_id (s : string) : starts_nonws s = true -> trimStart s = s.
Proof.
  destruct s as [|c s]; simpl; [discriminate|].
  now destruct (is_ws c).
Qed.

Lemma trimEnd_id (s : string) : ends_nonws s = true -> trimEnd s = s.
Proof.
  induction s as [|c s IH]; simpl; [discriminate|].
  destruct s as [|d s].
  - simpl. now destruct (is_ws c).
  - intros H. rewrite IH by exact H. reflexivity.
Qed.

Lemma trim_id (s : string) :
  starts_nonws s = true -> ends_nonws s = true -> trim s = s.
Proof.
  intros H1 H2. unfold trim. rewrite trimStart_id by exact H1.
  now apply trimEnd_id.
Qed.

Lemma trimEnd_shape (s : string) :
  trimEnd s = "" \/ ends_nonws (trimEnd s) = true.
Proof.
  induction s as [|c s IH]; simpl; [now left|].
  destruct (trimEnd s) as [|d r] eqn:E.
  - destruct (is_ws c) eqn:Ec; [now left|right]. simpl. now rewrite Ec.
  - right. destruct IH as [IH|IH]; [discriminate|]. exact IH.
Qed.

Lemma trimEnd_starts (s : string) :
  starts_nonws s = true -> starts_nonws (trimEnd s) = true.
Proof.
  destruct s as [|c s]; simpl; [discriminate|]. intros Hc.
  destruct (trimEnd s).
  - apply negb_true_iff in Hc. rewrite Hc. simpl. now rewrite Hc.
  - exact Hc.
Qed.

Lemma trimStart_shape (s : string) :
  trimStart s = "" \/ starts_nonws (trimStart s) = true.
Proof.
  induction s as [|c s IH]; simpl; [now left|].
  destruct (is_ws c) eqn:Ec; [exact IH|right]. simpl. now rewrite Ec.
Qed.

(** A trimmed string is empty or has no white space at either end. *)
Lemma trim_shape (s : string) :
  trim s = "" \/ (starts_nonws (trim s) = true /\ ends_nonws (trim s) = true).
Proof.
  unfold trim. destruct (trimEnd_shape (trimStart s)) as [H|H]; [now left|right].
  split; [|exact H].
  destruct (trimStart_shape s) as [E|E].
  - rewrite E in H. discriminate.
  - now apply trimEnd_starts.
Qed.

Lemma trimmed_lines_shape (content : string) :
  Forall (fun line => starts_nonws line = true /\ ends_nonws line = true)
         (trimmed_lines content).
Proof.
  unfold trimmed_lines. apply Forall_forall. intros l Hl.
  apply filter_In in Hl. destruct Hl as [Hl Ht].
  apply in_map_iff in Hl. destruct Hl as (p & <- & Hp).
  destruct (trim_shape p) as [E|E]; [|exact E].
  rewrite E in Ht. discriminate.
Qed.

Lemma starts_nonws_app (a b : string) :
  starts_nonws a = true -> starts_nonws (a ++ b) = true.
Proof. destruct a; simpl; [discriminate|auto]. Qed.

Lemma ends_nonws_app (a b : string) :
  ends_nonws b = true -> ends_nonws (a ++ b) = true.
Proof.
  intros Hb. induction a as [|c a IH]; simpl; [exact Hb|].
  destruct (a ++ b) eqn:E; [discriminate IH|exact IH].
Qed.

Lemma token_starts (t : string) : is_token t = true -> starts_nonws t = true.
Proof.
  unfold is_token. destruct t as [|c t]; simpl; [discriminate|].
  now destruct (is_ws c).
Qed.

Lemma token_ends (t : string) : is_token t = true -> ends_nonws t = true.
Proof.
  unfold is_token. induction t as [|c t IH]; simpl; [discriminate|].
  destruct (is_ws c) eqn:Ec; simpl; [discriminate|].
  destruct t as [|d t]; [reflexivity|]. intros H. apply IH. exact H.
Qed.

Lemma token_no_ws (t : string) : is_token t = true -> has_ws t = false.
Proof.
  unfold is_token. intros H. apply andb_prop in H. destruct H as [_ H].
  now apply negb_true_iff.
Qed.

Lemma token_truthy (t : string) : is_token t = true -> truthy_str t = true.
Proof. unfold is_token. intros H. now apply andb_prop in H. Qed.

(** *** Splitting on white space *)

Lemma split_ws_from_cons (gap : bool) (s : string) :
  exists h t, split_ws_from gap s = h :: t.
Proof.
  revert gap. induction s as [|c s IH]; intros gap; simpl.
  - eauto.
  - destruct (is_ws c).
    + destruct gap; [apply IH|eauto].
    + destruct (IH false) as (h & t & ->). eauto.
Qed.

Lemma split_ws_pieces_no_ws (s : string) :
  forall gap, Forall (fun piece => has_ws piece = false) (split_ws_from gap s).
Proof.
  induction s as [|c s IH]; intros gap; simpl.
  - repeat constructor.
  - destruct (is_ws c) eqn:Ec.
    + destruct gap; [apply IH|]. constructor; [reflexivity|apply IH].
    + specialize (IH false).
      destruct (split_ws_from false s) as [|h t]; inversion IH; subst;
        constructor; simpl; try rewrite Ec; auto.
Qed.

Lemma split_ws_pieces_includes (c : ascii) (s : string) :
  includes c s = false ->
  forall gap, Forall (fun piece => includes c piece = false) (split_ws_from gap s).
Proof.
  induction s as [|x s IH]; simpl; intros H gap.
  - repeat constructor.
  - apply orb_false_elim in H. destruct H as [Hx Hs]. specialize (IH Hs).
    destruct (is_ws x).
    + destruct gap; [apply IH|]. constructor; [reflexivity|apply IH].
    + specialize (IH false).
      destruct (split_ws_from false s) as [|h t]; inversion IH; subst;
        constructor; simpl; try rewrite Hx; auto.
Qed.

(** In a string that ends with a non-space character, every piece after
    the first is non-empty, and so is the first one when the string
    begins with a non-space character or the split starts in a gap. *)
Lemma split_ws_pieces_truthy (s : string) :
  forall gap,
    ends_nonws s = true ->
    Forall (fun piece => truthy_str piece = true) (tl (split_ws_from gap s))
    /\ (gap || starts_nonws s = true ->
        truthy_str (hd "" (split_ws_from gap s)) = true).
Proof.
  induction s as [|c s IH]; intros gap Hend; [discriminate|].
  assert (s = "" \/ ends_nonws s = true) as Hs.
  { destruct s; [now left|right; exact Hend]. }
  simpl split_ws_from. simpl starts_nonws.
  destruct (is_ws c) eqn:Ec.
  - destruct Hs as [->|Hs]; [simpl in Hend; rewrite Ec in Hend; discriminate|].
    destruct (IH true Hs) as [Ht Hh].
    destruct gap; simpl.
    + split; [exact Ht|]. intros _. now apply Hh.
    + split; [|intros H; discriminate].
      destruct (split_ws_from_cons true s) as (h & t & E). rewrite E in *.
      constructor; [now apply Hh|exact Ht].
  - destruct Hs as [->|Hs].
    + simpl. split; [constructor|reflexivity].
    + destruct (IH false Hs) as [Ht Hh].
      destruct (split_ws_from_cons false s) as (h & t & E). rewrite E in *.
      simpl. split; [exact Ht|reflexivity].
Qed.

(** The tokens of a trimmed non-empty line. *)
Lemma split_ws_tokens (line : string) :
  starts_nonws line = true -> ends_nonws line = true ->
  Forall (fun t => is_token t = true) (split_ws line).
Proof.
  intros Hs He. unfold split_ws.
  destruct (split_ws_pieces_truthy line false He) as [Ht Hh].
  pose proof (split_ws_pieces_no_ws line false) as Hw.
  destruct (split_ws_from_cons false line) as (h & t & E). rewrite E in *.
  simpl in Ht, Hh. specialize (Hh Hs).
  inversion Hw as [|? ? Hwh Hwt]; subst.
  unfold is_token. constructor.
  - now rewrite Hh, Hwh.
  - rewrite Forall_forall in *. intros x Hx.
    now rewrite (Ht x Hx), (Hwt x Hx).
Qed.

Lemma split_ws_first_char (c : ascii) (line : string) :
  starts_nonws line = true ->
  startsWith c (hd "" (split_ws line)) = startsWith c line.
Proof.
  unfold split_ws. destruct line as [|x s]; simpl; [discriminate|].
  intros Hx. apply negb_true_iff in Hx. rewrite Hx.
  destruct (split_ws_from_cons false s) as (h & t & ->). reflexivity.
Qed.

(** Splitting what [join] built from tokens gives the tokens back. *)
Lemma split_ws_from_token (t rest : string) :
  has_ws t = false ->
  split_ws_from false (t ++ rest)
  = match split_ws_from false rest with
    | h :: tl => (t ++ h) :: tl
    | [] => [t]
    end.
Proof.
  induction t as [|c t IH]; simpl; intros H.
  - now destruct (split_ws_from_cons false rest) as (h & tl & ->).
  - apply orb_false_elim in H. destruct H as [Hc Ht].
    rewrite Hc, IH by exact Ht.
    now destruct (split_ws_from_cons false rest) as (h & tl & ->).
Qed.

Lemma split_ws_from_gap_token (t : string) :
  starts_nonws t = true -> split_ws_from true t = split_ws_from false t.
Proof.
  destruct t as [|c t]; simpl; [discriminate|].
  intros H. apply negb_true_iff in H. now rewrite H.
Qed.

Lemma split_ws_join (toks : list string) :
  toks <> [] ->
  Forall (fun t => is_token t = true) toks ->
  split_ws (join tab toks) = toks.
Proof.
  unfold split_ws. induction toks as [|t toks IH]; [contradiction|].
  intros _ Hall. inversion Hall as [|? ? Ht Hts]; subst.
  destruct toks as [|u toks].
  - simpl. rewrite <- (append_nil_r t) at 1.
    rewrite split_ws_from_token by now apply token_no_ws.
    simpl. now rewrite append_nil_r.
  - change (join tab (t :: u :: toks)) with (t ++ tab ++ join tab (u :: toks)).
    rewrite split_ws_from_token by now apply token_no_ws.
    change (tab ++ join tab (u :: toks))
      with (String "009" (join tab (u :: toks))).
    cbn [split_ws_from is_ws]. simpl is_ws. cbv iota.
    rewrite split_ws_from_gap_token.
    + rewrite IH by (try discriminate; exact Hts). now rewrite append_nil_r.
    + inversion Hts; subst.
      destruct toks; simpl; [now apply token_starts|].
      apply starts_nonws_app. now apply token_starts.
Qed.

Lemma join_tokens_starts (toks : list string) :
  toks <> [] -> Forall (fun t => is_token t = true) toks ->
  starts_nonws (join tab toks) = true.
Proof.
  destruct toks as [|t toks]; [contradiction|]. intros _ H.
  inversion H; subst. destruct toks; simpl; [now apply token_starts|].
  apply starts_nonws_app. now apply token_starts.
Qed.

Lemma join_tokens_ends (toks : list string) :
  toks <> [] -> Forall (fun t => is_token t = true) toks ->
  ends_nonws (join tab toks) = true.
Proof.
  induction toks as [|t toks IH]; [contradiction|]. intros _ H.
  inversion H; subst. destruct toks as [|u toks].
  - simpl. now apply token_ends.
  - change (join tab (t :: u :: toks)) with (t ++ tab ++ join tab (u :: toks)).
    apply ends_nonws_app, ends_nonws_app. apply IH; [discriminate|assumption].
Qed.

Lemma join_tokens_includes (c : ascii) (toks : list string) :
  includes c tab = false ->
  Forall (fun t => includes c t = false) toks ->
  includes c (join tab toks) = false.
Proof.
  intros Hc. induction toks as [|t toks IH]; intros H; [reflexivity|].
  inversion H; subst. destruct toks as [|u toks]; [assumption|].
  change (join tab (t :: u :: toks)) with (t ++ tab ++ join tab (u :: toks)).
  rewrite !includes_app, Hc, IH by assumption.
  now rewrite orb_false_r.
Qed.

Lemma join_tokens_first_char (c : ascii) (t : string) (toks : list string) :
  truthy_str t = true ->
  startsWith c (join tab (t :: toks)) = startsWith c t.
Proof.
  destruct t as [|x t]; [discriminate|]. intros _.
  destruct toks; reflexivity.
Qed.


(** ** Writing and reading back *)

Lemma includes_trim_kept (c : ascii) (s : string) :
  is_ws c = false -> includes c s = true -> includes c (trim s) = true.
Proof.
  intros Hc. unfold trim.
  assert (forall t, includes c t = true -> includes c (trimStart t) = true) as HS.
  { induction t as [|x t IH]; simpl; [auto|]. intros H.
    destruct (is_ws x) eqn:Ex; [|exact H].
    apply IH. destruct (Ascii.eqb_spec x c) as [->|_]; [congruence|exact H]. }
  assert (forall t, includes c t = true -> includes c (trimEnd t) = true) as HE.
  { induction t as [|x t IH]; simpl; [auto|]. intros H.
    destruct (Ascii.eqb_spec x c) as [->|Hx]; simpl in H.
    - destruct (trimEnd t); [rewrite Hc|]; simpl; now rewrite Ascii.eqb_refl.
    - specialize (IH H). destruct (trimEnd t); [discriminate|].
      simpl in *. rewrite IH. apply orb_true_r. }
  intros H. now apply HE, HS.
Qed.

Lemma startsWith_trim (c : ascii) (s : string) :
  is_ws c = false -> startsWith c (trim (String c s)) = true.
Proof.
  intros Hc. unfold trim. simpl. rewrite Hc. simpl.
  destruct (trimEnd s); [rewrite Hc|]; simpl; apply Ascii.eqb_refl.
Qed.

Lemma trimmed_lines_block (a rest : string) :
  includes "010" a = false ->
  trimmed_lines (a ++ nl ++ rest)
  = (filter truthy_str [trim a] ++ trimmed_lines rest)%list.
Proof.
  intros Ha. unfold trimmed_lines.
  change (nl ++ rest) with (String "010" rest).
  rewrite split_char_line by exact Ha. simpl.
  now destruct (truthy_str (trim a)).
Qed.

Lemma own_entries_named {V : Type} (o : jsobj V) :
  Forall (fun kv => array_index (fst kv) = None) o -> own_entries o = o.
Proof.
  intros H. unfold own_entries.
  assert (indexed_entries o = []) as ->.
  { unfold indexed_entries. induction H as [|kv o Hk Ho IH]; simpl; [reflexivity|].
    now rewrite Hk. }
  simpl. unfold named_entries.
  induction H as [|kv o Hk Ho IH]; simpl; [reflexivity|].
  now rewrite Hk, IH.
Qed.

Lemma map_snd_combine {A B : Type} (l1 : list A) (l2 : list B) :
  List.length l1 = List.length l2 -> map snd (combine l1 l2) = l2.
Proof.
  revert l2. induction l1 as [|a l1 IH]; intros [|b l2] H; simpl in *;
    try discriminate; [reflexivity|].
  now rewrite IH by lia.
Qed.

Section RoundTrip.
Context {number : Type} {JSN : JSNumber number}.

Lemma sp1_attributes_values (extra : list string) :
  obj_values (sp1_attributes 4 extra []) = extra.
Proof.
  rewrite sp1_attributes_entries; [|lia|reflexivity]. simpl app.
  unfold obj_values. rewrite own_entries_named.
  - apply map_snd_combine. now rewrite length_map, length_seq.
  - apply Forall_forall. intros [k v] Hin. apply in_combine_l in Hin.
    apply in_map_iff in Hin. destruct Hin as (i & <- & _). reflexivity.
Qed.

Lemma sp1_line_tokens (point : SP1Point) :
  sp1_line point = join tab (line_tokens point).
Proof.
  unfold sp1_line, line_tokens. cbn [app]. rewrite join_cons.
  cbn [map concat_all fold_right].
  destruct (pt_attributes point) as [attrs|];
    destruct (pt_elevation point) as [e|];
    rewrite ?(fold_left_append (fun value => tab ++ value));
    cbn [app map concat_all fold_right];
    rewrite ?append_assoc, ?append_nil_r; reflexivity.
Qed.

(** The data lines of a list of lines. *)
Lemma data_lines_In (lines : list string) :
  forall (b : bool) (d : string),
    In d (data_lines b lines) ->
    In d lines /\ truthy_str d = true /\ is_comment d = false.
Proof.
  induction lines as [|l lines IH]; intros b d; simpl; [contradiction|].
  destruct (truthy_str l) eqn:Ht; simpl.
  - destruct (is_comment l) eqn:Hc.
    + intros H. apply IH in H. tauto.
    + destruct (b && includes ":" l).
      * intros H. apply IH in H. tauto.
      * intros [<-|H]; [auto|]. apply IH in H. tauto.
  - intros H. apply IH in H. tauto.
Qed.

Lemma data_lines_head (lines : list string) :
  forall (d : string) (ds : list string),
    data_lines true lines = d :: ds -> includes ":" d = false.
Proof.
  induction lines as [|l lines IH]; intros d ds; simpl; [discriminate|].
  destruct (negb (truthy_str l) || is_comment l); [apply IH|].
  destruct (includes ":" l) eqn:E; [apply IH|].
  intros H. injection H as <- _. exact E.
Qed.

Lemma data_lines_skip (l1 l2 : list string) :
  Forall (fun l => header_skipped l = true) l1 ->
  data_lines true (l1 ++ l2) = data_lines true l2.
Proof.
  induction l1 as [|l l1 IH]; intros H; [reflexivity|].
  inversion H as [|? ? Hl Hl1]; subst. simpl.
  unfold header_skipped in Hl.
  destruct (negb (truthy_str l) || is_comment l); [now apply IH|].
  simpl in Hl. rewrite Hl. now apply IH.
Qed.

Lemma data_lines_all (lines : list string) :
  Forall (fun l => truthy_str l = true /\ is_comment l = false) lines ->
  data_lines false lines = lines.
Proof.
  induction lines as [|l lines IH]; intros H; [reflexivity|].
  inversion H as [|? ? [Ht Hc] Hl]; subst. simpl.
  rewrite Ht, Hc. simpl. now rewrite IH.
Qed.

Lemma data_lines_points (lines : list string) :
  Forall (fun l => truthy_str l = true /\ is_comment l = false) lines ->
  includes ":" (hd "" lines) = false ->
  data_lines true lines = lines.
Proof.
  destruct lines as [|l lines]; [reflexivity|]. intros H Hc.
  inversion H as [|? ? [Ht Hn] Hl]; subst. simpl in *.
  rewrite Ht, Hn, Hc. simpl. now rewrite data_lines_all.
Qed.

Lemma block_skipped (a rest : string) :
  includes "010" a = false ->
  header_skipped (trim a) = true ->
  data_lines true (trimmed_lines (a ++ nl ++ rest))
  = data_lines true (trimmed_lines rest).
Proof.
  intros Ha Hs. rewrite trimmed_lines_block by exact Ha.
  apply data_lines_skip. simpl.
  destruct (truthy_str (trim a)); repeat constructor. exact Hs.
Qed.

Lemma header_line_skipped (label : string) (field : option string) (rest : string) :
  includes "010" label = false ->
  no_newline_opt field ->
  data_lines true (trimmed_lines (header_line label field ++ rest))
  = data_lines true (trimmed_lines rest).
Proof.
  intros Hl Hf. unfold header_line.
  destruct (truthy_opt field); [|reflexivity].
  destruct field as [v|]; simpl in Hf.
  - simpl str_of_opt.
    replace ((label ++ ": " ++ v ++ nl) ++ rest)
      with ((label ++ ": " ++ v) ++ nl ++ rest)
      by (now rewrite !append_assoc).
    apply block_skipped.
    + rewrite !includes_app, Hl, Hf. reflexivity.
    + unfold header_skipped.
      rewrite (includes_trim_kept ":"); [apply orb_true_r|reflexivity|].
      rewrite !includes_app. simpl. now rewrite orb_true_r.
  - simpl str_of_opt.
    replace ((label ++ ": " ++ "undefined" ++ nl) ++ rest)
      with ((label ++ ": " ++ "undefined") ++ nl ++ rest)
      by (now rewrite !append_assoc).
    apply block_skipped.
    + rewrite !includes_app, Hl. reflexivity.
    + unfold header_skipped.
      rewrite (includes_trim_kept ":"); [apply orb_true_r|reflexivity|].
      rewrite !includes_app. simpl. now rewrite orb_true_r.
Qed.

Lemma comments_skipped (cs : list string) (rest : string) :
  Forall (fun c => includes "010" c = false) cs ->
  data_lines true
    (trimmed_lines (join nl (map (fun comment => "# " ++ comment) cs) ++ nl ++ rest))
  = data_lines true (trimmed_lines rest).
Proof.
  induction cs as [|c cs IH]; intros H.
  - apply (block_skipped "" rest); reflexivity.
  - inversion H as [|? ? Hc Hcs]; subst.
    assert (header_skipped (trim ("# " ++ c)) = true) as Hsk.
    { unfold header_skipped, is_comment.
      change ("# " ++ c) with (String "#" (" " ++ c)).
      rewrite startsWith_trim by reflexivity. now rewrite orb_true_r. }
    assert (includes "010" ("# " ++ c) = false) as Hnl.
    { rewrite includes_app, Hc. reflexivity. }
    destruct cs as [|c' cs].
    + simpl map. simpl join. now apply block_skipped.
    + change (join nl (map (fun comment => "# " ++ comment) (c :: c' :: cs)))
        with (("# " ++ c) ++ nl
              ++ join nl (map (fun comment => "# " ++ comment) (c' :: cs))).
      remember ("# " ++ c) as a eqn:Ea.
      remember (join nl (map (fun comment => "# " ++ comment) (c' :: cs))) as j eqn:Ej.
      replace ((a ++ nl ++ j) ++ nl ++ rest) with (a ++ nl ++ (j ++ nl ++ rest))
        by (now rewrite !append_assoc).
      rewrite block_skipped by assumption.
      subst j. now apply IH.
Qed.

Lemma points_text_lines (lines : list string) :
  Forall (fun l => includes "010" l = false
                   /\ starts_nonws l = true /\ ends_nonws l = true) lines ->
  trimmed_lines (concat_all (map (fun l => l ++ nl) lines)) = lines.
Proof.
  induction lines as [|l lines IH]; intros H; [reflexivity|].
  inversion H as [|? ? (Hn & Hs & He) Hl]; subst.
  cbn [map concat_all fold_right]. rewrite append_assoc.
  rewrite trimmed_lines_block by exact Hn.
  rewrite trim_id by assumption.
  fold (concat_all (map (fun l => l ++ nl) lines)). rewrite IH by exact Hl.
  destruct l; [discriminate|reflexivity].
Qed.

End RoundTrip.


Section PointLines.
Context {number : Type} {JSN : JSNumber number} {laws : JSNumberLaws}.

Lemma toFixed_colon_free (x : number) (d : nat) :
  includes ":" (toFixed x d) = false.
Proof. apply toFixed_no_colon. Qed.

(** One point line, written and read back. *)
Lemma point_line_round_trip (d : string) :
  starts_nonws d = true -> ends_nonws d = true ->
  is_comment d = false -> valid_line d = true ->
  exists p : SP1Point,
    sp1_point (split_ws d) = Some p
    /\ Forall (fun t => is_token t = true) (line_tokens p)
    /\ startsWith "#" (sp1_line p) = false
    /\ (includes ":" d = false -> includes ":" (sp1_line p) = false)
    /\ sp1_point (split_ws (sp1_line p)) = Some (reread_point p).
Proof.
  intros Hs He Hc Hv.
  pose proof (split_ws_tokens d Hs He) as Htok.
  pose proof (split_ws_first_char "#" d Hs) as Hfirst.
  pose proof (fun H => split_ws_pieces_includes ":" d H false) as Hcol.
  fold (split_ws d) in Hcol.
  unfold valid_line in Hv.
  destruct (split_ws d) as [|t0 [|t1 [|t2 rest]]]; try discriminate.
  simpl in Hfirst. unfold is_comment in Hc. rewrite Hc in Hfirst.
  inversion Htok as [|? ? H0 Htok1]; subst.
  inversion Htok1 as [|? ? H1 Htok2]; subst.
  inversion Htok2 as [|? ? H2 Hrest]; subst.
  assert (forall p, (exists more, line_tokens p = t0 :: more) ->
                    Forall (fun t => is_token t = true) (line_tokens p) ->
                    startsWith "#" (sp1_line p) = false) as Hhash.
  { intros p (more & E) _. rewrite sp1_line_tokens, E.
    rewrite join_tokens_first_char by now apply token_truthy. exact Hfirst. }
  assert (forall p, Forall (fun t => includes ":" t = false) (line_tokens p) ->
                    includes ":" (sp1_line p) = false) as Hnc.
  { intros p H. rewrite sp1_line_tokens. now apply join_tokens_includes. }
  assert (forall p, Forall (fun t => is_token t = true) (line_tokens p) ->
                    line_tokens p <> [] ->
                    split_ws (sp1_line p) = line_tokens p) as Hsplit.
  { intros p H Hne. rewrite sp1_line_tokens. now apply split_ws_join. }
  destruct rest as [|t3 [|t4 more]].
  - (* id x y *)
    eexists. split; [reflexivity|].
    assert (Forall (fun t => is_token t = true)
                   [t0; toFixed (parseFloat t1) 6; toFixed (parseFloat t2) 6]) as Hl.
    { repeat constructor; auto using toFixed_token. }
    split; [exact Hl|]. split; [apply Hhash; [eexists; reflexivity|exact Hl]|].
    split.
    + intros Hd. specialize (Hcol Hd). inversion Hcol; subst.
      apply Hnc. repeat constructor; auto using toFixed_colon_free.
    + rewrite Hsplit; [reflexivity|exact Hl|discriminate].
  - (* id x y elevation *)
    cbn [sp1_point].
    destruct (isNaN (parseFloat t3)) eqn:En; cbn [negb].
    + eexists. split; [reflexivity|].
      assert (Forall (fun t => is_token t = true)
                     [t0; toFixed (parseFloat t1) 6; toFixed (parseFloat t2) 6]) as Hl.
      { repeat constructor; auto using toFixed_token. }
      split; [exact Hl|]. split; [apply Hhash; [eexists; reflexivity|exact Hl]|].
      split.
      * intros Hd. specialize (Hcol Hd). inversion Hcol; subst.
        apply Hnc. repeat constructor; auto using toFixed_colon_free.
      * rewrite Hsplit; [reflexivity|exact Hl|discriminate].
    + eexists. split; [reflexivity|].
      assert (Forall (fun t => is_token t = true)
                     [t0; toFixed (parseFloat t1) 6; toFixed (parseFloat t2) 6;
                      toFixed (parseFloat t3) 3]) as Hl.
      { repeat constructor; auto using toFixed_token. }
      split; [exact Hl|]. split; [apply Hhash; [eexists; reflexivity|exact Hl]|].
      split.
      * intros Hd. specialize (Hcol Hd). inversion Hcol; subst.
        apply Hnc. repeat constructor; auto using toFixed_colon_free.
      * rewrite Hsplit; [|exact Hl|discriminate].
        unfold line_tokens, reread_point. simpl.
        now rewrite (toFixed_reparse _ 3 En).
  - (* id x y elevation attr... *)
    apply negb_true_iff in Hv.
    cbn [sp1_point]. rewrite Hv. cbn [negb].
    eexists. split; [reflexivity|].
    assert (line_tokens
              {| pt_id := Some t0; pt_x := parseFloat t1; pt_y := parseFloat t2;
                 pt_elevation := Some (parseFloat t3);
                 pt_attributes := Some (sp1_attributes 4 (t4 :: more) []) |}
            = t0 :: toFixed (parseFloat t1) 6 :: toFixed (parseFloat t2) 6
                 :: toFixed (parseFloat t3) 3 :: t4 :: more) as El.
    { unfold line_tokens. cbn [pt_id pt_x pt_y pt_elevation pt_attributes str_of_opt].
      now rewrite sp1_attributes_values. }
    inversion Hrest as [|? ? _ Hmore]; subst.
    assert (Forall (fun t => is_token t = true)
                   (t0 :: toFixed (parseFloat t1) 6 :: toFixed (parseFloat t2) 6
                       :: toFixed (parseFloat t3) 3 :: t4 :: more)) as Hl.
    { repeat (constructor; auto using toFixed_token). }
    rewrite <- El in Hl.
    split; [exact Hl|].
    split; [apply Hhash; [eexists; exact El|exact Hl]|].
    split.
    + intros Hd. specialize (Hcol Hd).
      apply Hnc. rewrite El.
      inversion Hcol as [|? ? C0 Hcol1]; subst.
      inversion Hcol1 as [|? ? C1 Hcol2]; subst.
      inversion Hcol2 as [|? ? C2 Hcol3]; subst.
      inversion Hcol3 as [|? ? C3 Hcol4]; subst.
      repeat (constructor; auto using toFixed_colon_free).
    + rewrite Hsplit; [|exact Hl|rewrite El; discriminate].
      rewrite El. unfold reread_point. simpl.
      now rewrite (toFixed_reparse _ 3 Hv).
Qed.

End PointLines.


Section HeaderLines.
Context {number : Type} {JSN : JSNumber number}.

Lemma set_header_field_one_line (h : SP1Header) (key : string) (value : option string) :
  header_one_line h -> no_newline_opt value ->
  header_one_line (set_header_field h key value).
Proof.
  unfold header_one_line, set_header_field, comments_list.
  intros (H1 & H2 & H3 & H4 & H5) Hv.
  repeat match goal with |- context [if ?b then _ else _] => destruct b end;
    simpl; auto.
Qed.

Lemma sp1_next_one_line (st : reader_state) (line : string) :
  header_one_line (rs_header st) ->
  includes "010" line = false ->
  header_one_line (rs_header (sp1_next st line)).
Proof.
  intros Hh Hl.
  destruct (truthy_str line) eqn:Ht; [|now rewrite sp1_next_blank].
  destruct (is_comment line) eqn:Hc.
  - rewrite sp1_next_comment by exact Hc.
    destruct Hh as (H1 & H2 & H3 & H4 & H5).
    unfold header_one_line, comments_list in *. simpl.
    repeat split; try assumption.
    apply Forall_app. split; [exact H5|].
    repeat constructor. unfold comment_text.
    now apply includes_trim, includes_substring1.
  - destruct (rs_inHeader st && includes ":" line) eqn:Hm.
    + destruct (sp1_next_header st line Ht Hc Hm) as (key & rest & E & ->).
      simpl. apply set_header_field_one_line; [exact Hh|].
      destruct rest as [|v rest]; simpl; [exact I|].
      pose proof (split_char_pieces ":" "010" line Hl) as Hp.
      rewrite Forall_forall in Hp.
      assert (In v (map trim (split_char ":" line))) as Hin
          by (rewrite E; simpl; auto).
      apply in_map_iff in Hin. destruct Hin as (piece & <- & Hin).
      now apply includes_trim, Hp.
    + now rewrite sp1_next_data.
Qed.

Lemma sp1_run_one_line (lines : list string) :
  forall st : reader_state,
    Forall (fun line => includes "010" line = false) lines ->
    header_one_line (rs_header st) ->
    header_one_line (rs_header (sp1_run st lines)).
Proof.
  induction lines as [|l lines IH]; intros st Hl Hh; [exact Hh|].
  inversion Hl; subst. rewrite sp1_run_cons.
  apply IH; [assumption|]. now apply sp1_next_one_line.
Qed.

(** The data lines of the text written for a header and points whose
    lines are well formed are the lines of the points. *)
Lemma generated_data_lines (h : SP1Header) (pts : list SP1Point) :
  header_one_line h ->
  Forall (fun l => includes "010" l = false
                   /\ starts_nonws l = true /\ ends_nonws l = true)
         (map sp1_line pts) ->
  data_lines true (trimmed_lines (generateSP1Content {| header := h; points := pts |}))
  = data_lines true (map sp1_line pts).
Proof.
  intros (H1 & H2 & H3 & H4 & H5) Hp.
  unfold generateSP1Content. cbn [header points].
  rewrite (fold_left_append (fun point => sp1_line point ++ nl)).
  rewrite !append_assoc.
  assert (data_lines true
            (trimmed_lines
               (header_line "Version" (hdr_version h)
                ++ header_line "Survey" (hdr_survey h)
                ++ header_line "Datum" (hdr_datum h)
                ++ header_line "Projection" (hdr_projection h)
                ++ nl ++ concat_all (map (fun point => sp1_line point ++ nl) pts)))
          = data_lines true (map sp1_line pts)) as Hrest.
  { rewrite !header_line_skipped by (reflexivity || assumption).
    match goal with
    | |- context [trimmed_lines (nl ++ ?r)] =>
        change (nl ++ r) with ("" ++ nl ++ r)
    end.
    rewrite (block_skipped "") by reflexivity.
    rewrite <- (map_map sp1_line (fun l => l ++ nl)).
    now rewrite points_text_lines. }
  unfold comments_list in H5.
  destruct (hdr_comments h) as [cs|].
  - simpl append at 1. rewrite !append_assoc.
    rewrite comments_skipped by exact H5. exact Hrest.
  - exact Hrest.
Qed.

End HeaderLines.

Section RoundTripTheorem.
Context {number : Type} {JSN : JSNumber number} {laws : JSNumberLaws}.

Lemma written_lines (D : list string) :
  Forall (fun d => starts_nonws d = true /\ ends_nonws d = true
                   /\ is_comment d = false /\ valid_line d = true) D ->
  let pts := points_of_lines D in
  Forall (fun l => includes "010" l = false
                   /\ starts_nonws l = true /\ ends_nonws l = true)
         (map sp1_line pts)
  /\ Forall (fun l => truthy_str l = true /\ is_comment l = false)
            (map sp1_line pts)
  /\ (includes ":" (hd "" D) = false ->
      includes ":" (hd "" (map sp1_line pts)) = false)
  /\ points_of_lines (map sp1_line pts) = map reread_point pts.
Proof.
  induction D as [|d D IH]; intros HD.
  - simpl. repeat split; auto.
  - inversion HD as [|? ? (Hs & He & Hc & Hv) HD']; subst.
    destruct (IH HD') as (I1 & I2 & _ & I4).
    destruct (point_line_round_trip d Hs He Hc Hv)
      as (p & Ep & Htok & Hhash & Hcol & Hre).
    assert (line_tokens p <> []) as Hne by (unfold line_tokens; discriminate).
    assert (starts_nonws (sp1_line p) = true) as Hps
        by (rewrite sp1_line_tokens; now apply join_tokens_starts).
    unfold points_of_lines in *. cbn [flat_map]. rewrite Ep.
    cbn [app map hd]. repeat split.
    + constructor; [|exact I1]. repeat split.
      * rewrite sp1_line_tokens. apply join_tokens_includes; [reflexivity|].
        eapply Forall_impl; [|exact Htok]. intros t Ht.
        apply has_ws_includes; [reflexivity|now apply token_no_ws].
      * exact Hps.
      * rewrite sp1_line_tokens. now apply join_tokens_ends.
    + constructor; [|exact I2]. split; [|exact Hhash].
      destruct (sp1_line p); [discriminate|reflexivity].
    + exact Hcol.
    + cbn [flat_map]. rewrite Hre. cbn [app]. now rewrite I4.
Qed.

(** C3. For valid SP1 text, writing the parse result and parsing the
    written text again gives the same number of points, with the same
    ids in the same order; each [x] and [y] read back is the number
    denoted by the 6-decimal rendering of the first one, and each
    elevation is present exactly when it was and is then the number
    denoted by the 3-decimal rendering of the first one. *)
Theorem sp1_round_trip (content : string) :
  valid_sp1 content = true ->
  exists data data' : SP1Data,
    parseSP1File content = Ok data
    /\ parseSP1File (generateSP1Content data) = Ok data'
    /\ List.length (points data') = List.length (points data)
    /\ map pt_id (points data') = map pt_id (points data)
    /\ map pt_x (points data')
       = map (fun p => parseFloat (toFixed (pt_x p) 6)) (points data)
    /\ map pt_y (points data')
       = map (fun p => parseFloat (toFixed (pt_y p) 6)) (points data)
    /\ map pt_elevation (points data')
       = map (fun p => option_map (fun e => parseFloat (toFixed e 3))
                                  (pt_elevation p)) (points data).
Proof.
  intros Hvalid. unfold valid_sp1 in Hvalid. rewrite forallb_forall in Hvalid.
  set (ls := trimmed_lines content) in *.
  set (st := sp1_run initial_state ls).
  exists {| header := rs_header st; points := rs_points st |}.
  eexists. split; [apply parseSP1File_run|].
  split; [apply parseSP1File_run|]. cbn [points].
  assert (rs_points st = points_of_lines (data_lines true ls)) as Epts
      by (unfold st; now rewrite sp1_run_points).
  assert (Forall (fun d => starts_nonws d = true /\ ends_nonws d = true
                           /\ is_comment d = false /\ valid_line d = true)
                 (data_lines true ls)) as HD.
  { apply Forall_forall. intros d Hd.
    destruct (data_lines_In ls true d Hd) as (Hin & Ht & Hc).
    pose proof (trimmed_lines_shape content) as Hshape.
    rewrite Forall_forall in Hshape. destruct (Hshape d Hin) as [Hs He].
    repeat split; auto. }
  destruct (written_lines _ HD) as (W1 & W2 & W3 & W4).
  rewrite <- Epts in W1, W2, W3, W4.
  assert (includes ":" (hd "" (data_lines true ls)) = false) as Hhead.
  { destruct (data_lines true ls) as [|d ds] eqn:E; [reflexivity|].
    simpl. eapply data_lines_head. exact E. }
  assert (rs_points (sp1_run initial_state
                       (trimmed_lines
                          (generateSP1Content
                             {| header := rs_header st; points := rs_points st |})))
          = map reread_point (rs_points st)) as Hre.
  { rewrite sp1_run_points. cbn [initial_state rs_points rs_inHeader app].
    rewrite generated_data_lines; [|
      apply sp1_run_one_line;
        [apply trimmed_lines_no_newline
        |repeat split; try exact I; constructor]
      | exact W1].
    rewrite data_lines_points by auto. exact W4. }
  rewrite Hre. rewrite length_map, !map_map. repeat split.
Qed.

End RoundTripTheorem.


(** ** The binary64 numbers satisfy the laws of the round trip *)

Module Binary64Facts.
Import Binary64.

Lemma num_text_app (a b : string) : num_text (a ++ b) = num_text a && num_text b.
Proof.
  induction a as [|c a IH]; simpl; [reflexivity|].
  now rewrite IH, andb_assoc.
Qed.

Lemma all_digits_app (a b : string) :
  all_digits (a ++ b) = all_digits a && all_digits b.
Proof.
  induction a as [|c a IH]; simpl; [reflexivity|].
  now rewrite IH, andb_assoc.
Qed.

Lemma num_char_plain (c : ascii) :
  num_char c = true -> is_ws c = false /\ Ascii.eqb c ":" = false.
Proof.
  destruct c as [[] [] [] [] [] [] [] []]; vm_compute; intros H;
    solve [discriminate H | split; reflexivity].
Qed.

Lemma num_text_plain (s : string) :
  num_text s = true -> has_ws s = false /\ includes ":" s = false.
Proof.
  induction s as [|c s IH]; simpl; [auto|]. intros H.
  apply andb_prop in H. destruct H as [Hc Hs].
  destruct (num_char_plain c Hc) as [-> ->]. now apply IH.
Qed.

Lemma digit_num_char (c : ascii) : is_digit c = true -> num_char c = true.
Proof. unfold num_char. now intros ->. Qed.

Lemma all_digits_num_text (s : string) : all_digits s = true -> num_text s = true.
Proof.
  induction s as [|c s IH]; simpl; [auto|]. intros H.
  apply andb_prop in H. destruct H as [Hc Hs].
  now rewrite digit_num_char, IH.
Qed.

Lemma all_digits_uint (d : Decimal.uint) :
  all_digits (NilEmpty.string_of_uint d) = true.
Proof. induction d; simpl; auto. Qed.

Lemma string_of_N_digits (n : N) : all_digits (string_of_N n) = true.
Proof. apply all_digits_uint. Qed.

Lemma string_of_N_truthy (n : N) : truthy_str (string_of_N n) = true.
Proof.
  unfold string_of_N. destruct n as [|p]; [reflexivity|].
  destruct (N.to_uint (N.pos p)) eqn:E; try reflexivity.
  pose proof (DecimalN.Unsigned.of_to (N.pos p)) as H.
  rewrite E in H. discriminate H.
Qed.

Lemma digits_start (s : string) :
  all_digits s = true -> truthy_str s = true -> starts_digit s = true.
Proof.
  destruct s as [|c s]; simpl; [discriminate|]. intros H _.
  now apply andb_prop in H.
Qed.

Lemma zeros_digits (n : nat) : all_digits (zeros n) = true.
Proof. induction n; simpl; auto. Qed.

Lemma split_at_app (n : nat) (s : string) :
  fst (split_at n s) ++ snd (split_at n s) = s.
Proof.
  revert s. induction n as [|n IH]; intros s; [reflexivity|].
  destruct s as [|c s]; [reflexivity|]. simpl.
  specialize (IH s). destruct (split_at n s) as [a b]. simpl in *.
  now rewrite IH.
Qed.

Lemma split_at_digits (n : nat) (s : string) :
  all_digits s = true ->
  all_digits (fst (split_at n s)) = true /\ all_digits (snd (split_at n s)) = true.
Proof.
  intros H. rewrite <- (split_at_app n s), all_digits_app in H.
  now apply andb_prop in H.
Qed.

Lemma split_at_start (n : nat) (s : string) :
  0 < n -> starts_digit s = true -> starts_digit (fst (split_at n s)) = true.
Proof.
  destruct n as [|n]; [lia|]. destruct s as [|c s]; [discriminate|].
  intros _ H. simpl. now destruct (split_at n s).
Qed.

Lemma starts_digit_app (a b : string) :
  starts_digit a = true -> starts_digit (a ++ b) = true.
Proof. destruct a; simpl; [discriminate|auto]. Qed.

(** *** The text of [num_to_string] and [toFixed] *)

Ltac num_text_solve :=
  repeat rewrite num_text_app; simpl;
  repeat rewrite num_text_app;
  rewrite ?all_digits_num_text
    by (assumption || apply zeros_digits || apply string_of_N_digits);
  simpl; try reflexivity.

Lemma format_shortest_text (ds : string) (n : Z) :
  all_digits ds = true -> truthy_str ds = true ->
  num_text (format_shortest ds n) = true
  /\ starts_digit (format_shortest ds n) = true.
Proof.
  intros Hd Ht. pose proof (digits_start ds Hd Ht) as Hs.
  unfold format_shortest.
  destruct ((Z.of_nat (String.length ds) <=? n)%Z && (n <=? 21)%Z).
  { split.
    - rewrite num_text_app, !all_digits_num_text; auto using zeros_digits.
    - now apply starts_digit_app. }
  destruct ((0 <? n)%Z && (n <=? 21)%Z) eqn:E1.
  { apply andb_prop in E1. destruct E1 as [E1 _]. apply Z.ltb_lt in E1.
    destruct (split_at_digits (Z.to_nat n) ds Hd) as [Ha Hb].
    pose proof (split_at_start (Z.to_nat n) ds ltac:(lia) Hs) as Hsa.
    destruct (split_at (Z.to_nat n) ds) as [a b]. simpl in *. split.
    - num_text_solve.
    - now apply starts_digit_app. }
  destruct ((-6 <? n)%Z && (n <=? 0)%Z).
  { split; [|reflexivity].
    change ("0." ++ zeros (Z.to_nat (- n)) ++ ds)
      with (String "0" (String "." (zeros (Z.to_nat (- n)) ++ ds))).
    cbn [num_text]. rewrite num_text_app, !all_digits_num_text;
      auto using zeros_digits. }
  assert (num_text (string_of_N (Z.to_N (Z.abs (n - 1)))) = true) as He
      by apply all_digits_num_text, string_of_N_digits.
  destruct ds as [|c rest]; [discriminate|]. simpl in Hd, Hs.
  apply andb_prop in Hd. destruct Hd as [Hc Hrest].
  assert (num_text rest = true) as Hr by now apply all_digits_num_text.
  destruct rest as [|c' rest']; split; try exact Hs;
    destruct (n - 1 <? 0)%Z;
    rewrite ?num_text_app; cbn [num_text append];
    rewrite ?num_text_app; cbn [num_text append];
    rewrite ?(digit_num_char c Hc), ?He; simpl in Hr; rewrite ?Hr; reflexivity.
Qed.

Lemma num_to_string_text (x : spec_float) :
  num_text (num_to_string x) = true
  /\ (isNaN x = false -> number_shape (num_to_string x)).
Proof.
  destruct x as [s|s| |s m e]; simpl.
  - split; [reflexivity|]. intros _. exists false, "0". auto.
  - split; [now destruct s|]. intros _. exists s, "Infinity".
    split; [now destruct s|now left].
  - split; [reflexivity|discriminate].
  - destruct (shortest m e) as [ds n].
    destruct (format_shortest_text (string_of_N ds) n
                (string_of_N_digits ds) (string_of_N_truthy ds)) as [H1 H2].
    split.
    + rewrite num_text_app, H1. now destruct s.
    + intros _. exists s, (format_shortest (string_of_N ds) n).
      split; [reflexivity|now right].
Qed.

Lemma length_zeros (n : nat) : String.length (zeros n) = n.
Proof. induction n; simpl; auto. Qed.

Lemma length_append (a b : string) :
  String.length (a ++ b) = String.length a + String.length b.
Proof. induction a; simpl; auto. Qed.

Lemma toFixed_text (x : spec_float) (f : nat) :
  num_text (toFixed x f) = true
  /\ (isNaN x = false -> number_shape (toFixed x f)).
Proof.
  destruct x as [s|s| |s m e]; unfold toFixed.
  - destruct (f =? 0)%nat.
    + split; [reflexivity|]. intros _. exists false, "0". auto.
    + split.
      * change ("0." ++ zeros f) with (String "0" (String "." (zeros f))).
        cbn [num_text]. now rewrite all_digits_num_text by apply zeros_digits.
      * intros _. exists false, ("0." ++ zeros f). auto.
  - apply (num_to_string_text (S754_infinity s)).
  - apply (num_to_string_text S754_nan).
  - destruct (10 ^ 21 * denominator e <=? numerator m e)%Z;
      [apply (num_to_string_text (S754_finite s m e))|].
    set (ds := string_of_N (round_half_up m e f)).
    assert (all_digits ds = true) as Hd by apply string_of_N_digits.
    assert (truthy_str ds = true) as Ht by apply string_of_N_truthy.
    fold (sign_text s).
    assert (num_text (sign_text s) = true) as Hsg by now destruct s.
    destruct (f =? 0)%nat eqn:Ef.
    + split.
      * now rewrite num_text_app, Hsg, all_digits_num_text.
      * intros _. exists s, ds. split; [reflexivity|right].
        now apply digits_start.
    + apply Nat.eqb_neq in Ef.
      set (ds' := if (String.length ds <=? f)%nat
                  then zeros (f + 1 - String.length ds) ++ ds else ds).
      assert (all_digits ds' = true) as Hd'.
      { unfold ds'. destruct (String.length ds <=? f)%nat; [|exact Hd].
        now rewrite all_digits_app, zeros_digits, Hd. }
      assert (f < String.length ds') as Hlen.
      { unfold ds'. destruct (Nat.leb_spec (String.length ds) f).
        - rewrite length_append, length_zeros. lia.
        - lia. }
      assert (truthy_str ds' = true) as Ht'
          by (destruct ds'; [simpl in Hlen; lia|reflexivity]).
      destruct (split_at_digits (String.length ds' - f) ds' Hd') as [Ha Hb].
      pose proof (split_at_start (String.length ds' - f) ds' ltac:(lia)
                    (digits_start ds' Hd' Ht')) as Hsa.
      destruct (split_at (String.length ds' - f) ds') as [a b]. simpl in *.
      split.
      * rewrite num_text_app, Hsg. num_text_solve.
      * intros _. exists s, (a ++ "." ++ b). split; [reflexivity|right].
        now apply starts_digit_app.
Qed.

(** *** Reading the text back *)

Lemma shr_1_nonneg (mrs : shr_record) :
  (0 <= shr_m mrs)%Z -> (0 <= shr_m (shr_1 mrs))%Z.
Proof.
  destruct mrs as [m r s]. simpl.
  destruct m as [|[p|p|]|[p|p|]]; simpl; lia.
Qed.

Lemma iter_shr_1_nonneg (p : positive) :
  forall mrs : shr_record,
    (0 <= shr_m mrs)%Z -> (0 <= shr_m (iter_pos shr_1 p mrs))%Z.
Proof.
  induction p as [p IH|p IH|]; intros mrs H; simpl.
  - apply IH, IH, shr_1_nonneg, H.
  - apply IH, IH, H.
  - apply shr_1_nonneg, H.
Qed.

Lemma shr_fexp_nonneg (m e : Z) (l : location) :
  (0 <= m)%Z -> (0 <= shr_m (fst (shr_fexp prec emax m e l)))%Z.
Proof.
  intros Hm. unfold shr_fexp, shr.
  assert (0 <= shr_m (shr_record_of_loc m l))%Z as H0
      by (destruct l as [|[]]; exact Hm).
  destruct (fexp prec emax (Zdigits2 m + e) - e)%Z; simpl; try exact H0.
  now apply iter_shr_1_nonneg.
Qed.

Lemma round_nearest_even_nonneg (m : Z) (l : location) :
  (0 <= m)%Z -> (0 <= round_nearest_even m l)%Z.
Proof.
  intros Hm. destruct l as [|[]]; simpl; try lia.
  destruct (Z.even m); lia.
Qed.

Lemma binary_round_aux_number (neg : bool) (m e : Z) (l : location) :
  (0 <= m)%Z -> isNaN (binary_round_aux prec emax neg m e l) = false.
Proof.
  intros Hm. unfold binary_round_aux.
  pose proof (shr_fexp_nonneg m e l Hm) as H1.
  destruct (shr_fexp prec emax m e l) as [mrs' e']. simpl in H1.
  pose proof (shr_fexp_nonneg
                (round_nearest_even (shr_m mrs') (loc_of_shr_record mrs')) e'
                loc_Exact (round_nearest_even_nonneg _ _ H1)) as H2.
  destruct (shr_fexp prec emax _ e' loc_Exact) as [mrs'' e'']. simpl in H2.
  destruct (shr_m mrs'') as [|p|p]; [reflexivity| |lia].
  now destruct (e'' <=? emax - prec)%Z.
Qed.

Lemma binary_round_number (neg : bool) (m : positive) (e : Z) :
  isNaN (binary_round prec emax neg m e) = false.
Proof.
  unfold binary_round. destruct (shl_align m e _) as [mz ez].
  now apply binary_round_aux_number.
Qed.

Lemma of_decimal_number (neg : bool) (m : N) (e : Z) :
  isNaN (of_decimal neg m e) = false.
Proof.
  unfold of_decimal. destruct m as [|p]; [reflexivity|].
  destruct e as [|k|k]; try apply binary_round_number.
  unfold SFdiv_core_binary.
  set (m' := match (0 - 0 - _)%Z with
             | Z0 => Z.pos p
             | Z.pos _ => Z.shiftl (Z.pos p) _
             | Z.neg _ => 0%Z
             end).
  assert (0 <= m')%Z as Hm'.
  { unfold m'. destruct (0 - 0 - _)%Z; try lia.
    apply Z.shiftl_nonneg. lia. }
  pose proof (Z_div_mod m' (Z.pos (10 ^ k)) ltac:(lia)) as H.
  destruct (Z.div_eucl m' (Z.pos (10 ^ k))) as [q r].
  apply binary_round_aux_number. nia.
Qed.

Lemma span_digits_start (s : string) :
  starts_digit s = true -> truthy_str (fst (span_digits s)) = true.
Proof.
  destruct s as [|c s]; simpl; [discriminate|]. intros ->.
  now destruct (span_digits s).
Qed.

Lemma unsigned_literal_number (neg : bool) (s : string) :
  s = "Infinity" \/ starts_digit s = true ->
  isNaN (unsigned_literal neg s) = false.
Proof.
  intros [->|Hs]; [reflexivity|]. unfold unsigned_literal.
  destruct (String.prefix "Infinity" s); [reflexivity|].
  pose proof (span_digits_start s Hs) as Hd.
  destruct (span_digits s) as [d1 r1]. simpl in Hd. rewrite Hd.
  assert (forall p : string * string,
             isNaN (let '(d2, r2) := p in
                    if true || truthy_str d2
                    then of_decimal neg (digits_value (d1 ++ d2) 0)
                           (exponent_part r2 - Z.of_nat (String.length d2))
                    else S754_nan) = false) as H.
  { intros [d2 r2]. simpl. apply of_decimal_number. }
  apply H.
Qed.

Lemma parseFloat_digit (s : string) :
  starts_digit s = true -> parseFloat s = unsigned_literal false s.
Proof.
  destruct s as [|c s]; [discriminate|]. simpl starts_digit. intros Hc.
  destruct c as [[] [] [] [] [] [] [] []]; try discriminate Hc; reflexivity.
Qed.

Lemma parseFloat_shape (s : string) :
  number_shape s -> isNaN (parseFloat s) = false.
Proof.
  intros (neg & body & -> & Hb). destruct neg; simpl sign_text.
  - change (parseFloat ("-" ++ body)) with (unsigned_literal true body).
    now apply unsigned_literal_number.
  - change ("" ++ body) with body. destruct Hb as [->|Hb]; [reflexivity|].
    rewrite parseFloat_digit by exact Hb.
    apply unsigned_literal_number. now right.
Qed.

Lemma toFixed_truthy (x : spec_float) (f : nat) : truthy_str (toFixed x f) = true.
Proof.
  destruct x as [s|s| |s m e].
  - unfold toFixed. now destruct (f =? 0)%nat.
  - now destruct s.
  - reflexivity.
  - destruct (toFixed_text (S754_finite s m e) f) as [_ H].
    destruct (H eq_refl) as (neg & body & -> & Hb).
    destruct neg; [reflexivity|]. simpl.
    destruct Hb as [->|Hb]; [reflexivity|]. now destruct body.
Qed.

#[export] Instance binary64_laws : JSNumberLaws (JSN := binary64).
Proof.
  constructor; intros x d; simpl.
  - unfold is_token. rewrite toFixed_truthy.
    destruct (toFixed_text x d) as [H _].
    apply num_text_plain in H. destruct H as [-> _]. reflexivity.
  - destruct (toFixed_text x d) as [H _].
    apply num_text_plain in H. now destruct H.
  - intros Hx. apply parseFloat_shape. now apply toFixed_text.
Qed.

End Binary64Facts.


(** ** Concrete inputs, over binary64 numbers *)

Section Concrete.
Import Binary64 Binary64Facts.

(** C5 as the specification words it ("exactly when it parses as a
    finite number") fails on the data line [P1 1 2 Infinity]: the fourth
    token becomes the elevation although its parse, plus infinity, is not
    finite. *)
Lemma infinite_elevation_kept :
  parseSP1File (JSN := binary64) "P1 1 2 Infinity"
  = Ok {| header := empty_header;
          points := [ {| pt_id := Some "P1";
                         pt_x := parseFloat "1";
                         pt_y := parseFloat "2";
                         pt_elevation := Some (S754_infinity false);
                         pt_attributes := None |} ] |}
  /\ parseFloat "Infinity" = S754_infinity false
  /\ is_finite (parseFloat "Infinity") = false.
Proof. repeat split. Qed.

(** A data line with an elevation and two attributes, read in the initial
    state. *)
Lemma data_line_point_witness :
  (truthy_str "P3 1 2 3.5 sand wet" = true
   /\ is_comment "P3 1 2 3.5 sand wet" = false
   /\ rs_inHeader st0
      && includes ":" "P3 1 2 3.5 sand wet" = false)
  /\ exists pts : list SP1Point,
    sp1_step (JSN := binary64) st0 "P3 1 2 3.5 sand wet"
    = Ok {| rs_header := rs_header st0; rs_points := pts;
            rs_inHeader := false |}
    /\ (List.length (split_ws "P3 1 2 3.5 sand wet") < 3 ->
        pts = rs_points st0)
    /\ (3 <= List.length (split_ws "P3 1 2 3.5 sand wet") ->
        let parts := split_ws "P3 1 2 3.5 sand wet" in
        pts = (rs_points st0 ++
               [ {| pt_id := nth_error parts 0;
                    pt_x := parseFloat (nth 1 parts "");
                    pt_y := parseFloat (nth 2 parts "");
                    pt_elevation :=
                      match nth_error parts 3 with
                      | Some t => if isNaN (parseFloat t) then None
                                  else Some (parseFloat t)
                      | None => None
                      end;
                    pt_attributes :=
                      if (4 <? List.length parts)%nat
                      then Some (map (fun i => (attr_key i, nth i parts ""))
                                     (seq 4 (List.length parts - 4)))
                      else None |} ])%list).
Proof.
  split; [repeat split|].
  apply (data_line_point (JSN := binary64) st0 "P3 1 2 3.5 sand wet");
    reflexivity.
Defined.

(** A comment line met after header mode has ended. *)
Lemma comment_lines_collected_witness :
  is_comment "# shot after the first point" = true
  /\ sp1_step (JSN := binary64)
       {| rs_header := empty_header; rs_points := []; rs_inHeader := false |}
       "# shot after the first point"
     = Ok {| rs_header :=
               {| hdr_version := None; hdr_survey := None; hdr_datum := None;
                  hdr_projection := None;
                  hdr_comments := Some ["shot after the first point"] |};
             rs_points := [];
             rs_inHeader := false |}.
Proof.
  split; [reflexivity|].
  apply (proj1 (comment_lines_collected (JSN := binary64))
               {| rs_header := empty_header; rs_points := []; rs_inHeader := false |}
               "# shot after the first point").
  reflexivity.
Defined.

(** C2 (the code at the failing input).  The point read from the line
    [P1 1 2 0] has elevation 0, whose default rendering is [0]; its CSV
    row nevertheless ends with an empty elevation field. *)
Theorem zero_elevation_exported_blank :
  exists data : SP1Data,
    parseSP1File (JSN := binary64) "P1 1 2 0" = Ok data
    /\ map pt_elevation (points data) = [Some (S754_zero false)]
    /\ num_to_string (S754_zero false) = "0"
    /\ convertToCSV data = "ID,X,Y,Elevation" ++ nl ++ "P1,1,2," ++ nl.
Proof. eexists. split; [reflexivity|]. repeat split. Qed.

(** C7 as the specification words it ("elevation when present",
    "projection when present") fails: a point whose elevation is present
    and NaN gets the third coordinate 0, and a header whose projection is
    present and empty, as read from the line [Projection:], gets the crs
    name [EPSG:4326]. *)
Lemma geojson_falsy_values_replaced :
  (let point := {| pt_id := Some "P1"; pt_x := parseFloat "1"; pt_y := parseFloat "2";
                   pt_elevation := Some S754_nan; pt_attributes := None |} in
   map (fun f => coordinates (geometry f))
       (features (convertToGeoJSON (JSN := binary64)
                    {| header := empty_header; points := [point] |}))
   = [[parseFloat "1"; parseFloat "2"; S754_zero false]])
  /\ S754_zero false <> S754_nan
  /\ exists data : SP1Data,
      parseSP1File (JSN := binary64) "Projection:" = Ok data
      /\ hdr_projection (header data) = Some ""
      /\ crs_name (crs (convertToGeoJSON data)) = "EPSG:4326".
Proof.
  split; [reflexivity|]. split; [discriminate|].
  eexists. split; [reflexivity|]. split; reflexivity.
Qed.

(** A CSV row whose elevation cell is [n/a]. *)
Lemma unparsable_elevation_dropped_witness :
  (nth_error ["P1"; "10"; "20"; "n/a"; "North"] 3 = Some "n/a"
   /\ truthy_str "n/a" = true
   /\ isNaN (parseFloat "n/a") = true)
  /\ let point := csv_point (JSN := binary64)
                    ["ID"; "X"; "Y"; "Elevation"; "Zone"]
                    ["P1"; "10"; "20"; "n/a"; "North"] 0 1 2 (Z.of_nat 3) in
     pt_elevation point = None
     /\ (forall other : string,
            pt_attributes (csv_point (JSN := binary64)
                             ["ID"; "X"; "Y"; "Elevation"; "Zone"]
                             (replace_nth 3 other ["P1"; "10"; "20"; "n/a"; "North"])
                             0 1 2 (Z.of_nat 3))
            = pt_attributes point)
     /\ (forall (attrs : jsobj string) (k v : string),
            pt_attributes point = Some attrs ->
            In (k, v) attrs ->
            exists i : nat,
              i <> 3
              /\ nth_error ["ID"; "X"; "Y"; "Elevation"; "Zone"] i = Some k
              /\ nth_error ["P1"; "10"; "20"; "n/a"; "North"] i = Some v).
Proof.
  split; [repeat split|].
  apply (unparsable_elevation_dropped (JSN := binary64)
           ["ID"; "X"; "Y"; "Elevation"; "Zone"]
           ["P1"; "10"; "20"; "n/a"; "North"] 0 1 2 3 "n/a"); reflexivity.
Defined.

(** The round trip of the sample text. *)
Lemma sp1_round_trip_witness :
  valid_sp1 (JSN := binary64) sample_sp1 = true
  /\ exists data data' : SP1Data,
    parseSP1File (JSN := binary64) sample_sp1 = Ok data
    /\ parseSP1File (generateSP1Content data) = Ok data'
    /\ List.length (points data') = List.length (points data)
    /\ map pt_id (points data') = map pt_id (points data)
    /\ map pt_x (points data')
       = map (fun p => parseFloat (toFixed (pt_x p) 6)) (points data)
    /\ map pt_y (points data')
       = map (fun p => parseFloat (toFixed (pt_y p) 6)) (points data)
    /\ map pt_elevation (points data')
       = map (fun p => option_map (fun e => parseFloat (toFixed e 3))
                                  (pt_elevation p)) (points data).
Proof.
  split; [reflexivity|].
  apply (sp1_round_trip (laws := binary64_laws) sample_sp1). reflexivity.
Defined.

(** Outside valid text the round trip can change the points.  A first
    point line met in data mode may carry a colon; once written it is the
    first line after the header and is read as a header line. *)
Example colon_id_lost_after_unreadable_line :
  valid_sp1 (JSN := binary64) ("junk" ++ nl ++ "B:1 3 4") = false
  /\ round_trip_points (JSN := binary64) ("junk" ++ nl ++ "B:1 3 4")
     = Ok ([ {| pt_id := Some "B:1"; pt_x := parseFloat "3"; pt_y := parseFloat "4";
                pt_elevation := None; pt_attributes := None |} ],
           []).
Proof. split; vm_compute; reflexivity. Qed.

(** A fourth token that is not a number is dropped; the attribute after
    it is written in its place and read back as the elevation. *)
Example attribute_read_back_as_elevation :
  valid_sp1 (JSN := binary64) "P1 1 2 n/a 7" = false
  /\ round_trip_points (JSN := binary64) "P1 1 2 n/a 7"
     = Ok ([ {| pt_id := Some "P1"; pt_x := parseFloat "1"; pt_y := parseFloat "2";
                pt_elevation := None;
                pt_attributes := Some [("attr1", "7")] |} ],
           [ {| pt_id := Some "P1"; pt_x := parseFloat "1"; pt_y := parseFloat "2";
                pt_elevation := Some (parseFloat "7");
                pt_attributes := None |} ]).
Proof. split; vm_compute; reflexivity. Qed.

(** The examples of the specification, evaluated. *)
Example sample_sp1_parsed :
  parseSP1File (JSN := binary64) sample_sp1
  = Ok {| header := {| hdr_version := Some "1.0"; hdr_survey := Some "Demo";
                       hdr_datum := Some "WGS84"; hdr_projection := None;
                       hdr_comments := Some ["Test survey"] |};
          points :=
            [ {| pt_id := Some "P1"; pt_x := parseFloat "100.123456";
                 pt_y := parseFloat "200.654321";
                 pt_elevation := Some (parseFloat "50.25");
                 pt_attributes := None |};
              {| pt_id := Some "P2"; pt_x := parseFloat "150";
                 pt_y := parseFloat "250"; pt_elevation := None;
                 pt_attributes := None |};
              {| pt_id := Some "P3"; pt_x := parseFloat "1";
                 pt_y := parseFloat "2";
                 pt_elevation := Some (parseFloat "3.5");
                 pt_attributes := Some [("attr1", "sand"); ("attr2", "wet")] |} ] |}.
Proof. vm_compute. reflexivity. Qed.

Example sample_sp1_written :
  match parseSP1File (JSN := binary64) sample_sp1 with
  | Ok data => generateSP1Content data
  | Throw _ => ""
  end
  = "# Test survey" ++ nl ++
    "Version: 1.0" ++ nl ++
    "Survey: Demo" ++ nl ++
    "Datum: WGS84" ++ nl ++
    nl ++
    "P1" ++ tab ++ "100.123456" ++ tab ++ "200.654321" ++ tab ++ "50.250" ++ nl ++
    "P2" ++ tab ++ "150.000000" ++ tab ++ "250.000000" ++ nl ++
    "P3" ++ tab ++ "1.000000" ++ tab ++ "2.000000" ++ tab ++ "3.500"
         ++ tab ++ "sand" ++ tab ++ "wet" ++ nl.
Proof. vm_compute. reflexivity. Qed.

Example csv_missing_column :
  parseCSVToSP1 (JSN := binary64) ("Name,Lat,Lon" ++ nl ++ "A,1,2") empty_header
  = Throw MissingColumnsError.
Proof. reflexivity. Qed.

Example csv_extra_attribute :
  parseCSVToSP1 (JSN := binary64) ("ID,X,Y,Zone" ++ nl ++ "P1,10,20,North") empty_header
  = Ok {| header := empty_header;
          points := [ {| pt_id := Some "P1"; pt_x := parseFloat "10";
                         pt_y := parseFloat "20"; pt_elevation := None;
                         pt_attributes := Some [("Zone", "North")] |} ] |}.
Proof. vm_compute. reflexivity. Qed.

End Concrete.


(** * Further properties of the converters *)

Lemma split_char_first (c : ascii) (s : string) :
  split_char c s
  = before_first c s
    :: (if includes c s then split_char c (after_first c s) else []).
Proof.
  induction s as [|d s IH]; simpl; [reflexivity|].
  destruct (Ascii.eqb d c); simpl; [reflexivity|].
  rewrite IH. reflexivity.
Qed.

Lemma obj_get_define_same {V : Type} (k : string) (v : V) (o : jsobj V) :
  obj_get (obj_define k v o) k = Some v.
Proof.
  induction o as [|[k' v'] o IH]; simpl.
  - now rewrite String.eqb_refl.
  - destruct (String.eqb k' k) eqn:E; simpl.
    + now rewrite String.eqb_refl.
    + now rewrite E.
Qed.

Lemma obj_get_define_other {V : Type} (k k' : string) (v : V) (o : jsobj V) :
  k <> k' -> obj_get (obj_define k v o) k' = obj_get o k'.
Proof.
  intros Hk. induction o as [|[k0 v0] o IH]; simpl.
  - destruct (String.eqb_spec k k'); [contradiction|reflexivity].
  - destruct (String.eqb_spec k0 k) as [->|E0]; simpl.
    + destruct (String.eqb_spec k k'); [contradiction|reflexivity].
    + now rewrite IH.
Qed.

Section ReaderMore.
Context {number : Type} {JSN : JSNumber number}.

Lemma sp1_next_frozen (st : reader_state) (line : string) :
  rs_inHeader st = false ->
  rs_inHeader (sp1_next st line) = false
  /\ hdr_version (rs_header (sp1_next st line)) = hdr_version (rs_header st)
  /\ hdr_survey (rs_header (sp1_next st line)) = hdr_survey (rs_header st)
  /\ hdr_datum (rs_header (sp1_next st line)) = hdr_datum (rs_header st)
  /\ hdr_projection (rs_header (sp1_next st line)) = hdr_projection (rs_header st).
Proof.
  intros Hm.
  destruct (truthy_str line) eqn:Ht;
    [|rewrite sp1_next_blank by exact Ht; repeat split; auto].
  destruct (is_comment line) eqn:Hc.
  - rewrite sp1_next_comment by exact Hc. simpl. repeat split; auto.
  - rewrite sp1_next_data; [simpl; repeat split; auto|exact Ht|exact Hc|now rewrite Hm].
Qed.

(** X1. Once the reader has left header mode it never returns to it, and
    no later line, whatever it contains, changes [version], [survey],
    [datum] or [projection]. *)
Theorem header_fields_fixed_in_data_mode (lines : list string) :
  forall st : reader_state,
    rs_inHeader st = false ->
    exists st' : reader_state,
      sp1_loop st lines = Ok st'
      /\ rs_inHeader st' = false
      /\ hdr_version (rs_header st') = hdr_version (rs_header st)
      /\ hdr_survey (rs_header st') = hdr_survey (rs_header st)
      /\ hdr_datum (rs_header st') = hdr_datum (rs_header st)
      /\ hdr_projection (rs_header st') = hdr_projection (rs_header st).
Proof.
  induction lines as [|l lines IH]; intros st Hm.
  - exists st. repeat split; auto.
  - destruct (sp1_next_frozen st l Hm) as (H0 & H1 & H2 & H3 & H4).
    destruct (IH (sp1_next st l) H0) as (st' & E & I0 & I1 & I2 & I3 & I4).
    exists st'. simpl. rewrite sp1_step_next. simpl.
    repeat split; congruence.
Qed.

Lemma sp1_step_header_line (st : reader_state) (line : string) :
  truthy_str line = true ->
  is_comment line = false ->
  rs_inHeader st = true ->
  includes ":" line = true ->
  sp1_step st line
  = Ok {| rs_header :=
            set_header_field (rs_header st)
              (trim (before_first ":" line))
              (Some (trim (before_first ":" (after_first ":" line))));
          rs_points := rs_points st;
          rs_inHeader := true |}.
Proof.
  intros Ht Hc Hm Hi.
  destruct (sp1_next_header st line Ht Hc) as (key & rest & E & Hn);
    [now rewrite Hm, Hi|].
  rewrite sp1_step_next, Hn, Hm. clear Hn.
  rewrite split_char_first, Hi in E.
  rewrite (split_char_first ":" (after_first ":" line)) in E.
  simpl in E. injection E as <- <-. reflexivity.
Qed.

(** X2. In header mode a line with a colon is read as [key: value] with
    [key] the trimmed text before the first colon and [value] the trimmed
    text between the first colon and the second one (or the end of the
    line); the field named by [key], if any, is set to [value], and the
    points and the mode are left as they were. *)
Theorem header_line_key_and_value (st : reader_state) (line : string) :
  truthy_str line = true ->
  is_comment line = false ->
  rs_inHeader st = true ->
  includes ":" line = true ->
  sp1_step st line
  = Ok {| rs_header :=
            set_header_field (rs_header st)
              (trim (before_first ":" line))
              (Some (trim (before_first ":" (after_first ":" line))));
          rs_points := rs_points st;
          rs_inHeader := true |}.
Proof. exact (sp1_step_header_line st line). Qed.

(** X21. In header mode a line with a colon whose key is none of
    [version], [survey], [datum] and [projection] (in any case) changes
    nothing: a point line that carries a colon, met before the first
    point, is dropped without notice. *)
Theorem unknown_header_key_ignored (st : reader_state) (line : string) :
  truthy_str line = true ->
  is_comment line = false ->
  rs_inHeader st = true ->
  includes ":" line = true ->
  ~ In (toLowerCase (trim (before_first ":" line)))
       ["version"; "survey"; "datum"; "projection"] ->
  sp1_step st line = Ok st.
Proof.
  intros Ht Hc Hm Hi Hk.
  rewrite sp1_step_header_line by assumption.
  unfold set_header_field. cbv zeta.
  set (k := toLowerCase (trim (before_first ":" line))) in *.
  destruct (String.eqb_spec k "version") as [E|_];
    [exfalso; apply Hk; rewrite E; simpl; tauto|].
  destruct (String.eqb_spec k "survey") as [E|_];
    [exfalso; apply Hk; rewrite E; simpl; tauto|].
  destruct (String.eqb_spec k "datum") as [E|_];
    [exfalso; apply Hk; rewrite E; simpl; tauto|].
  destruct (String.eqb_spec k "projection") as [E|_];
    [exfalso; apply Hk; rewrite E; simpl; tauto|].
  destruct st as [h pts m]. cbn in *. now rewrite Hm.
Qed.

(** X3. The number of points read from a text is the number of its data
    lines with at least three tokens; in particular it never exceeds the
    number of non-blank lines that are not comments. *)
Theorem point_count (content : string) :
  exists data : SP1Data,
    parseSP1File content = Ok data
    /\ List.length (points data)
       = List.length
           (filter (fun line => (3 <=? List.length (split_ws line))%nat)
                   (data_lines true (trimmed_lines content)))
    /\ List.length (points data)
       <= List.length
            (filter (fun line => negb (is_comment line)) (trimmed_lines content)).
Proof.
  rewrite parseSP1File_run. eexists. split; [reflexivity|]. cbn [points].
  rewrite sp1_run_points. cbn [initial_state rs_points rs_inHeader app].
  assert (forall ls : list string,
             List.length (points_of_lines ls)
             = List.length
                 (filter (fun line => (3 <=? List.length (split_ws line))%nat) ls))
    as Hcount.
  { induction ls as [|l ls IH]; [reflexivity|].
    change (l :: ls) with ([l] ++ ls)%list at 1.
    rewrite points_of_lines_app, length_app, IH. unfold points_of_lines. simpl.
    destruct (split_ws l) as [|p0 [|p1 [|p2 rest]]]; reflexivity. }
  split; [apply Hcount|]. rewrite Hcount.
  etransitivity; [apply filter_length_le|].
  rewrite <- (data_lines_drop_comments (trimmed_lines content) true).
  generalize (filter (fun l => negb (is_comment l)) (trimmed_lines content)).
  intros ls. generalize true.
  induction ls as [|l ls IH]; intros b; simpl; [lia|].
  destruct (negb (truthy_str l) || is_comment l); [specialize (IH b); lia|].
  destruct (b && includes ":" l); [specialize (IH b); lia|].
  simpl. specialize (IH false). lia.
Qed.

End ReaderMore.


(** ** The upload zone and the export file name *)

Lemma pop_app_last {A : Type} (l : list A) (a : A) : pop (l ++ [a])%list = Some a.
Proof.
  induction l as [|x l IH]; [reflexivity|].
  simpl. destruct (l ++ [a])%list eqn:E; [now destruct l|exact IH].
Qed.

Lemma split_char_whole (c : ascii) (s : string) :
  includes c s = false -> split_char c s = [s].
Proof.
  induction s as [|d s IH]; [reflexivity|].
  simpl. intros H. apply orb_false_elim in H. destruct H as [Hd Hs].
  rewrite Hd, IH by exact Hs. reflexivity.
Qed.

Lemma split_char_last (c : ascii) (base ext : string) :
  includes c ext = false ->
  exists h pieces,
    split_char c (base ++ String c ext) = (h :: pieces ++ [ext])%list.
Proof.
  intros He. induction base as [|d base IH]; simpl.
  - rewrite Ascii.eqb_refl, split_char_whole by exact He.
    exists "", []. reflexivity.
  - destruct IH as (h & pieces & ->).
    destruct (Ascii.eqb d c).
    + exists "", (h :: pieces). reflexivity.
    + exists (String d h), pieces. reflexivity.
Qed.

Lemma last_separator (c : ascii) (s : string) :
  includes c s = true ->
  exists base ext, s = base ++ String c ext /\ includes c ext = false.
Proof.
  induction s as [|d s IH]; [discriminate|].
  simpl. intros H.
  destruct (includes c s) eqn:Es.
  - destruct (IH eq_refl) as (base & ext & -> & He).
    exists (String d base), ext. split; [reflexivity|exact He].
  - rewrite orb_false_r in H. apply Ascii.eqb_eq in H. subst d.
    exists "", s. split; [reflexivity|exact Es].
Qed.

Lemma extension_chars_no_dot (s : string) :
  extension_chars s = true -> includes "."%char s = false.
Proof.
  induction s as [|d s IH]; [reflexivity|].
  simpl. intros H. apply andb_prop in H. destruct H as [Hd Hs].
  rewrite (IH Hs), orb_false_r.
  unfold extension_char in Hd. apply negb_true_iff in Hd.
  apply orb_false_elim in Hd. tauto.
Qed.

Lemma replaceExtension_no_dot (s : string) :
  includes "."%char s = false -> replaceExtension s = s.
Proof.
  induction s as [|d s IH]; [reflexivity|].
  simpl. intros H. apply orb_false_elim in H. destruct H as [Hd Hs].
  rewrite Hd, IH by exact Hs. reflexivity.
Qed.

Lemma extension_chars_app (a b : string) :
  extension_chars (a ++ b) = extension_chars a && extension_chars b.
Proof.
  induction a as [|d a IH]; [reflexivity|].
  simpl. rewrite IH. now rewrite andb_assoc.
Qed.

Lemma replaceExtension_suffix (base ext : string) :
  truthy_str ext = true -> extension_chars ext = true ->
  replaceExtension (base ++ String "."%char ext) = base ++ ".sp1".
Proof.
  intros Ht He. induction base as [|d base IH].
  - simpl. rewrite Ht, He. reflexivity.
  - change (replaceExtension (String d (base ++ String "."%char ext))
            = String d (base ++ ".sp1")).
    cbn [replaceExtension]. rewrite extension_chars_app.
    replace (extension_chars (String "."%char ext)) with false by reflexivity.
    rewrite andb_false_r, andb_false_r. now rewrite IH.
Qed.

Lemma lower_char_extension (c d : ascii) :
  lower_char c = d -> extension_char d = true -> extension_char c = true.
Proof.
  intros <-. unfold extension_char, lower_char.
  destruct c as [[] [] [] [] [] [] [] []]; vm_compute; congruence.
Qed.

Lemma toLowerCase_extension (s : string) :
  extension_chars (toLowerCase s) = true -> extension_chars s = true.
Proof.
  induction s as [|c s IH]; [reflexivity|].
  simpl. intros H. apply andb_prop in H. destruct H as [Hc Hs].
  rewrite (lower_char_extension c _ eq_refl Hc), (IH Hs). reflexivity.
Qed.

Lemma toLowerCase_truthy (s : string) :
  truthy_str (toLowerCase s) = truthy_str s.
Proof. now destruct s. Qed.

Lemma fileExtension_suffix (base ext : string) :
  includes "."%char ext = false ->
  fileExtension (base ++ String "."%char ext) = "." ++ toLowerCase ext.
Proof.
  intros He. unfold fileExtension.
  destruct (split_char_last "."%char base ext He) as (h & pieces & ->).
  change (h :: pieces ++ [ext])%list with ((h :: pieces) ++ [ext])%list.
  rewrite pop_app_last. reflexivity.
Qed.

Lemma fileExtension_no_dot (name : string) :
  includes "."%char name = false ->
  fileExtension name = "." ++ toLowerCase name.
Proof.
  intros He. unfold fileExtension.
  rewrite split_char_whole by exact He. reflexivity.
Qed.

(** X4.  The extension the upload zone checks is the text after the last
    dot of the file name, in lower case, behind a dot.  A name without a
    dot counts as its own extension. *)
Theorem dropped_file_extension (base ext : string) :
  includes "."%char ext = false ->
  fileExtension (base ++ "." ++ ext) = "." ++ toLowerCase ext
  /\ fileExtension ext = "." ++ toLowerCase ext.
Proof.
  intros He. split.
  - exact (fileExtension_suffix base ext He).
  - exact (fileExtension_no_dot ext He).
Qed.

(** X5.  The export names its SP1 file after the CSV file: a last
    extension of one or more characters other than the slash is replaced
    by [.sp1]. *)
Theorem export_file_renamed (base ext : string) :
  truthy_str ext = true ->
  extension_chars ext = true ->
  replaceExtension (base ++ "." ++ ext) = base ++ ".sp1".
Proof. exact (replaceExtension_suffix base ext). Qed.

Lemma replaceExtension_cases (name : string) :
  replaceExtension name = name
  \/ exists base ext,
       name = base ++ String "."%char ext
       /\ truthy_str ext = true /\ extension_chars ext = true.
Proof.
  induction name as [|c name IH]; [now left|].
  cbn [replaceExtension].
  destruct (Ascii.eqb c "."%char && truthy_str name && extension_chars name)
    eqn:E.
  - right. apply andb_prop in E. destruct E as [E He].
    apply andb_prop in E. destruct E as [Ec Ht].
    apply Ascii.eqb_eq in Ec. subst c.
    exists "", name. auto.
  - destruct IH as [->|(base & ext & -> & Ht & He)]; [now left|].
    right. exists (String c base), ext. auto.
Qed.

(** X6.  A name without a dot, and a name that ends with a dot, are kept
    as they are, and renaming twice is renaming once. *)
Theorem export_file_name_kept (name : string) :
  (includes "."%char name = false -> replaceExtension name = name)
  /\ replaceExtension (name ++ ".") = name ++ "."
  /\ replaceExtension (replaceExtension name) = replaceExtension name.
Proof.
  split; [apply replaceExtension_no_dot|]. split.
  - induction name as [|c name IH]; [reflexivity|].
    change (replaceExtension (String c (name ++ ".")) = String c (name ++ ".")).
    cbn [replaceExtension]. rewrite extension_chars_app.
    replace (extension_chars ".") with false by reflexivity.
    rewrite andb_false_r, andb_false_r. now rewrite IH.
  - destruct (replaceExtension_cases name) as [E|(base & ext & -> & Ht & He)];
      [now rewrite !E|].
    rewrite replaceExtension_suffix by assumption.
    apply (replaceExtension_suffix base "sp1"); reflexivity.
Qed.

(** X7.  A file the export zone accepts on a drop has the extension
    [csv] in any case; the SP1 file is named after it with [.sp1] in
    place of the extension, and a file named just [csv] keeps its
    name. *)
Theorem dropped_csv_export_name {number : Type}
        (st : @AppState number) (name : string) :
  handleDrop [".csv"] (Some name) = DropSelected name ->
  exists base ext : string,
    toLowerCase ext = "csv"
    /\ ((name = base ++ "." ++ ext
         /\ fileName (handleCSVExport_start st name) = base ++ ".sp1")
        \/ (name = ext /\ fileName (handleCSVExport_start st name) = name)).
Proof.
  unfold handleDrop. cbn [existsb]. rewrite orb_false_r.
  destruct (String.eqb (fileExtension name) ".csv") eqn:E; [|discriminate].
  intros _. apply String.eqb_eq in E.
  cbn [handleCSVExport_start fileName].
  destruct (includes "."%char name) eqn:Hd.
  - destruct (last_separator _ _ Hd) as (base & ext & -> & He).
    rewrite fileExtension_suffix in E by exact He.
    injection E as E.
    exists base, ext. split; [exact E|]. left. split; [reflexivity|].
    apply replaceExtension_suffix.
    + rewrite <- toLowerCase_truthy, E. reflexivity.
    + apply toLowerCase_extension. rewrite E. reflexivity.
  - rewrite fileExtension_no_dot in E by exact Hd.
    injection E as E.
    exists "", name. split; [exact E|]. right. split; [reflexivity|].
    now apply replaceExtension_no_dot.
Qed.


(** ** The component *)

Section ApplicationTheorems.
Context {number : Type} {JSN : JSNumber number}.

Lemma truthy_str_app_l (a b : string) :
  truthy_str a = true -> truthy_str (a ++ b) = true.
Proof. now destruct a. Qed.

Lemma truthy_str_app_r (a b : string) :
  truthy_str b = true -> truthy_str (a ++ b) = true.
Proof. destruct a; [now simpl|reflexivity]. Qed.

Lemma generateSP1Content_truthy (data : SP1Data) :
  truthy_str (generateSP1Content data) = true.
Proof.
  unfold generateSP1Content. cbv zeta.
  rewrite (fold_left_append (fun point => sp1_line point ++ nl)).
  apply truthy_str_app_l, truthy_str_app_r. reflexivity.
Qed.

Lemma parseCSVToSP1_header (content : string) (hdr : SP1Header) (data : SP1Data) :
  parseCSVToSP1 content hdr = Ok data -> header data = hdr.
Proof.
  unfold parseCSVToSP1.
  destruct (trimmed_lines content) as [|headerLine rows]; [discriminate|].
  cbv zeta.
  destruct ((_ =? -1)%Z || (_ =? -1)%Z || (_ =? -1)%Z); [discriminate|].
  intros E. injection E as <-. reflexivity.
Qed.

(** X8.  An import whose file could be read always succeeds, whatever
    the text: the GeoJSON of the points read is stored, the toast counts
    them, and the panel offers the download.  The import fails exactly
    when reading the file fails, and then keeps the stored data. *)
Theorem import_outcome (st : @AppState number) (text : settled) :
  let (st', out) := handleSP1Import_resume st text in
  match text with
  | Resolved content =>
      exists data : SP1Data,
        parseSP1File content = Ok data
        /\ importStatus st' = success
        /\ convertedData st' = GeoJSONData (convertToGeoJSON data)
        /\ outputFormat st' = "GeoJSON"
        /\ out = [ShowToast
                    {| toast_title := "Import successful";
                       toast_description :=
                         "Imported " ++ string_of_nat (List.length (points data))
                         ++ " points from SP1 file";
                       toast_variant := None |}]
        /\ option_map view_message (import_panel st')
           = Some "Successfully converted to GeoJSON format"
        /\ option_map view_downloadButton (import_panel st') = Some true
  | _ =>
      importStatus st' = error
      /\ convertedData st' = convertedData st
      /\ outputFormat st' = outputFormat st
  end.
Proof.
  unfold handleSP1Import_resume, awaited.
  destruct text as [content| |]; [|cbn; auto|cbn; auto].
  rewrite parseSP1File_run. cbn. eexists. repeat split.
Qed.

(** X9.  An export whose file could be read fails with the message
    [Empty CSV file] when the text has no non-blank line, fails with
    [CSV must contain ID, X, and Y columns] when the first line lacks
    one of the three columns, and otherwise stores the SP1 text written
    for the rows under the header of an export.  The panel shows the
    message of the failure. *)
Theorem export_outcome (st : @AppState number) (content : string) :
  let (st', out) := handleCSVExport_resume st (Resolved content) in
  let failed (message : string) :=
    exportStatus st' = error
    /\ errorMessage st' = message
    /\ convertedData st' = convertedData st
    /\ outputFormat st' = outputFormat st
    /\ option_map view_message (export_panel st') = Some message in
  match trimmed_lines content with
  | [] => failed "Empty CSV file"
  | headerLine :: _ =>
      let columns := csv_cells headerLine in
      if existsb (test_ci "id") columns
         && existsb (test_ci "x") columns
         && existsb (test_ci "y") columns
      then exists data : SP1Data,
          parseCSVToSP1 content export_header = Ok data
          /\ header data = export_header
          /\ exportStatus st' = success
          /\ convertedData st' = TextData (generateSP1Content data)
          /\ outputFormat st' = "SP1"
          /\ out = [ShowToast
                      {| toast_title := "Export successful";
                         toast_description :=
                           "Converted "
                           ++ string_of_nat (List.length (points data))
                           ++ " points to SP1 format";
                         toast_variant := None |}]
      else failed "CSV must contain ID, X, and Y columns"
  end.
Proof.
  unfold handleCSVExport_resume, awaited.
  pose proof (csv_reader_outcome content export_header) as H.
  destruct (trimmed_lines content) as [|headerLine rows].
  - rewrite H. cbn. repeat split.
  - cbv zeta in H. unfold csv_cells. cbv zeta.
    destruct (existsb (test_ci "id") _ && existsb (test_ci "x") _
              && existsb (test_ci "y") _).
    + destruct H as (data & E). rewrite E. cbn.
      exists data. repeat split. exact (parseCSVToSP1_header _ _ _ E).
    + rewrite H. cbn. repeat split.
Qed.

Lemma app_step_consistent (st : @AppState number) (e : event) :
  consistent st -> consistent (fst (app_step st e)).
Proof.
  unfold consistent. intros H.
  destruct e as [name|text|name|text| |]; cbn [app_step fst].
  - cbn. destruct (convertedData st); [|exact H|exact H].
    destruct H as (H1 & H2 & H3). repeat split; [exact H1|discriminate|exact H3].
  - unfold handleSP1Import_resume, awaited.
    destruct text as [content| |].
    + rewrite parseSP1File_run. cbn. reflexivity.
    + cbn. destruct (convertedData st); [|exact H|exact H].
      destruct H as (H1 & H2 & H3). repeat split; [exact H1|discriminate|exact H3].
    + cbn. destruct (convertedData st); [|exact H|exact H].
      destruct H as (H1 & H2 & H3). repeat split; [exact H1|discriminate|exact H3].
  - cbn. destruct (convertedData st); [|exact H|exact H].
    destruct H as (H1 & H2 & H3). repeat split; [exact H1|exact H2|discriminate].
  - unfold handleCSVExport_resume, awaited.
    destruct text as [content| |].
    + destruct (parseCSVToSP1 content export_header) as [data|ex] eqn:E; cbn.
      * split; [reflexivity|]. exists data.
        split; [exact (parseCSVToSP1_header _ _ _ E)|reflexivity].
      * destruct (convertedData st); [|exact H|exact H].
        destruct H as (H1 & H2 & H3).
        repeat split; [exact H1|exact H2|discriminate].
    + cbn. destruct (convertedData st); [|exact H|exact H].
      destruct H as (H1 & H2 & H3). repeat split; [exact H1|exact H2|discriminate].
    + cbn. destruct (convertedData st); [|exact H|exact H].
      destruct H as (H1 & H2 & H3). repeat split; [exact H1|exact H2|discriminate].
  - exact H.
  - exact H.
Qed.

Lemma app_run_consistent (events : list event) :
  forall st : @AppState number,
    consistent st -> consistent (fst (app_run st events)).
Proof.
  induction events as [|e events IH]; intros st H; [exact H|].
  cbn [app_run].
  pose proof (app_step_consistent st e H) as H'.
  destruct (app_step st e) as [st' out].
  specialize (IH st' H').
  destruct (app_run st' events) as [st'' out']. exact IH.
Qed.

Lemma initial_app_consistent : consistent (@initial_app number).
Proof. cbn. repeat split; discriminate. Qed.

Lemma app_step_effects (st : @AppState number) (e : event) :
  consistent st -> Forall expected_effect (snd (app_step st e)).
Proof.
  unfold consistent. intros H.
  destruct e as [name|text|name|text| |]; cbn [app_step snd].
  - constructor.
  - unfold handleSP1Import_resume, awaited.
    destruct text as [content| |]; [rewrite parseSP1File_run|..];
      cbn; repeat constructor.
  - constructor.
  - unfold handleCSVExport_resume, awaited.
    destruct text as [content| |];
      [destruct (parseCSVToSP1 content export_header)|..];
      cbn; repeat constructor.
  - unfold handleImportDownload.
    destruct (convertedData st) as [|fc|s] eqn:E; cbn [truthy_converted negb].
    + constructor.
    + rewrite H. cbn. constructor; [|constructor].
      left. split; reflexivity.
    + destruct H as (H & Hs). rewrite H.
      destruct (truthy_str s); cbn; constructor; [|constructor].
      split; [exact Hs|]. left. split; reflexivity.
  - unfold handleExportDownload.
    destruct (convertedData st) as [|fc|s] eqn:E; cbn [truthy_converted negb].
    + constructor.
    + cbn. constructor; [|constructor]. right. reflexivity.
    + destruct H as (H & Hs).
      destruct (truthy_str s); cbn; constructor; [|constructor].
      split; [exact Hs|]. right. reflexivity.
Qed.

Lemma app_run_effects (events : list event) :
  forall st : @AppState number,
    consistent st -> Forall expected_effect (snd (app_run st events)).
Proof.
  induction events as [|e events IH]; intros st H; [constructor|].
  cbn [app_run].
  pose proof (app_step_consistent st e H) as H'.
  pose proof (app_step_effects st e H) as Ho.
  destruct (app_step st e) as [st' out].
  specialize (IH st' H').
  destruct (app_run st' events) as [st'' out'].
  cbn [snd fst] in *. apply Forall_app. split; assumption.
Qed.

(** X10.  Whatever happens to the component, the stored data and the
    stored format name belong together: GeoJSON under the name
    [GeoJSON], SP1 text of an export under the name [SP1], and no panel
    reports success while nothing is stored. *)
Theorem app_consistent (events : list event) :
  consistent (fst (app_run (@initial_app number) events)).
Proof. apply app_run_consistent, initial_app_consistent. Qed.

(** X11.  Every download the component starts carries GeoJSON or the SP1
    text of an export, never nothing.  The import tab names GeoJSON
    [converted.geojson]; what it names [converted.csv] is always the SP1
    text of an export, [convertToCSV] is not called. *)
Theorem app_downloads (events : list event) :
  Forall expected_effect (snd (app_run (@initial_app number) events)).
Proof. apply app_run_effects, initial_app_consistent. Qed.

(** X12.  Whenever a panel offers the Download button, pressing it
    starts exactly one download; the export tab names the file after
    the stored file name. *)
Theorem offered_download_starts (events : list event) :
  let st := fst (app_run (@initial_app number) events) in
  (option_map view_downloadButton (import_panel st) = Some true ->
   exists d, handleImportDownload st = [StartDownload d])
  /\ (option_map view_downloadButton (export_panel st) = Some true ->
      exists d, handleExportDownload st = [StartDownload d]
                /\ dl_filename d = fileName st).
Proof.
  cbv zeta.
  pose proof (app_run_consistent events _ initial_app_consistent) as H.
  set (st := fst (app_run initial_app events)) in *.
  unfold consistent in H.
  assert (importStatus st = success \/ exportStatus st = success ->
          truthy_converted (convertedData st) = true) as Ht.
  { destruct (convertedData st) as [|fc|s].
    - destruct H as (_ & H2 & H3). tauto.
    - reflexivity.
    - intros _. destruct H as (_ & data & _ & ->).
      apply generateSP1Content_truthy. }
  split.
  - unfold import_panel, ConversionStatus. cbn.
    destruct (importStatus st) eqn:E; try discriminate.
    intros _. unfold handleImportDownload. rewrite Ht by now left.
    cbn. eauto.
  - unfold export_panel, ConversionStatus. cbn.
    destruct (exportStatus st) eqn:E; try discriminate.
    intros _. unfold handleExportDownload. rewrite Ht by now right.
    cbn. eauto.
Qed.

End ApplicationTheorems.


(** ** GeoJSON properties and CSV rows *)

Lemma obj_get_In {V : Type} (o : jsobj V) (k : string) (v : V) :
  obj_get o k = Some v -> In (k, v) o.
Proof.
  induction o as [|[k' v'] o IH]; simpl; [discriminate|].
  destruct (String.eqb_spec k' k) as [->|E].
  - intros H. injection H as ->. now left.
  - intros H. right. now apply IH.
Qed.

Lemma obj_get_None {V : Type} (o : jsobj V) (k : string) :
  obj_get o k = None <-> forall v, ~ In (k, v) o.
Proof.
  induction o as [|[k' v'] o IH]; simpl.
  - split; [intros _ v []|reflexivity].
  - destruct (String.eqb_spec k' k) as [->|E].
    + split; [discriminate|]. intros H. exfalso. apply (H v'). now left.
    + rewrite IH. split.
      * intros H v [H'|H']; [congruence|exact (H v H')].
      * intros H v H'. apply (H v). now right.
Qed.

Lemma obj_get_NoDup {V : Type} (o : jsobj V) (k : string) (v : V) :
  NoDup (map fst o) -> In (k, v) o -> obj_get o k = Some v.
Proof.
  induction o as [|[k' v'] o IH]; simpl; [intros _ []|].
  intros Hn Hi. inversion Hn as [|? ? Hk Hn']; subst.
  destruct Hi as [E|Hi].
  - injection E as -> ->. now rewrite String.eqb_refl.
  - destruct (String.eqb_spec k' k) as [->|E].
    + exfalso. apply Hk. apply in_map_iff. exists (k, v). auto.
    + now apply IH.
Qed.

Lemma obj_get_snoc {V : Type} (o : jsobj V) (k k' : string) (v : V) :
  obj_get (o ++ [(k, v)])%list k'
  = match obj_get o k' with
    | Some w => Some w
    | None => if String.eqb k k' then Some v else None
    end.
Proof.
  induction o as [|[k0 v0] o IH]; simpl; [reflexivity|].
  destruct (String.eqb k0 k'); [reflexivity|exact IH].
Qed.

Lemma obj_get_define {V : Type} (k k' : string) (v : V) (o : jsobj V) :
  obj_get (obj_define k v o) k'
  = if String.eqb k k' then Some v else obj_get o k'.
Proof.
  destruct (String.eqb_spec k k') as [<-|E].
  - apply obj_get_define_same.
  - now apply obj_get_define_other.
Qed.

Lemma spread_get {V : Type} (f : string -> V) (entries : jsobj string) :
  forall (base : jsobj V) (k : string),
    obj_get (fold_left (fun o kv => obj_define (fst kv) (f (snd kv)) o)
                       entries base) k
    = match obj_get (rev entries) k with
      | Some v => Some (f v)
      | None => obj_get base k
      end.
Proof.
  induction entries as [|[k0 v0] entries IH]; intros base k; [reflexivity|].
  cbn [fold_left rev fst snd]. rewrite IH, obj_get_snoc, obj_get_define.
  destruct (obj_get (rev entries) k); [reflexivity|].
  destruct (String.eqb k0 k); reflexivity.
Qed.

Lemma own_entries_get {V : Type} (o : jsobj V) (k : string) :
  NoDup (map fst o) -> obj_get (rev (own_entries o)) k = obj_get o k.
Proof.
  intros Hn.
  destruct (obj_get (rev (own_entries o)) k) as [v|] eqn:E.
  - apply obj_get_In in E. apply (proj2 (in_rev _ _)) in E.
    apply (proj1 (own_entries_In _ _)) in E.
    symmetry. apply obj_get_NoDup; assumption.
  - symmetry. apply obj_get_None. intros v Hv.
    apply (proj1 (obj_get_None _ _) E v).
    apply (proj1 (in_rev _ _)). apply (proj2 (own_entries_In _ _)). exact Hv.
Qed.

Section ExporterMore.
Context {number : Type} {JSN : JSNumber number}.

(** X13.  The properties of a GeoJSON feature hold every attribute of
    the point as a string; [id] and [elevation] are the point's own,
    unless an attribute of that name replaces them; there are no other
    properties. *)
Theorem geojson_properties (point : @SP1Point number) (key : string) :
  (forall attrs, pt_attributes point = Some attrs -> NoDup (map fst attrs)) ->
  obj_get (feature_properties point) key
  = match attribute_of point key with
    | Some v => Some (VString v)
    | None =>
        if String.eqb key "id"
        then Some (match pt_id point with
                   | Some s => VString s
                   | None => VUndefined
                   end)
        else if String.eqb key "elevation"
             then Some (match pt_elevation point with
                        | Some e => VNumber e
                        | None => VUndefined
                        end)
             else None
    end.
Proof.
  intros Hn. unfold feature_properties, attribute_of.
  destruct (pt_attributes point) as [attrs|].
  - cbv zeta. rewrite (spread_get VString), own_entries_get by now apply Hn.
    destruct (obj_get attrs key); [reflexivity|].
    cbn [obj_get]. rewrite (String.eqb_sym "id"), (String.eqb_sym "elevation").
    reflexivity.
  - cbv zeta. cbn [obj_get].
    rewrite (String.eqb_sym "id"), (String.eqb_sym "elevation"). reflexivity.
Qed.

Lemma csv_rows_map (columns : list string) (idIndex xIndex yIndex elevIndex : Z)
      (rows : list string) :
  forall pts : list SP1Point,
    csv_rows columns rows idIndex xIndex yIndex elevIndex pts
    = (pts ++ map (fun values =>
                     csv_point columns values idIndex xIndex yIndex elevIndex)
                  (filter (fun values => (3 <=? List.length values)%nat)
                          (map csv_cells rows)))%list.
Proof.
  induction rows as [|row rows IH]; intros pts; cbn [csv_rows map filter].
  - now rewrite app_nil_r.
  - rewrite IH. fold (csv_cells row).
    destruct (Nat.ltb_spec (List.length (csv_cells row)) 3) as [H|H].
    + destruct (Nat.leb_spec 3 (List.length (csv_cells row))); [lia|reflexivity].
    + destruct (Nat.leb_spec 3 (List.length (csv_cells row))); [|lia].
      cbn [map]. now rewrite <- app_assoc.
Qed.

(** X14.  The CSV reader hands back the header it was given and builds
    one point for every row after the first line that has at least
    three cells, in the order of the rows; a shorter row is skipped. *)
Theorem csv_points (content : string) (hdr : SP1Header) (data : SP1Data) :
  parseCSVToSP1 content hdr = Ok data ->
  header data = hdr
  /\ exists (headerLine : string) (rows : list string),
      trimmed_lines content = headerLine :: rows
      /\ (let columns := csv_cells headerLine in
          points data
          = map (fun values =>
                   csv_point columns values
                     (findIndex (test_ci "id") columns)
                     (findIndex (test_ci "x") columns)
                     (findIndex (test_ci "y") columns)
                     (findIndex (fun col => test_ci "elevation" col
                                            || test_ci "z" col) columns))
                (filter (fun values => (3 <=? List.length values)%nat)
                        (map csv_cells rows)))
      /\ List.length (points data) <= List.length rows.
Proof.
  unfold parseCSVToSP1.
  destruct (trimmed_lines content) as [|headerLine rows]; [discriminate|].
  cbv zeta. fold (csv_cells headerLine).
  destruct ((_ =? -1)%Z || (_ =? -1)%Z || (_ =? -1)%Z); [discriminate|].
  intros E. injection E as <-. cbn [header points].
  split; [reflexivity|]. exists headerLine, rows.
  rewrite csv_rows_map. cbn [app].
  split; [reflexivity|]. split; [reflexivity|].
  rewrite length_map. etransitivity; [apply filter_length_le|].
  now rewrite length_map.
Qed.

End ExporterMore.


(** ** CSV written and read again *)

Lemma trimEnd_cons (c : ascii) (s : string) :
  is_ws c = false -> trimEnd (String c s) = String c (trimEnd s).
Proof. intros H. cbn [trimEnd]. rewrite H. now destruct (trimEnd s). Qed.

Lemma before_first_app (c : ascii) (a b : string) :
  includes c a = false -> before_first c (a ++ b) = a ++ before_first c b.
Proof.
  induction a as [|d a IH]; [reflexivity|].
  simpl. intros H. apply orb_false_elim in H. destruct H as [Hd Ha].
  rewrite Hd, IH by exact Ha. reflexivity.
Qed.

Lemma csv_header_line (rest : string) :
  exists (tail : string) (rows : list string),
    trimmed_lines ("ID,X,Y,Elevation" ++ rest)
    = ("ID,X,Y,Elevation" ++ tail) :: rows.
Proof.
  unfold trimmed_lines. rewrite split_char_first. cbn [map].
  rewrite (before_first_app "010" "ID,X,Y,Elevation") by reflexivity.
  set (b := before_first "010" rest).
  assert (trim ("ID,X,Y,Elevation" ++ b) = "ID,X,Y,Elevation" ++ trimEnd b) as E.
  { unfold trim. cbn [append trimStart is_ws].
    change (trimStart _) with ("ID,X,Y,Elevation" ++ b).
    cbn [append]. rewrite !trimEnd_cons by reflexivity. reflexivity. }
  rewrite E. cbn [filter append truthy_str]. eauto.
Qed.

Section CsvAgain.
Context {number : Type} {JSN : JSNumber number}.

(** X15.  Whatever the data, the CSV reader accepts the text written by
    [convertToCSV]: the text is never empty and its first line always
    has the columns [ID], [X] and [Y]. *)
Theorem written_csv_accepted (data : SP1Data) (hdr : SP1Header) :
  exists data' : SP1Data,
    parseCSVToSP1 (convertToCSV data) hdr = Ok data' /\ header data' = hdr.
Proof.
  pose proof (csv_reader_outcome (convertToCSV data) hdr) as H.
  unfold convertToCSV in *. cbv zeta in *.
  rewrite (fold_left_append (fun point => csv_row _ point ++ nl)) in *.
  unfold csv_header_row in *. rewrite !append_assoc in *.
  destruct (csv_header_line
              (join "" (map (fun key => "," ++ key)
                            (attributeKeys (points data)))
               ++ nl ++ concat_all (map (fun point => csv_row (attributeKeys (points data)) point ++ nl) (points data))))
    as (tail & rows & E).
  rewrite E in H.
  change ("ID,X,Y,Elevation" ++ tail)
    with ("ID" ++ String "," ("X" ++ String "," ("Y" ++ String "," ("Elevation" ++ tail))))
    in H.
  rewrite !split_char_line in H by reflexivity.
  cbn in H. destruct H as (data' & E').
  exists data'. split; [exact E'|]. exact (parseCSVToSP1_header _ _ _ E').
Qed.

End CsvAgain.


(** ** The header through the round trip *)

Lemma trim_idem (s : string) : trim (trim s) = trim s.
Proof.
  destruct (trim_shape s) as [E|[Hs He]].
  - rewrite E. reflexivity.
  - now apply trim_id.
Qed.

Lemma trim_stable_shape (v : string) :
  truthy_str v = true -> trim v = v ->
  starts_nonws v = true /\ ends_nonws v = true.
Proof.
  intros Ht E. destruct (trim_shape v) as [E'|H].
  - rewrite E in E'. subst v. discriminate.
  - now rewrite E in H.
Qed.

Lemma trim_after_space (v : string) : trim (" " ++ v) = trim v.
Proof. reflexivity. Qed.

Lemma startsWith_app (c : ascii) (a b : string) :
  truthy_str a = true -> startsWith c (a ++ b) = startsWith c a.
Proof. now destruct a. Qed.

Lemma trimmed_lines_comments (cs : list string) (rest : string) :
  Forall (fun c => includes "010" c = false) cs ->
  trimmed_lines (join nl (map (fun comment => "# " ++ comment) cs) ++ nl ++ rest)
  = (map (fun c => trim ("# " ++ c)) cs ++ trimmed_lines rest)%list.
Proof.
  induction cs as [|c cs IH]; intros H.
  - apply (trimmed_lines_block "" rest). reflexivity.
  - inversion H as [|? ? Hc Hcs]; subst.
    assert (truthy_str (trim ("# " ++ c)) = true) as Ht.
    { pose proof (startsWith_trim "#" (" " ++ c) eq_refl) as Hs.
      change (String "#" (" " ++ c)) with ("# " ++ c) in Hs.
      destruct (trim ("# " ++ c)); [discriminate|reflexivity]. }
    assert (includes "010" ("# " ++ c) = false) as Hnl.
    { rewrite includes_app, Hc. reflexivity. }
    cbn [map]. remember ("# " ++ c) as a eqn:Ea.
    destruct cs as [|c' cs].
    + change (join nl (a :: map (fun comment => "# " ++ comment) [])) with a.
      rewrite trimmed_lines_block by exact Hnl.
      cbn [filter]. rewrite Ht. reflexivity.
    + change (join nl (a :: map (fun comment => "# " ++ comment) (c' :: cs)))
        with (a ++ nl
              ++ join nl (map (fun comment => "# " ++ comment) (c' :: cs))).
      remember (join nl (map (fun comment => "# " ++ comment) (c' :: cs))) as j eqn:Ej.
      replace ((a ++ nl ++ j) ++ nl ++ rest) with (a ++ nl ++ (j ++ nl ++ rest))
        by (now rewrite !append_assoc).
      rewrite trimmed_lines_block by exact Hnl.
      cbn [filter]. rewrite Ht. subst j. rewrite IH by exact Hcs.
      reflexivity.
Qed.

Lemma trimmed_lines_header_line (label : string) (field : option string)
      (rest : string) :
  includes "010" label = false -> starts_nonws label = true ->
  clean_field field ->
  trimmed_lines (header_line label field ++ rest)
  = (header_text_line label field ++ trimmed_lines rest)%list.
Proof.
  intros Hl Hs Hf. unfold header_line, header_text_line.
  destruct field as [v|]; [|reflexivity].
  cbn [truthy_opt str_of_opt].
  destruct (truthy_str v) eqn:Ht; [|reflexivity].
  destruct Hf as (_ & Hnl & Etrim).
  destruct (trim_stable_shape v Ht Etrim) as [_ He].
  replace ((label ++ ": " ++ v ++ nl) ++ rest)
    with ((label ++ ": " ++ v) ++ nl ++ rest)
    by (now rewrite !append_assoc).
  rewrite trimmed_lines_block
    by (rewrite !includes_app, Hl, Hnl; reflexivity).
  rewrite trim_id.
  - cbn [filter]. rewrite truthy_str_app_l; [reflexivity|].
    destruct label; [discriminate|reflexivity].
  - now apply starts_nonws_app.
  - now apply ends_nonws_app, ends_nonws_app.
Qed.

Section HeaderAgain.
Context {number : Type} {JSN : JSNumber number}.

Lemma sp1_run_app (l1 l2 : list string) (st : reader_state) :
  sp1_run st (l1 ++ l2) = sp1_run (sp1_run st l1) l2.
Proof. apply fold_left_app. Qed.

Lemma set_header_field_clean (h : SP1Header) (key : string) (value : option string) :
  clean_header h -> clean_field value ->
  clean_header (set_header_field h key value).
Proof.
  intros (H1 & H2 & H3 & H4) Hv. unfold set_header_field. cbv zeta.
  repeat match goal with
         | |- context [if ?b then _ else _] => destruct b
         end; repeat split; assumption.
Qed.

Lemma sp1_next_clean (st : reader_state) (line : string) :
  includes "010" line = false ->
  clean_header (rs_header st) ->
  clean_header (rs_header (sp1_next st line)).
Proof.
  intros Hnl Hc.
  destruct (truthy_str line) eqn:Ht;
    [|now rewrite sp1_next_blank by exact Ht].
  destruct (is_comment line) eqn:Hcm.
  - rewrite sp1_next_comment by exact Hcm. exact Hc.
  - destruct (rs_inHeader st && includes ":" line) eqn:Hm.
    + destruct (sp1_next_header st line Ht Hcm Hm) as (key & rest & E & ->).
      cbn [rs_header]. apply set_header_field_clean; [exact Hc|].
      pose proof (split_char_no_sep ":" line) as Hcol.
      pose proof (split_char_pieces ":" "010" line Hnl) as Hpn.
      destruct (split_char ":" line) as [|p0 [|p1 ps]];
        [discriminate| |].
      * injection E as <- <-. exact I.
      * injection E as <- <-. cbn [nth_error clean_field].
        inversion Hcol as [|? ? _ Hcol']; subst.
        inversion Hcol' as [|? ? Hc1 _]; subst.
        inversion Hpn as [|? ? _ Hpn']; subst.
        inversion Hpn' as [|? ? Hn1 _]; subst.
        repeat split.
        -- now apply includes_trim.
        -- now apply includes_trim.
        -- apply trim_idem.
    + rewrite sp1_next_data by assumption. exact Hc.
Qed.

Lemma sp1_run_clean (lines : list string) :
  forall st : reader_state,
    Forall (fun line => includes "010" line = false) lines ->
    clean_header (rs_header st) ->
    clean_header (rs_header (sp1_run st lines)).
Proof.
  induction lines as [|l lines IH]; intros st Hl Hc; [exact Hc|].
  inversion Hl as [|? ? H1 H2]; subst.
  rewrite sp1_run_cons. apply IH; [exact H2|]. now apply sp1_next_clean.
Qed.

Lemma sp1_next_some_comments (st : reader_state) (line : string) :
  hdr_comments (rs_header st) <> Some [] ->
  hdr_comments (rs_header (sp1_next st line)) <> Some [].
Proof.
  intros Hc.
  destruct (truthy_str line) eqn:Ht;
    [|now rewrite sp1_next_blank by exact Ht].
  destruct (is_comment line) eqn:Hcm.
  - rewrite sp1_next_comment by exact Hcm. cbn.
    intros E. injection E as E. now apply app_eq_nil in E.
  - destruct (rs_inHeader st && includes ":" line) eqn:Hm.
    + destruct (sp1_next_header st line Ht Hcm Hm) as (key & rest & E & ->).
      cbn [rs_header]. now rewrite set_header_field_comments.
    + rewrite sp1_next_data by assumption. exact Hc.
Qed.

Lemma sp1_run_some_comments (lines : list string) :
  forall st : reader_state,
    hdr_comments (rs_header st) <> Some [] ->
    hdr_comments (rs_header (sp1_run st lines)) <> Some [].
Proof.
  induction lines as [|l lines IH]; intros st Hc; [exact Hc|].
  rewrite sp1_run_cons. apply IH. now apply sp1_next_some_comments.
Qed.

Lemma sp1_next_field_line (st : reader_state) (label v : string) :
  rs_inHeader st = true ->
  truthy_str label = true -> is_comment label = false ->
  includes ":" label = false -> trim label = label ->
  includes ":" v = false -> trim v = v ->
  sp1_next st (label ++ ": " ++ v)
  = {| rs_header := set_header_field (rs_header st) label (Some v);
       rs_points := rs_points st;
       rs_inHeader := true |}.
Proof.
  intros Hm Hl Hc Hcol El Hv Ev.
  destruct (sp1_next_header st (label ++ ": " ++ v)) as (key & rest & E & ->).
  - now apply truthy_str_app_l.
  - unfold is_comment in *. now rewrite startsWith_app.
  - rewrite Hm, includes_app. simpl. now rewrite orb_true_r.
  - change (label ++ ": " ++ v) with (label ++ String ":" (" " ++ v)) in E.
    rewrite split_char_line in E by exact Hcol.
    rewrite split_char_whole in E by (simpl; exact Hv).
    cbn [map] in E. rewrite trim_after_space, El, Ev in E.
    injection E as <- <-. now rewrite Hm.
Qed.

Lemma sp1_run_header_text_line (st : reader_state) (label : string)
      (field : option string) :
  rs_inHeader st = true ->
  truthy_str label = true -> is_comment label = false ->
  includes ":" label = false -> trim label = label ->
  clean_field field ->
  sp1_run st (header_text_line label field)
  = if truthy_opt field
    then {| rs_header := set_header_field (rs_header st) label field;
            rs_points := rs_points st;
            rs_inHeader := true |}
    else st.
Proof.
  intros Hm Hl Hc Hcol El Hf. unfold header_text_line.
  destruct field as [v|]; [|reflexivity]. cbn [truthy_opt str_of_opt].
  destruct (truthy_str v); [|reflexivity].
  destruct Hf as (Hv & _ & Ev).
  unfold sp1_run. cbn [fold_left]. now apply sp1_next_field_line.
Qed.

Lemma sp1_run_comment_lines (lines : list string) :
  forall st : reader_state,
    Forall (fun line => is_comment line = true) lines ->
    rs_inHeader (sp1_run st lines) = rs_inHeader st
    /\ rs_points (sp1_run st lines) = rs_points st
    /\ hdr_version (rs_header (sp1_run st lines)) = hdr_version (rs_header st)
    /\ hdr_survey (rs_header (sp1_run st lines)) = hdr_survey (rs_header st)
    /\ hdr_datum (rs_header (sp1_run st lines)) = hdr_datum (rs_header st)
    /\ hdr_projection (rs_header (sp1_run st lines))
       = hdr_projection (rs_header st).
Proof.
  induction lines as [|l lines IH]; intros st H; [repeat split|].
  inversion H as [|? ? H1 H2]; subst.
  rewrite sp1_run_cons.
  destruct (IH (sp1_next st l) H2) as (I0 & I1 & I2 & I3 & I4 & I5).
  rewrite I0, I1, I2, I3, I4, I5, sp1_next_comment by exact H1.
  repeat split.
Qed.

Lemma sp1_run_point_lines (lines : list string) :
  forall st : reader_state,
    Forall (fun l => truthy_str l = true /\ is_comment l = false) lines ->
    rs_inHeader st && includes ":" (hd "" lines) = false ->
    rs_header (sp1_run st lines) = rs_header st.
Proof.
  induction lines as [|l lines IH]; intros st H Hm; [reflexivity|].
  inversion H as [|? ? [Ht Hc] H2]; subst.
  rewrite sp1_run_cons, IH.
  - now rewrite sp1_next_data.
  - exact H2.
  - now rewrite sp1_next_data.
Qed.

Lemma generated_lines (h : SP1Header) (pts : list SP1Point) :
  header_one_line h -> clean_header h ->
  Forall (fun l => includes "010" l = false
                   /\ starts_nonws l = true /\ ends_nonws l = true)
         (map sp1_line pts) ->
  trimmed_lines (generateSP1Content {| header := h; points := pts |})
  = (map (fun c => trim ("# " ++ c)) (comments_list h)
     ++ header_text_line "Version" (hdr_version h)
     ++ header_text_line "Survey" (hdr_survey h)
     ++ header_text_line "Datum" (hdr_datum h)
     ++ header_text_line "Projection" (hdr_projection h)
     ++ map sp1_line pts)%list.
Proof.
  intros (_ & _ & _ & _ & H5) (C1 & C2 & C3 & C4) Hp.
  unfold generateSP1Content. cbn [header points].
  rewrite (fold_left_append (fun point => sp1_line point ++ nl)).
  rewrite !append_assoc.
  assert (trimmed_lines
            (header_line "Version" (hdr_version h)
             ++ header_line "Survey" (hdr_survey h)
             ++ header_line "Datum" (hdr_datum h)
             ++ header_line "Projection" (hdr_projection h)
             ++ nl ++ concat_all (map (fun point => sp1_line point ++ nl) pts))
          = (header_text_line "Version" (hdr_version h)
             ++ header_text_line "Survey" (hdr_survey h)
             ++ header_text_line "Datum" (hdr_datum h)
             ++ header_text_line "Projection" (hdr_projection h)
             ++ map sp1_line pts)%list) as Hrest.
  { rewrite !trimmed_lines_header_line by (reflexivity || assumption).
    match goal with
    | |- context [trimmed_lines (nl ++ ?r)] =>
        change (nl ++ r) with ("" ++ nl ++ r)
    end.
    rewrite (trimmed_lines_block "") by reflexivity.
    rewrite <- (map_map sp1_line (fun l => l ++ nl)).
    now rewrite points_text_lines. }
  unfold comments_list in *.
  destruct (hdr_comments h) as [cs|].
  - simpl append at 1. rewrite !append_assoc.
    rewrite trimmed_lines_comments by exact H5. f_equal. exact Hrest.
  - exact Hrest.
Qed.

End HeaderAgain.


Lemma comment_line_text (c : string) :
  trim c = c -> comment_text (trim ("# " ++ c)) = c.
Proof.
  intros E. destruct c as [|x c]; [reflexivity|].
  destruct (trim_stable_shape (String x c) eq_refl E) as [_ He].
  rewrite trim_id; [|reflexivity|now apply ends_nonws_app].
  unfold comment_text. exact E.
Qed.

Lemma comments_determined (h1 h2 : SP1Header) :
  comments_list h1 = comments_list h2 ->
  hdr_comments h1 <> Some [] -> hdr_comments h2 <> Some [] ->
  hdr_comments h1 = hdr_comments h2.
Proof.
  unfold comments_list.
  destruct (hdr_comments h1) as [[|c1 l1]|], (hdr_comments h2) as [[|c2 l2]|];
    intros E H1 H2; try congruence.
Qed.

Lemma set_header_field_Version (h : SP1Header) (v : option string) :
  set_header_field h "Version" v
  = {| hdr_version := v; hdr_survey := hdr_survey h; hdr_datum := hdr_datum h;
       hdr_projection := hdr_projection h; hdr_comments := hdr_comments h |}.
Proof. reflexivity. Qed.

Lemma set_header_field_Survey (h : SP1Header) (v : option string) :
  set_header_field h "Survey" v
  = {| hdr_version := hdr_version h; hdr_survey := v; hdr_datum := hdr_datum h;
       hdr_projection := hdr_projection h; hdr_comments := hdr_comments h |}.
Proof. reflexivity. Qed.

Lemma set_header_field_Datum (h : SP1Header) (v : option string) :
  set_header_field h "Datum" v
  = {| hdr_version := hdr_version h; hdr_survey := hdr_survey h; hdr_datum := v;
       hdr_projection := hdr_projection h; hdr_comments := hdr_comments h |}.
Proof. reflexivity. Qed.

Lemma set_header_field_Projection (h : SP1Header) (v : option string) :
  set_header_field h "Projection" v
  = {| hdr_version := hdr_version h; hdr_survey := hdr_survey h;
       hdr_datum := hdr_datum h; hdr_projection := v;
       hdr_comments := hdr_comments h |}.
Proof. reflexivity. Qed.

Section HeaderRoundTrip.
Context {number : Type} {JSN : JSNumber number} {laws : JSNumberLaws}.

(** X16.  For valid SP1 text the round trip keeps the header: the
    comments come back as they were read, in order, and each of
    [version], [survey], [datum] and [projection] comes back as it was
    read, except that a field read as the empty string comes back
    absent. *)
Theorem sp1_round_trip_header (content : string) :
  valid_sp1 content = true ->
  exists data data' : SP1Data,
    parseSP1File content = Ok data
    /\ parseSP1File (generateSP1Content data) = Ok data'
    /\ hdr_version (header data') = written_field (hdr_version (header data))
    /\ hdr_survey (header data') = written_field (hdr_survey (header data))
    /\ hdr_datum (header data') = written_field (hdr_datum (header data))
    /\ hdr_projection (header data')
       = written_field (hdr_projection (header data))
    /\ hdr_comments (header data') = hdr_comments (header data).
Proof.
  intros Hvalid. unfold valid_sp1 in Hvalid. rewrite forallb_forall in Hvalid.
  set (ls := trimmed_lines content) in *.
  set (st := sp1_run initial_state ls).
  exists {| header := rs_header st; points := rs_points st |}.
  eexists. split; [apply parseSP1File_run|].
  split; [apply parseSP1File_run|]. cbn [header].
  assert (rs_points st = points_of_lines (data_lines true ls)) as Epts
      by (unfold st; now rewrite sp1_run_points).
  assert (Forall (fun d => starts_nonws d = true /\ ends_nonws d = true
                           /\ is_comment d = false /\ valid_line d = true)
                 (data_lines true ls)) as HD.
  { apply Forall_forall. intros d Hd.
    destruct (data_lines_In ls true d Hd) as (Hin & Ht & Hc).
    pose proof (trimmed_lines_shape content) as Hshape.
    rewrite Forall_forall in Hshape. destruct (Hshape d Hin) as [Hs He].
    repeat split; auto. }
  destruct (written_lines _ HD) as (W1 & W2 & W3 & _).
  rewrite <- Epts in W1, W2, W3.
  assert (includes ":" (hd "" (data_lines true ls)) = false) as Hhead.
  { destruct (data_lines true ls) as [|d ds] eqn:E; [reflexivity|].
    simpl. eapply data_lines_head. exact E. }
  specialize (W3 Hhead).
  assert (header_one_line (rs_header st)) as Hone.
  { apply sp1_run_one_line;
      [apply trimmed_lines_no_newline|repeat split; try exact I; constructor]. }
  assert (clean_header (rs_header st)) as Hclean.
  { apply sp1_run_clean;
      [apply trimmed_lines_no_newline|repeat split]. }
  assert (Forall (fun c => trim c = c) (comments_list (rs_header st))) as Hcs.
  { unfold st. rewrite sp1_run_comments. cbn [app].
    apply Forall_forall. intros c Hc. apply in_map_iff in Hc.
    destruct Hc as (l & <- & _). apply trim_idem. }
  assert (hdr_comments (rs_header st) <> Some []) as Hsome
      by (apply sp1_run_some_comments; discriminate).
  rewrite (generated_lines _ _ Hone Hclean W1).
  set (h := rs_header st) in *. set (pts := rs_points st) in *.
  set (CL := map (fun c => trim ("# " ++ c)) (comments_list h)).
  rewrite !sp1_run_app.
  assert (Forall (fun line => is_comment line = true) CL) as HCL.
  { apply Forall_forall. intros l Hl. apply in_map_iff in Hl.
    destruct Hl as (c & <- & _). unfold is_comment.
    change ("# " ++ c) with (String "#" (" " ++ c)).
    now apply startsWith_trim. }
  destruct (sp1_run_comment_lines CL initial_state HCL)
    as (M1 & P1 & V1 & S1 & D1 & J1).
  assert (comments_list (rs_header (sp1_run initial_state CL)) = comments_list h)
    as K1.
  { rewrite sp1_run_comments. cbn [app].
    replace (filter is_comment CL) with CL
      by (symmetry; apply forallb_filter_id; now apply forallb_forall, Forall_forall).
    unfold CL. rewrite map_map.
    rewrite <- (map_id (comments_list h)) at 2.
    apply map_ext_in. intros c Hc. apply comment_line_text.
    rewrite Forall_forall in Hcs. now apply Hcs. }
  set (s1 := sp1_run initial_state CL) in *.
  destruct Hclean as (C1 & C2 & C3 & C4).
  rewrite sp1_run_point_lines; [| exact W2 |].
  2:{ rewrite W3. apply andb_false_r. }
  assert (forall (s : reader_state) label field,
             rs_inHeader s = true ->
             truthy_str label = true -> is_comment label = false ->
             includes ":" label = false -> trim label = label ->
             clean_field field ->
             rs_inHeader (sp1_run s (header_text_line label field)) = true)
    as Hmode.
  { intros s label field Hm Hl Hc Hcol El Hf.
    rewrite sp1_run_header_text_line by assumption.
    destruct (truthy_opt field); [reflexivity|exact Hm]. }
  cbn [initial_state rs_inHeader rs_header empty_header] in M1, V1, S1, D1, J1.
  set (s2 := sp1_run s1 (header_text_line "Version" (hdr_version h))).
  assert (rs_inHeader s2 = true) as M2 by (apply Hmode; auto).
  set (s3 := sp1_run s2 (header_text_line "Survey" (hdr_survey h))).
  assert (rs_inHeader s3 = true) as M3 by (apply Hmode; auto).
  set (s4 := sp1_run s3 (header_text_line "Datum" (hdr_datum h))).
  assert (rs_inHeader s4 = true) as M4 by (apply Hmode; auto).
  assert (rs_header s2
          = if truthy_opt (hdr_version h)
            then set_header_field (rs_header s1) "Version" (hdr_version h)
            else rs_header s1) as E2.
  { unfold s2. rewrite sp1_run_header_text_line by auto.
    now destruct (truthy_opt (hdr_version h)). }
  assert (rs_header s3
          = if truthy_opt (hdr_survey h)
            then set_header_field (rs_header s2) "Survey" (hdr_survey h)
            else rs_header s2) as E3.
  { unfold s3. rewrite sp1_run_header_text_line by auto.
    now destruct (truthy_opt (hdr_survey h)). }
  assert (rs_header s4
          = if truthy_opt (hdr_datum h)
            then set_header_field (rs_header s3) "Datum" (hdr_datum h)
            else rs_header s3) as E4.
  { unfold s4. rewrite sp1_run_header_text_line by auto.
    now destruct (truthy_opt (hdr_datum h)). }
  rewrite sp1_run_header_text_line by auto.
  unfold written_field.
  destruct (truthy_opt (hdr_projection h)); cbn [rs_header];
    rewrite ?E4, ?E3, ?E2;
    destruct (truthy_opt (hdr_datum h)), (truthy_opt (hdr_survey h)),
      (truthy_opt (hdr_version h));
    rewrite ?set_header_field_Version, ?set_header_field_Survey,
      ?set_header_field_Datum, ?set_header_field_Projection;
    cbn [hdr_version hdr_survey hdr_datum hdr_projection hdr_comments];
    rewrite ?V1, ?S1, ?D1, ?J1; repeat split;
    (apply comments_determined;
     [exact K1|apply sp1_run_some_comments; discriminate|exact Hsome]).
Qed.

End HeaderRoundTrip.


(** ** Data written as SP1 text and read again *)

Section WrittenData.
Context {number : Type} {JSN : JSNumber number} {laws : JSNumberLaws}.

Lemma writable_point_line (p : SP1Point) :
  writable_point p ->
  Forall (fun t => is_token t = true) (line_tokens p)
  /\ is_comment (sp1_line p) = false
  /\ sp1_point (split_ws (sp1_line p)) = Some (read_back_point p).
Proof.
  intros (Hid & Hhash & He & Hv).
  assert (line_tokens p
          = ([str_of_opt (pt_id p); toFixed (pt_x p) 6; toFixed (pt_y p) 6]
             ++ match pt_elevation p with
                | Some e => [toFixed e 3]
                | None => []
                end ++ attribute_values p)%list) as El by reflexivity.
  assert (Forall (fun t => is_token t = true) (line_tokens p)) as Htok.
  { rewrite El. repeat (apply Forall_app; split).
    - repeat constructor; auto using toFixed_token.
    - destruct (pt_elevation p); repeat constructor; auto using toFixed_token.
    - exact Hv. }
  split; [exact Htok|]. split.
  - unfold is_comment. rewrite sp1_line_tokens, El. cbn [app].
    rewrite join_tokens_first_char by now apply token_truthy. exact Hhash.
  - rewrite sp1_line_tokens, split_ws_join;
      [|rewrite El; discriminate|exact Htok].
    rewrite El. unfold read_back_point.
    destruct (pt_elevation p) as [e|].
    + cbn [app sp1_point option_map].
      rewrite (toFixed_reparse e 3 He). cbn [negb].
      destruct (attribute_values p) as [|v vs]; [reflexivity|].
      do 2 f_equal.
      rewrite sp1_attributes_entries; [reflexivity|lia|reflexivity].
    + rewrite He. reflexivity.
Qed.

(** X17.  Data whose header fields and comments have no newline and
    whose points are writable are read back from the text written for
    them, provided the line of the first point has no colon: one point
    per point, in order, with the id unchanged, the coordinates and the
    elevation through their 6- and 3-decimal renderings, and the
    attribute values in order under the keys [attr1], [attr2], ... *)
Theorem written_sp1_read_back (data : SP1Data) :
  header_one_line (header data) ->
  Forall writable_point (points data) ->
  includes ":" (hd "" (map sp1_line (points data))) = false ->
  exists data' : SP1Data,
    parseSP1File (generateSP1Content data) = Ok data'
    /\ points data' = map read_back_point (points data).
Proof.
  intros Hone Hw Hcolon. destruct data as [h pts]. cbn [header points] in *.
  eexists. split; [apply parseSP1File_run|]. cbn [points].
  rewrite sp1_run_points. cbn [initial_state rs_points rs_inHeader app].
  assert (Forall (fun l => includes "010" l = false
                           /\ starts_nonws l = true /\ ends_nonws l = true)
                 (map sp1_line pts)) as W1.
  { apply Forall_forall. intros l Hl. apply in_map_iff in Hl.
    destruct Hl as (p & <- & Hp). rewrite Forall_forall in Hw.
    destruct (writable_point_line p (Hw p Hp)) as (Htok & _ & _).
    assert (line_tokens p <> []) as Hne by (unfold line_tokens; discriminate).
    rewrite sp1_line_tokens. repeat split.
    - apply join_tokens_includes; [reflexivity|].
      eapply Forall_impl; [|exact Htok]. intros t Ht.
      apply has_ws_includes; [reflexivity|now apply token_no_ws].
    - now apply join_tokens_starts.
    - now apply join_tokens_ends. }
  assert (Forall (fun l => truthy_str l = true /\ is_comment l = false)
                 (map sp1_line pts)) as W2.
  { apply Forall_forall. intros l Hl.
    pose proof (proj1 (Forall_forall _ _) W1 l Hl) as (_ & Hs & _).
    apply in_map_iff in Hl. destruct Hl as (p & <- & Hp).
    rewrite Forall_forall in Hw.
    destruct (writable_point_line p (Hw p Hp)) as (_ & Hc & _).
    split; [|exact Hc]. destruct (sp1_line p); [discriminate|reflexivity]. }
  rewrite generated_data_lines by assumption.
  rewrite data_lines_points by assumption.
  clear W1 W2 Hcolon. unfold points_of_lines.
  induction Hw as [|p pts Hp Hpts IH]; [reflexivity|].
  cbn [map flat_map].
  destruct (writable_point_line p Hp) as (_ & _ & ->).
  cbn [app]. now rewrite IH.
Qed.

End WrittenData.


(** ** Data written as CSV and read again *)











Section CsvRoundTrip.
Context {number : Type} {JSN : JSNumber number}.






End CsvRoundTrip.


(** ** From the file to the download *)

Section EndToEnd.
Context {number : Type} {JSN : JSNumber number}.

(** X19.  A CSV file the reader accepts, once converted, is downloaded
    from the export tab as the SP1 text of its rows, under the name of
    the CSV file with its extension replaced, as [text/plain], whatever
    the state of the component before. *)
Theorem export_then_download (st : @AppState number) (name content : string)
        (data : SP1Data) :
  parseCSVToSP1 content export_header = Ok data ->
  snd (app_run st [ExportSelected name; ExportSettled (Resolved content);
                   ExportDownloadClicked])
  = [ShowToast
       {| toast_title := "Export successful";
          toast_description :=
            "Converted " ++ string_of_nat (List.length (points data))
            ++ " points to SP1 format";
          toast_variant := None |};
     StartDownload
       {| dl_data := TextData (generateSP1Content data);
          dl_filename := replaceExtension name;
          dl_mimeType := "text/plain" |}].
Proof.
  intros E. cbn [app_run app_step].
  unfold handleCSVExport_resume, awaited. rewrite E. cbn [bind].
  unfold handleExportDownload. cbn [convertedData truthy_converted].
  rewrite generateSP1Content_truthy. reflexivity.
Qed.

(** X20.  Any text, once imported, is downloaded from the import tab as
    the GeoJSON of the points read from it, under the name
    [converted.geojson], as [application/geo+json], whatever the state
    of the component before. *)
Theorem import_then_download (st : @AppState number) (name content : string) :
  exists data : SP1Data,
    parseSP1File content = Ok data
    /\ snd (app_run st [ImportSelected name; ImportSettled (Resolved content);
                        ImportDownloadClicked])
       = [ShowToast
            {| toast_title := "Import successful";
               toast_description :=
                 "Imported " ++ string_of_nat (List.length (points data))
                 ++ " points from SP1 file";
               toast_variant := None |};
          StartDownload
            {| dl_data := GeoJSONData (convertToGeoJSON data);
               dl_filename := "converted.geojson";
               dl_mimeType := "application/geo+json" |}].
Proof.
  eexists. split; [apply parseSP1File_run|].
  cbn [app_run app_step].
  unfold handleSP1Import_resume, awaited. rewrite parseSP1File_run.
  reflexivity.
Qed.

End EndToEnd.


(** ** Line ends *)

Lemma trimEnd_snoc_ws (s : string) (c : ascii) :
  is_ws c = true -> trimEnd (s ++ String c "") = trimEnd s.
Proof.
  intros Hc. induction s as [|d s IH]; cbn [append trimEnd].
  - now rewrite Hc.
  - now rewrite IH.
Qed.

Lemma trim_snoc_ws (s : string) (c : ascii) :
  is_ws c = true -> trim (s ++ String c "") = trim s.
Proof.
  intros Hc. unfold trim. induction s as [|d s IH]; cbn [append trimStart].
  - now rewrite Hc.
  - destruct (is_ws d); [exact IH|].
    apply (trimEnd_snoc_ws (String d s) c Hc).
Qed.

Lemma split_char_crlf (s : string) :
  Forall2 (fun a b => a = b \/ a = b ++ String "013" "")
          (split_char "010" (crlf s)) (split_char "010" s).
Proof.
  induction s as [|c s IH]; [repeat constructor; now left|].
  cbn [crlf]. destruct (Ascii.eqb c "010") eqn:Ec.
  - apply Ascii.eqb_eq in Ec. subst c.
    change (split_char "010" (String "013" (String "010" (crlf s))))
      with (String "013" "" :: split_char "010" (crlf s)).
    change (split_char "010" (String "010" s))
      with ("" :: split_char "010" s).
    constructor; [now right|exact IH].
  - cbn [split_char]. rewrite Ec.
    destruct (split_char_cons "010" (crlf s)) as (h & t & E).
    destruct (split_char_cons "010" s) as (h' & t' & E').
    rewrite E, E' in *. inversion IH as [|? ? ? ? Hh Ht]; subst.
    constructor; [|exact Ht].
    destruct Hh as [-> | ->]; [now left|now right].
Qed.

Lemma trimmed_lines_crlf (s : string) :
  trimmed_lines (crlf s) = trimmed_lines s.
Proof.
  unfold trimmed_lines. f_equal.
  pose proof (split_char_crlf s) as H.
  induction H as [|a b l l' Hab _ IH]; [reflexivity|].
  cbn [map]. rewrite IH. f_equal.
  destruct Hab as [-> | ->]; [reflexivity|].
  now apply trim_snoc_ws.
Qed.

Section LineEnds.
Context {number : Type} {JSN : JSNumber number}.

(** X22.  Both readers treat a line end written as carriage return and
    line feed like a line feed: putting a carriage return before every
    line feed of a text changes neither the result nor the error. *)
Theorem crlf_line_ends (content : string) (hdr : SP1Header) :
  parseSP1File (crlf content) = parseSP1File content
  /\ parseCSVToSP1 (crlf content) hdr = parseCSVToSP1 content hdr.
Proof.
  unfold parseSP1File, parseCSVToSP1.
  now rewrite trimmed_lines_crlf.
Qed.

End LineEnds.


(** ** Instances of the further properties *)

Section ConcreteMore.
Import Binary64 Binary64Facts.

(** Two lines read after the first point: neither the header line nor
    the comment brings header mode back. *)
Lemma header_fields_fixed_in_data_mode_witness :
  rs_inHeader st_data = false
  /\ exists st' : reader_state,
      sp1_loop (JSN := binary64) st_data ["Version: 9"; "# late"] = Ok st'
      /\ rs_inHeader st' = false
      /\ hdr_version (rs_header st') = hdr_version (rs_header st_data)
      /\ hdr_survey (rs_header st') = hdr_survey (rs_header st_data)
      /\ hdr_datum (rs_header st') = hdr_datum (rs_header st_data)
      /\ hdr_projection (rs_header st') = hdr_projection (rs_header st_data).
Proof.
  split; [reflexivity|].
  apply (header_fields_fixed_in_data_mode (JSN := binary64)
           ["Version: 9"; "# late"] st_data).
  reflexivity.
Defined.

(** A projection with an EPSG code, read in the initial state. *)
Lemma header_line_key_and_value_witness :
  (truthy_str "Projection: EPSG:32633" = true
   /\ is_comment "Projection: EPSG:32633" = false
   /\ rs_inHeader st0 = true
   /\ includes ":" "Projection: EPSG:32633" = true)
  /\ sp1_step (JSN := binary64) st0 "Projection: EPSG:32633"
     = Ok {| rs_header :=
               set_header_field (rs_header st0)
                 (trim (before_first ":" "Projection: EPSG:32633"))
                 (Some (trim (before_first ":"
                                (after_first ":" "Projection: EPSG:32633"))));
             rs_points := rs_points st0;
             rs_inHeader := true |}.
Proof.
  split; [repeat split|].
  apply (header_line_key_and_value (JSN := binary64) st0
           "Projection: EPSG:32633"); reflexivity.
Defined.

(** A point line with a time stamp at the top of a file. *)
Lemma unknown_header_key_ignored_witness :
  (truthy_str "P7 10:30 5 6" = true
   /\ is_comment "P7 10:30 5 6" = false
   /\ rs_inHeader st0 = true
   /\ includes ":" "P7 10:30 5 6" = true
   /\ ~ In (toLowerCase (trim (before_first ":" "P7 10:30 5 6")))
          ["version"; "survey"; "datum"; "projection"])
  /\ sp1_step (JSN := binary64) st0 "P7 10:30 5 6" = Ok st0.
Proof.
  assert (~ In (toLowerCase (trim (before_first ":" "P7 10:30 5 6")))
               ["version"; "survey"; "datum"; "projection"]) as H
      by (simpl; intuition discriminate).
  split; [repeat split; exact H|].
  apply (unknown_header_key_ignored (JSN := binary64) st0 "P7 10:30 5 6");
    [reflexivity|reflexivity|reflexivity|reflexivity|exact H].
Defined.

Lemma dropped_file_extension_witness :
  includes "." "CSV" = false
  /\ fileExtension ("survey.2024" ++ "." ++ "CSV") = "." ++ toLowerCase "CSV"
  /\ fileExtension "CSV" = "." ++ toLowerCase "CSV".
Proof.
  split; [reflexivity|].
  apply (dropped_file_extension "survey.2024" "CSV"). reflexivity.
Defined.

Lemma export_file_renamed_witness :
  (truthy_str "csv" = true /\ extension_chars "csv" = true)
  /\ replaceExtension ("survey.2024" ++ "." ++ "csv") = "survey.2024" ++ ".sp1".
Proof.
  split; [split; reflexivity|].
  apply (export_file_renamed "survey.2024" "csv"); reflexivity.
Defined.

Lemma dropped_csv_export_name_witness :
  handleDrop [".csv"] (Some "Survey.CSV") = DropSelected "Survey.CSV"
  /\ exists base ext : string,
      toLowerCase ext = "csv"
      /\ (("Survey.CSV" = base ++ "." ++ ext
           /\ fileName (handleCSVExport_start (number := spec_float)
                          initial_app "Survey.CSV")
              = base ++ ".sp1")
          \/ ("Survey.CSV" = ext
              /\ fileName (handleCSVExport_start (number := spec_float)
                             initial_app "Survey.CSV")
                 = "Survey.CSV")).
Proof.
  split; [reflexivity|].
  apply (dropped_csv_export_name (number := spec_float) initial_app "Survey.CSV").
  reflexivity.
Defined.

(** An attribute named [id] replaces the id of the point. *)
Lemma geojson_properties_witness :
  (forall attrs, pt_attributes sample_point = Some attrs -> NoDup (map fst attrs))
  /\ obj_get (feature_properties sample_point) "id"
     = match attribute_of sample_point "id" with
       | Some v => Some (VString v)
       | None =>
           if String.eqb "id" "id"
           then Some (match pt_id sample_point with
                      | Some s => VString s
                      | None => VUndefined
                      end)
           else if String.eqb "id" "elevation"
                then Some (match pt_elevation sample_point with
                           | Some e => VNumber e
                           | None => VUndefined
                           end)
                else None
       end.
Proof.
  assert (forall attrs, pt_attributes sample_point = Some attrs ->
                        NoDup (map fst attrs)) as H.
  { intros attrs E. injection E as <-.
    repeat constructor; simpl; intuition discriminate. }
  split; [exact H|].
  apply (geojson_properties sample_point "id" H).
Defined.

Lemma csv_points_witness :
  exists data : SP1Data,
    parseCSVToSP1 (JSN := binary64) sample_csv empty_header = Ok data
    /\ header data = empty_header
    /\ exists (headerLine : string) (rows : list string),
        trimmed_lines sample_csv = headerLine :: rows
        /\ (let columns := csv_cells headerLine in
            points data
            = map (fun values =>
                     csv_point columns values
                       (findIndex (test_ci "id") columns)
                       (findIndex (test_ci "x") columns)
                       (findIndex (test_ci "y") columns)
                       (findIndex (fun col => test_ci "elevation" col
                                              || test_ci "z" col) columns))
                  (filter (fun values => (3 <=? List.length values)%nat)
                          (map csv_cells rows)))
        /\ List.length (points data) <= List.length rows.
Proof.
  eexists. split; [vm_compute; reflexivity|].
  apply (csv_points (JSN := binary64) sample_csv empty_header).
  vm_compute. reflexivity.
Defined.

Lemma sp1_round_trip_header_witness :
  valid_sp1 (JSN := binary64) sample_sp1 = true
  /\ exists data data' : SP1Data,
      parseSP1File (JSN := binary64) sample_sp1 = Ok data
      /\ parseSP1File (generateSP1Content data) = Ok data'
      /\ hdr_version (header data') = written_field (hdr_version (header data))
      /\ hdr_survey (header data') = written_field (hdr_survey (header data))
      /\ hdr_datum (header data') = written_field (hdr_datum (header data))
      /\ hdr_projection (header data')
         = written_field (hdr_projection (header data))
      /\ hdr_comments (header data') = hdr_comments (header data).
Proof.
  split; [reflexivity|].
  apply (sp1_round_trip_header (laws := binary64_laws) sample_sp1). reflexivity.
Defined.

Lemma written_sp1_read_back_witness :
  (header_one_line (header sample_data)
   /\ Forall writable_point (points sample_data)
   /\ includes ":" (hd "" (map sp1_line (points sample_data))) = false)
  /\ exists data' : SP1Data,
      parseSP1File (JSN := binary64) (generateSP1Content sample_data) = Ok data'
      /\ points data' = map read_back_point (points sample_data).
Proof.
  assert (header_one_line (header sample_data)) as H1
      by (repeat split; constructor).
  assert (Forall writable_point (points sample_data)) as H2.
  { repeat constructor; vm_compute; repeat constructor. }
  assert (includes ":" (hd "" (map sp1_line (points sample_data))) = false)
    as H3 by (vm_compute; reflexivity).
  split; [exact (conj H1 (conj H2 H3))|].
  apply (written_sp1_read_back (laws := binary64_laws) sample_data H1 H2 H3).
Defined.


Lemma export_then_download_witness :
  exists data : SP1Data,
    parseCSVToSP1 (JSN := binary64) sample_csv export_header = Ok data
    /\ snd (app_run initial_app
              [ExportSelected "points.csv"; ExportSettled (Resolved sample_csv);
               ExportDownloadClicked])
       = [ShowToast
            {| toast_title := "Export successful";
               toast_description :=
                 "Converted " ++ string_of_nat (List.length (points data))
                 ++ " points to SP1 format";
               toast_variant := None |};
          StartDownload
            {| dl_data := TextData (generateSP1Content data);
               dl_filename := replaceExtension "points.csv";
               dl_mimeType := "text/plain" |}].
Proof.
  eexists. split; [vm_compute; reflexivity|].
  apply (export_then_download (JSN := binary64) initial_app "points.csv" sample_csv).
  vm_compute. reflexivity.
Defined.

(** The download button of the import tab after an export: the file is
    named [converted.csv] and holds the SP1 text of the export. *)
Example import_tab_downloads_export :
  snd (app_run (JSN := binary64) initial_app
         [ImportSelected "a.sp1"; ImportSettled (Resolved "P1 1 2");
          ExportSelected "b.csv";
          ExportSettled (Resolved ("ID,X,Y" ++ nl ++ "P1,1,2"));
          ImportDownloadClicked])
  = [ShowToast {| toast_title := "Import successful";
                  toast_description := "Imported 1 points from SP1 file";
                  toast_variant := None |};
     ShowToast {| toast_title := "Export successful";
                  toast_description := "Converted 1 points to SP1 format";
                  toast_variant := None |};
     StartDownload
       {| dl_data :=
            TextData ("Version: 1.0" ++ nl ++ "Survey: Converted from CSV" ++ nl
                      ++ "Datum: WGS84" ++ nl ++ nl
                      ++ "P1" ++ tab ++ "1.000000" ++ tab ++ "2.000000" ++ nl);
          dl_filename := "converted.csv";
          dl_mimeType := "text/csv" |}].
Proof. vm_compute. reflexivity. Qed.

(** Outside valid text the round trip can change the header: a point
    line with a colon, met in data mode, is written first and read back
    as a header line. *)
Example version_set_by_point_line :
  valid_sp1 (JSN := binary64) ("junk" ++ nl ++ "version:9 3 4") = false
  /\ match parseSP1File (JSN := binary64) ("junk" ++ nl ++ "version:9 3 4") with
     | Ok data =>
         (hdr_version (header data),
          match parseSP1File (JSN := binary64) (generateSP1Content data) with
          | Ok data' => hdr_version (header data')
          | Throw _ => None
          end)
     | Throw _ => (None, None)
     end
     = (None, Some ("9" ++ tab ++ "3.000000" ++ tab ++ "4.000000")).
Proof. split; vm_compute; reflexivity. Qed.

End ConcreteMore.
